(** * pyQCD [DataSet]: a shallow embedding of [pyQCD/core/dataset.py]

    The module under study is Python 2 code (it uses [xrange] and
    [cPickle]).  The embedding keeps the Python 2 meaning of the
    operators the code relies on: [/] on two ints is floor division,
    [int.__add__] of a float answers [NotImplemented], and so on.

    Modelling conventions.
    - Exceptions: a computation is a [result], either [Ok v] or
      [Raise e]; exceptions that the source catches are matched on.
    - Floats are idealised as exact reals ([R]); rounding, overflow and
      nan are outside the model.  Python ints (and longs) are [Z].
    - Recursive Python functions take a [limit], the number of nested
      calls the interpreter still allows; at [0] the call raises
      [RecursionError] (Python 2 reports a [RuntimeError], "maximum
      recursion depth exceeded").
    - A dict is an association list in its iteration order; [keys] and
      [values] of one dict are read in that same order, and
      [dict(zip(ks, vs))] keeps the order of [ks].
    - Memory exhaustion ([MemoryError]) is not modelled: the in-memory
      tier of the resample cache always accepts a record.  The disk tier
      ([pyQCDcache/]) is part of the state and is probed on a miss. *)

From Stdlib Require Import ZArith List String Ascii Reals Lra Lia.
From stdpp Require Import gmap strings pretty.
Import ListNotations.

Set Warnings "-register-all".

Local Open Scope string_scope.
Local Open Scope Z_scope.

(** ** Outcomes of a Python call *)

Inductive exn : Type :=
| TypeError | ValueError | IndexError | KeyError | IOError
| ZeroDivisionError | NotImplementedError | NameError | AttributeError
| StopIteration | RecursionError | UnpicklingError | SyntaxError.

Inductive result (A : Type) : Type :=
| Ok (a : A)
| Raise (e : exn).
Arguments Ok {A} a.
Arguments Raise {A} e.

#[global] Instance result_ret : MRet result := fun _ x => Ok x.
#[global] Instance result_bind : MBind result := fun _ _ f m =>
  match m with Ok a => f a | Raise e => Raise e end.
#[global] Instance result_fmap : FMap result := fun _ _ f m =>
  match m with Ok a => Ok (f a) | Raise e => Raise e end.

(** [for x in xs: acc = body(acc, x)] with a body that may raise. *)
Fixpoint foldM {A B : Type} (body : A -> B -> result A) (acc : A) (xs : list B)
  : result A :=
  match xs with
  | [] => Ok acc
  | x :: rest => acc' ← body acc x; foldM body acc' rest
  end.

(** [[f(x) for x in xs]] with an [f] that may raise. *)
Fixpoint traverse {A B : Type} (f : A -> result B) (xs : list A)
  : result (list B) :=
  match xs with
  | [] => Ok []
  | x :: rest => y ← f x; ys ← traverse f rest; Ok (y :: ys)
  end.

(** [xrange(lo, hi)]. *)
Definition xrange (lo hi : Z) : list Z :=
  map (fun i => lo + Z.of_nat i) (seq 0 (Z.to_nat (hi - lo))).

(** [len(data)] as a Python int. *)
Definition len {A : Type} (data : list A) : Z := Z.of_nat (length data).

(** * Measurement algebra *)

Module Algebra.

(** Values a measurement function may return. *)
Inductive value : Type :=
| VNone
| VNotImplemented
| VInt (z : Z)
| VFloat (r : R)
| VList (l : list value)
| VTuple (l : list value)
| VDict (d : list (string * value)).

Definition keys (d : list (string * value)) : list string := map fst d.
Definition values (d : list (string * value)) : list value := map snd d.

Definition is_int (a : value) : bool :=
  match a with VInt _ => true | _ => false end.
Definition is_float (a : value) : bool :=
  match a with VFloat _ => true | _ => false end.
Definition is_list (a : value) : bool :=
  match a with VList _ => true | _ => false end.
Definition is_number (a : value) : bool := is_int a || is_float a.

(** [if type(a) == tuple: a = list(a)] *)
Definition tuple_to_list (a : value) : value :=
  match a with VTuple l => VList l | _ => a end.

(** [hasattr(a, "__add__")] and [hasattr(a, "__mul__")]: numbers, lists
    and tuples (concatenation, repetition); not dicts, [None] or
    [NotImplemented]. *)
Definition has_add (a : value) : bool :=
  match a with
  | VInt _ | VFloat _ | VList _ | VTuple _ => true
  | _ => false
  end.
Definition has_mul : value -> bool := has_add.

(** [hasattr(a, "__sub__")] and [hasattr(a, "__div__")]: numbers only. *)
Definition has_sub (a : value) : bool := is_number a.
Definition has_div (a : value) : bool := is_number a.

(** [a.__op__(b)] for a number [a]: an int receiver refuses a float
    argument with [NotImplemented]; a float receiver coerces an int. *)
Definition dunder (fz : Z -> Z -> Z) (fr : R -> R -> R) (a b : value) : value :=
  match a, b with
  | VInt x, VInt y => VInt (fz x y)
  | VFloat x, VInt y => VFloat (fr x (IZR y))
  | VFloat x, VFloat y => VFloat (fr x y)
  | _, _ => VNotImplemented
  end.

Definition dunder_add : value -> value -> value := dunder Z.add Rplus.
Definition dunder_sub : value -> value -> value := dunder Z.sub Rminus.
Definition dunder_mul : value -> value -> value := dunder Z.mul Rmult.

(** [a.__div__(b)]: floor division on two ints, true division with a
    float receiver, [ZeroDivisionError] on a zero divisor. *)
Definition dunder_div (a b : value) : result value :=
  match a, b with
  | VInt x, VInt y =>
      if Z.eqb y 0 then Raise ZeroDivisionError else Ok (VInt (x / y))
  | VFloat x, VInt y =>
      if Z.eqb y 0 then Raise ZeroDivisionError else Ok (VFloat (x / IZR y))
  | VFloat x, VFloat y =>
      if Req_dec_T y 0 then Raise ZeroDivisionError else Ok (VFloat (x / y))
  | _, _ => Ok VNotImplemented
  end.

(** The binary operators [a + b], [a - b], [a * b] on two numbers (with
    the coercion of an int to a float on either side). *)
Definition native (fz : Z -> Z -> Z) (fr : R -> R -> R) (a b : value)
  : result value :=
  match a, b with
  | VInt x, VInt y => Ok (VInt (fz x y))
  | VInt x, VFloat y => Ok (VFloat (fr (IZR x) y))
  | VFloat x, VInt y => Ok (VFloat (fr x (IZR y)))
  | VFloat x, VFloat y => Ok (VFloat (fr x y))
  | _, _ => Raise TypeError
  end.

(** [dict(zip(ks, r))] where [r] is the list returned by the recursive
    call on two lists. *)
Definition dict_zip (ks : list string) (r : value) : result value :=
  match r with
  | VList l => Ok (VDict (zip ks l))
  | _ => Raise TypeError
  end.

(** [DataSet._add_measurements] *)
Fixpoint _add_measurements (limit : nat) (a b : value) : result value :=
  match limit with
  | O => Raise RecursionError
  | S k =>
      let a := tuple_to_list a in
      let b := tuple_to_list b in
      if has_add a && has_add b && negb (is_list a) && negb (is_list b)
      then Ok (dunder_add a b)
      else
        match a, b with
        | VList la, VList lb =>
            VList <$> traverse (fun xy => _add_measurements k xy.1 xy.2)
                               (zip la lb)
        | VDict da, VDict db => _add_measurements k a (VList (values db))
        | VDict da, VList lb =>
            r ← _add_measurements k (VList (values da)) b;
            dict_zip (keys da) r
        | VList la, VDict db => _add_measurements k b a
        | (VInt _ | VFloat _), (VInt _ | VFloat _) => native Z.add Rplus a b
        | _, _ => Raise TypeError
        end
  end.

(** [DataSet._sub_measurements]: the capability test comes before the
    conversion of tuples. *)
Fixpoint _sub_measurements (limit : nat) (a b : value) : result value :=
  match limit with
  | O => Raise RecursionError
  | S k =>
      if has_sub a && has_sub b then Ok (dunder_sub a b)
      else
        let a := tuple_to_list a in
        let b := tuple_to_list b in
        match a, b with
        | VList la, VList lb =>
            VList <$> traverse (fun xy => _sub_measurements k xy.1 xy.2)
                               (zip la lb)
        | VDict da, VDict db => _sub_measurements k a (VList (values db))
        | VDict da, VList lb =>
            r ← _sub_measurements k (VList (values da)) b;
            dict_zip (keys da) r
        | VList la, VDict db =>
            r ← _sub_measurements k a (VList (values db));
            dict_zip (keys db) r
        | (VInt _ | VFloat _), (VInt _ | VFloat _) => native Z.sub Rminus a b
        | _, _ => Raise TypeError
        end
  end.

(** [DataSet._mul_measurements] *)
Fixpoint _mul_measurements (limit : nat) (a b : value) : result value :=
  match limit with
  | O => Raise RecursionError
  | S k =>
      let a := tuple_to_list a in
      let b := tuple_to_list b in
      if has_mul a && has_mul b && negb (is_list a) && negb (is_list b)
      then Ok (dunder_mul a b)
      else
        match a, b with
        | VList la, VList lb =>
            VList <$> traverse (fun xy => _mul_measurements k xy.1 xy.2)
                               (zip la lb)
        | VDict da, VDict db => _mul_measurements k a (VList (values db))
        | VDict da, VList lb =>
            r ← _mul_measurements k (VList (values da)) b;
            dict_zip (keys da) r
        | VList la, VDict db => _mul_measurements k b a
        | (VInt _ | VFloat _), (VInt _ | VFloat _) => native Z.mul Rmult a b
        | _, _ => Raise TypeError
        end
  end.

(** [DataSet._div_measurements]; a value of no handled type falls off the
    end of the function, which returns [None]. *)
Fixpoint _div_measurements (limit : nat) (a div : value) : result value :=
  match limit with
  | O => Raise RecursionError
  | S k =>
      if negb (is_float div) && negb (is_int div) then Raise TypeError
      else if has_div a then dunder_div a div
      else
        match a with
        | VList l | VTuple l =>
            VList <$> traverse (fun x => _div_measurements k x div) l
        | VDict d =>
            r ← _div_measurements k (VList (values d)) div;
            dict_zip (keys d) r
        | _ => Ok VNone
        end
  end.

(** [numpy.sqrt] on a number.  The reducers below only take the root of
    a sum of squares divided by a positive number; for a negative
    argument numpy answers nan, which the idealised floats leave out. *)
Definition np_sqrt (a : value) : value :=
  match a with
  | VInt z => VFloat (sqrt (IZR z))
  | VFloat r => VFloat (sqrt r)
  | _ => VNone
  end.

(** [DataSet._sqrt_measurements] *)
Fixpoint _sqrt_measurements (limit : nat) (a : value) : result value :=
  match limit with
  | O => Raise RecursionError
  | S k =>
      match a with
      | VList l | VTuple l =>
          VList <$> traverse (_sqrt_measurements k) l
      | VDict d =>
          r ← _sqrt_measurements k (VList (values d));
          dict_zip (keys d) r
      | VInt _ | VFloat _ => Ok (np_sqrt a)
      | _ => Ok VNone
      end
  end.

(** [DataSet._mean], the branch for a Python list ([data[0]] raises
    [IndexError] on the empty list). *)
Definition _mean (limit : nat) (data : list value) : result value :=
  match data with
  | [] => Raise IndexError
  | d0 :: rest =>
      out ← foldM (fun out datum => _add_measurements limit out datum) d0 rest;
      _div_measurements limit out (VInt (len data))
  end.

(** The sum of squared deviations accumulated by both standard-deviation
    reducers (their common first half). *)
Definition sum_squares (limit : nat) (data : list value) : result value :=
  mean ← _mean limit data;
  match data with
  | [] => Raise IndexError
  | d0 :: rest =>
      diff ← _sub_measurements limit d0 mean;
      out ← _mul_measurements limit diff diff;
      foldM (fun out datum =>
               diff ← _sub_measurements limit datum mean;
               square ← _mul_measurements limit diff diff;
               _add_measurements limit out square) out rest
  end.

(** [DataSet._std], list branch. *)
Definition _std (limit : nat) (data : list value) : result value :=
  out ← sum_squares limit data;
  q ← _div_measurements limit out (VInt (len data));
  _sqrt_measurements limit q.

(** [DataSet._std_jackknife], list branch:
    [div = float(len(data)) / (len(data) - 1)]. *)
Definition _std_jackknife (limit : nat) (data : list value) : result value :=
  out ← sum_squares limit data;
  div ← dunder_div (VFloat (IZR (len data))) (VInt (len data - 1));
  q ← _div_measurements limit out div;
  _sqrt_measurements limit q.

(** ** Reference formulas and shapes, for the statements below *)

(** Sum, mean and sum of squared deviations of a list of reals. *)
Definition Rsum (xs : list R) : R := fold_right Rplus 0%R xs.
Definition Rmean (xs : list R) : R := (Rsum xs / IZR (len xs))%R.
Definition Rsumsq (xs : list R) : R :=
  Rsum (map (fun x => ((x - Rmean xs) * (x - Rmean xs))%R) xs).



(** The value with every tuple replaced by the list of its items. *)
Fixpoint untuple (a : value) : value :=
  match a with
  | VList l | VTuple l => VList (map untuple l)
  | VDict d => VDict (map (fun kv => (kv.1, untuple kv.2)) d)
  | _ => a
  end.


(** Numbers, and sequences and dicts of such values. *)
Fixpoint numeric (a : value) : bool :=
  match a with
  | VInt _ | VFloat _ => true
  | VList l | VTuple l => forallb numeric l
  | VDict d => forallb (fun kv => numeric kv.2) d
  | _ => false
  end.

(** Nested calls the algebra makes on a value: one per sequence level,
    three per dict level (dict/dict, dict/list, list/list). *)
Fixpoint call_depth (a : value) : nat :=
  match a with
  | VList l | VTuple l => S (list_max (map call_depth l))
  | VDict d => S (S (S (list_max (map (fun kv => call_depth kv.2) d))))
  | _ => 1%nat
  end.

(** Induction on values that reaches the items of sequences and dicts. *)
Section value_nested_ind.
Variable P : value -> Prop.
Hypothesis HNone : P VNone.
Hypothesis HNotImplemented : P VNotImplemented.
Hypothesis HInt : forall z, P (VInt z).
Hypothesis HFloat : forall r, P (VFloat r).
Hypothesis HList : forall l, Forall P l -> P (VList l).
Hypothesis HTuple : forall l, Forall P l -> P (VTuple l).
Hypothesis HDict : forall d, Forall (fun kv => P kv.2) d -> P (VDict d).

Fixpoint value_nested_ind (a : value) : P a :=
  match a with
  | VNone => HNone
  | VNotImplemented => HNotImplemented
  | VInt z => HInt z
  | VFloat r => HFloat r
  | VList l =>
      HList l ((fix go l : Forall P l :=
                  match l with
                  | [] => List.Forall_nil P
                  | x :: l' => List.Forall_cons P x l' (value_nested_ind x) (go l')
                  end) l)
  | VTuple l =>
      HTuple l ((fix go l : Forall P l :=
                   match l with
                   | [] => List.Forall_nil P
                   | x :: l' => List.Forall_cons P x l' (value_nested_ind x) (go l')
                   end) l)
  | VDict d =>
      HDict d ((fix go d : Forall (fun kv => P kv.2) d :=
                  match d with
                  | [] => List.Forall_nil _
                  | kv :: d' => List.Forall_cons _ kv d' (value_nested_ind kv.2) (go d')
                  end) d)
  end.
End value_nested_ind.



End Algebra.

(** * The archive store and the resampling engine *)

Module Store.

(** ** Element types and stored entries *)

(** A type descriptor: [__name__] and whether the type carries its own
    [save] and [load]. *)
Record pytype : Type := {
  ty_name : string;
  ty_has_save : bool;
  ty_has_load : bool }.

#[global] Instance pytype_eq_dec : EqDecision pytype.
Proof. solve_decision. Defined.

(** The operators the data set applies to stored data: [+=], [-] and
    [/] by a Python int.  Division may raise. *)
Class Datum (T : Type) : Type := {
  d_add : T -> T -> T;
  d_sub : T -> T -> T;
  d_div : T -> Z -> result T }.

(** Python floats, idealised: [x / n] raises on [n = 0]. *)
#[global] Instance float_datum : Datum R := {
  d_add := Rplus;
  d_sub := Rminus;
  d_div x n := if Z.eqb n 0 then Raise ZeroDivisionError else Ok (x / IZR n)%R }.

(** Python 2 ints: [/] is floor division. *)
#[global] Instance int_datum : Datum Z := {
  d_add := Z.add;
  d_sub := Z.sub;
  d_div x n := if Z.eqb n 0 then Raise ZeroDivisionError else Ok (x / n) }.

(** The powers [statistics] takes of stored data: [x ** 2] and
    [x ** 0.5]. *)
Class Powers (T : Type) : Type := {
  d_square : T -> T;
  d_root : T -> result T }.

(** On Python 2 floats a negative base with a fractional exponent raises
    [ValueError]. *)
#[global] Instance float_powers : Powers R := {
  d_square x := (x * x)%R;
  d_root x := if Rlt_dec x 0 then Raise ValueError else Ok (sqrt x) }.

Inductive zip_mode : Type := ZIP_DEFLATED | ZIP_STORED.

(** ** Python string operations used on entry names *)

Definition is_space (c : ascii) : bool :=
  let n := nat_of_ascii c in
  (Nat.eqb n 32 || (Nat.leb 9 n && Nat.leb n 13))%bool.

Fixpoint lstrip (s : string) : string :=
  match s with
  | String c r => if is_space c then lstrip r else s
  | EmptyString => EmptyString
  end.

Definition strip (s : string) : string :=
  String.rev (lstrip (String.rev (lstrip s))).

Definition digit_of (c : ascii) : option Z :=
  let n := nat_of_ascii c in
  if (Nat.leb 48 n && Nat.leb n 57)%bool then Some (Z.of_nat n - 48) else None.

Fixpoint digits (acc : Z) (s : string) : option Z :=
  match s with
  | EmptyString => Some acc
  | String c r =>
      match digit_of c with
      | Some d => digits (10 * acc + d) r
      | None => None
      end
  end.

(** [int(s)] on a string: surrounding white space, an optional sign,
    then at least one decimal digit; [ValueError] otherwise. *)
Definition py_int (s : string) : result Z :=
  let s := strip s in
  let '(sign, body) :=
    match s with
    | String "-"%char r => (-1, r)
    | String "+"%char r => (1, r)
    | _ => (1, s)
    end in
  match body with
  | EmptyString => Raise ValueError
  | _ => match digits 0 body with
         | Some n => Ok (sign * n)
         | None => Raise ValueError
         end
  end.

(** The string is made of decimal digits. *)
Fixpoint all_digits (s : string) : bool :=
  match s with
  | EmptyString => true
  | String c r => match digit_of c with Some _ => all_digits r | None => false end
  end.

(** [fname[start:-4]] *)
Definition slice_to_minus4 (start : nat) (fname : string) : string :=
  let stop := (String.length fname - 4)%nat in
  substring start (stop - start) fname.

(** [fname.find(pat) < 0] *)
Definition not_found (pat fname : string) : bool :=
  match index 0 pat fname with Some _ => false | None => true end.

(** [max(data)] on a non-empty list of ints. *)
Definition py_max (data : list Z) : Z :=
  match data with
  | [] => 0
  | x :: rest => fold_left Z.max rest x
  end.

Section WithDatum.

Context {T : Type} `{Datum T}.

(** A Python object handed to the data set: its type and its payload. *)
Record pyobj : Type := { ob_type : pytype; ob_data : T }.

(** What an archive entry holds: the pickled element type, a datum
    written by the element type's [save], or a datum written as text.
    Serialisation itself is the collaborator's and is taken lossless. *)
Inductive content : Type :=
| Pickled (t : pytype)
| Saved (x : T)
| Text (x : T).

(** The entries of a zip file, in the order they were written. *)
Definition zipfile : Type := list (string * content).

Definition namelist (z : zipfile) : list string := map fst z.

(** [ZipFile.extract(name)]: the entry written last under that name;
    [KeyError] when there is none. *)
Definition zip_extract (name : string) (z : zipfile) : result content :=
  match find (fun e => String.eqb e.1 name) (rev z) with
  | Some e => Ok e.2
  | None => Raise KeyError
  end.

Record DataSet : Type := {
  datatype : pytype;
  num_data : Z;
  filename : string;
  jackknifes_cached : bool;
  bootstraps_cached : bool;
  cache : gmap string T;
  large_file : bool;
  storage_mode : zip_mode;
  iteration : Z }.

(** The state a method runs in: the object, the archive file it names,
    the files under [pyQCDcache/], and numpy's global random source as
    the sequence [entropy] of which [drawn] values are used up. *)
Record state : Type := {
  self : DataSet;
  archive : zipfile;
  pyQCDcache : gmap string T;
  entropy : nat -> Z;
  drawn : nat }.

Definition with_self (f : DataSet -> DataSet) (s : state) : state :=
  {| self := f (self s); archive := archive s; pyQCDcache := pyQCDcache s;
     entropy := entropy s; drawn := drawn s |}.

Definition set_num_data (n : Z) (d : DataSet) : DataSet :=
  {| datatype := datatype d; num_data := n; filename := filename d;
     jackknifes_cached := jackknifes_cached d;
     bootstraps_cached := bootstraps_cached d; cache := cache d;
     large_file := large_file d; storage_mode := storage_mode d;
     iteration := iteration d |}.

Definition set_filename (f : string) (d : DataSet) : DataSet :=
  {| datatype := datatype d; num_data := num_data d; filename := f;
     jackknifes_cached := jackknifes_cached d;
     bootstraps_cached := bootstraps_cached d; cache := cache d;
     large_file := large_file d; storage_mode := storage_mode d;
     iteration := iteration d |}.

Definition set_iteration (i : Z) (d : DataSet) : DataSet :=
  {| datatype := datatype d; num_data := num_data d; filename := filename d;
     jackknifes_cached := jackknifes_cached d;
     bootstraps_cached := bootstraps_cached d; cache := cache d;
     large_file := large_file d; storage_mode := storage_mode d;
     iteration := i |}.

Definition set_cache (c : gmap string T) (d : DataSet) : DataSet :=
  {| datatype := datatype d; num_data := num_data d; filename := filename d;
     jackknifes_cached := jackknifes_cached d;
     bootstraps_cached := bootstraps_cached d; cache := c;
     large_file := large_file d; storage_mode := storage_mode d;
     iteration := iteration d |}.

Definition set_bootstraps_cached (b : bool) (d : DataSet) : DataSet :=
  {| datatype := datatype d; num_data := num_data d; filename := filename d;
     jackknifes_cached := jackknifes_cached d;
     bootstraps_cached := b; cache := cache d;
     large_file := large_file d; storage_mode := storage_mode d;
     iteration := iteration d |}.

Definition set_jackknifes_cached (b : bool) (d : DataSet) : DataSet :=
  {| datatype := datatype d; num_data := num_data d; filename := filename d;
     jackknifes_cached := b;
     bootstraps_cached := bootstraps_cached d; cache := cache d;
     large_file := large_file d; storage_mode := storage_mode d;
     iteration := iteration d |}.

Definition set_archive (z : zipfile) (s : state) : state :=
  {| self := self s; archive := z; pyQCDcache := pyQCDcache s;
     entropy := entropy s; drawn := drawn s |}.

Definition set_drawn (n : nat) (s : state) : state :=
  {| self := self s; archive := archive s; pyQCDcache := pyQCDcache s;
     entropy := entropy s; drawn := n |}.

(** ** Methods: state passing with exceptions

    A raised exception keeps the state reached so far. *)
Definition M (A : Type) : Type := state -> result A * state.

Definition retM {A : Type} (x : A) : M A := fun s => (Ok x, s).
Definition bindM {A B : Type} (m : M A) (f : A -> M B) : M B :=
  fun s => match m s with
           | (Ok a, s') => f a s'
           | (Raise e, s') => (Raise e, s')
           end.
Definition raise {A : Type} (e : exn) : M A := fun s => (Raise e, s).
Definition lift {A : Type} (r : result A) : M A := fun s => (r, s).
Definition gets {A : Type} (f : state -> A) : M A := fun s => (Ok (f s), s).
Definition modify (f : state -> state) : M unit := fun s => (Ok tt, f s).

Notation "'do' x <- m ; k" := (bindM m (fun x => k))
  (at level 10, x name, m at level 100, k at level 200).
Notation "'do_' m ; k" := (bindM m (fun _ => k))
  (at level 10, m at level 100, k at level 200).

(** [for x in xs: acc = body(acc, x)] *)
Fixpoint for_fold {A B : Type} (body : A -> B -> M A) (acc : A) (xs : list B)
  : M A :=
  match xs with
  | [] => retM acc
  | x :: rest => do acc' <- body acc x; for_fold body acc' rest
  end.

(** [for x in xs: body(x)] *)
Fixpoint for_each {B : Type} (body : B -> M unit) (xs : list B) : M unit :=
  match xs with
  | [] => retM tt
  | x :: rest => do_ body x; for_each body rest
  end.

(** ** Construction *)

(** [DataSet.__init__]; [zip64] tells whether the zip backend opens a
    64-bit archive (otherwise the [RuntimeError] branch is taken).  The
    new archive file holds the pickled element type. *)
Definition __init__ (zip64 : bool) (ty : pytype) (fname : string) (compress : bool)
  : DataSet * zipfile :=
  let mode := if compress then ZIP_DEFLATED else ZIP_STORED in
  ({| datatype := ty; num_data := 0; filename := fname;
      jackknifes_cached := false; bootstraps_cached := false; cache := ∅;
      large_file := zip64;
      storage_mode := if zip64 then mode else ZIP_STORED;
      iteration := 0 |},
   [("type", Pickled ty)]).

(** ** Saving and loading one datum *)

(** ["{}{}.npz".format(self.datatype.__name__, index)] *)
Definition entry_name (ty : pytype) (index : Z) : string :=
  ty_name ty +:+ pretty index +:+ ".npz".

(** [DataSet._datum_save]: the content of the file written.  Without a
    [save] the handler of [AttributeError] reads the undefined name
    [filenaem]. *)
Definition _datum_save (datum : pyobj) : result content :=
  if ty_has_save (ob_type datum) then Ok (Saved (ob_data datum))
  else Raise NameError.

(** [DataSet._datum_load] on the content of an extracted file: the
    element type's [load], else [eval] of the text. *)
Definition _datum_load (ty : pytype) (c : content) : result T :=
  if ty_has_load ty then
    match c with Saved x => Ok x | _ => Raise IOError end
  else
    match c with Text x => Ok x | _ => Raise SyntaxError end.

(** [DataSet.add_datum] *)
Definition add_datum (datum : pyobj) : M unit :=
  do ty <- gets (fun s => datatype (self s));
  if negb (bool_decide (ob_type datum = ty)) then raise TypeError
  else
    do n <- gets (fun s => num_data (self s));
    let fname := entry_name ty n in
    do c <- lift (_datum_save datum);
    do_ modify (fun s => set_archive (archive s ++ [(fname, c)])%list s);
    modify (with_self (set_num_data (n + 1))).

(** [DataSet.get_datum] *)
Definition get_datum (index : Z) : M T :=
  do ty <- gets (fun s => datatype (self s));
  do z <- gets archive;
  do c <- lift (zip_extract (entry_name ty index) z);
  lift (_datum_load ty c).

(** [DataSet.set_datum] *)
Definition set_datum (index : Z) (datum : T) : M unit :=
  raise NotImplementedError.

(** [DataSet.apply_function]; [func] stands for [func(datum, *args)]. *)
Definition apply_function (func : T -> result T) : M unit :=
  do n <- gets (fun s => num_data (self s));
  for_each (fun i =>
              do datum <- get_datum i;
              do new_datum <- lift (func datum);
              set_datum i new_datum)
           (xrange 0 n).

(** [DataSet.load] on the entries [z] of the file at [fname]. *)
Definition load (zip64 : bool) (z : zipfile) (fname : string) : result DataSet :=
  c ← zip_extract "type" z;
  ty ← match c with Pickled t => Ok t | _ => Raise UnpicklingError end;
  let compress := zip64 in
  let out := set_filename fname (__init__ zip64 ty "000.zip" compress).1 in
  data ← traverse
           (fun fname => py_int (slice_to_minus4 (String.length (ty_name ty)) fname))
           (filter (fun fname => String.prefix (ty_name ty) fname
                                 && not_found "jackknife" fname)
                   (namelist z));
  Ok (if 0 <? len data then set_num_data (py_max data + 1) out else out).

(** ** Iteration *)

(** [DataSet.__iter__] returns the object itself. *)
Definition __iter__ : M unit := retM tt.

(** [DataSet.next] *)
Definition next : M T :=
  do it <- gets (fun s => iteration (self s));
  do n <- gets (fun s => num_data (self s));
  if it >=? n then raise StopIteration
  else
    do_ modify (with_self (set_iteration (it + 1)));
    do it' <- gets (fun s => iteration (self s));
    get_datum (it' - 1).

(** [for x in it: acc.append(x)], run for at most [fuel] calls of
    [next]; [None] when the loop is still running after them. *)
Fixpoint for_in (fuel : nat) (acc : list T) (s : state)
  : option (result (list T) * state) :=
  match fuel with
  | O => None
  | S k =>
      match next s with
      | (Ok x, s') => for_in k (acc ++ [x])%list s'
      | (Raise StopIteration, s') => Some (Ok acc, s')
      | (Raise e, s') => Some (Raise e, s')
      end
  end.

(** [[x for x in dataset]] *)
Definition iterate (fuel : nat) (s : state) : option (result (list T) * state) :=
  for_in fuel [] (__iter__ s).2.

(** ** Bins *)

(** [num_bins = num_data / binsize; if num_data % binsize > 0: num_bins += 1] *)
Definition num_bins_of (n binsize : Z) : Z :=
  let num_bins := n / binsize in
  if n mod binsize >? 0 then num_bins + 1 else num_bins.

(** [DataSet._get_bin] *)
Definition _get_bin (binsize binnum : Z) : M T :=
  do out <- get_datum (binsize * binnum);
  let first_datum := binsize * binnum + 1 in
  let last_datum := binsize * (binnum + 1) in
  do n <- gets (fun s => num_data (self s));
  let last_datum := if last_datum >? n then n else last_datum in
  do out <- for_fold (fun out i => do x <- get_datum i; retM (d_add out x))
                     out (xrange first_datum last_datum);
  lift (d_div out binsize).

(** The sum of all bins, as [jackknife_datum], [generate_jackknife_cache]
    and [jackknife] accumulate it. *)
Definition sum_bins (binsize num_bins : Z) : M T :=
  do data_sum <- _get_bin binsize 0;
  for_fold (fun data_sum i => do b <- _get_bin binsize i; retM (d_add data_sum b))
           data_sum (xrange 1 num_bins).

(** [DataSet.jackknife_datum] *)
Definition jackknife_datum (index binsize : Z) : M T :=
  if binsize <? 1 then raise ValueError
  else
    do n <- gets (fun s => num_data (self s));
    if index >=? n then raise ValueError
    else
      let num_bins := num_bins_of n binsize in
      do data_sum <- sum_bins binsize num_bins;
      do b <- _get_bin binsize index;
      lift (d_div (d_sub data_sum b) (num_bins - 1)).

(** ** The resample cache *)

(** [numpy.random.randint(n, size=n).tolist()]: [n] values below [n],
    taken from the random source; [ValueError] unless [0 < n]. *)
Definition randint (n : Z) : M (list Z) := fun s =>
  if n <=? 0 then (Raise ValueError, s)
  else (Ok (map (fun j => entropy s (drawn s + j)%nat mod n) (seq 0 (Z.to_nat n))),
        set_drawn (drawn s + Z.to_nat n)%nat s).

(** One bootstrap resample: draw the bins, add them up, divide by their
    number.  The source repeats this block in [generate_bootstrap_cache]
    and in the uncached branch of [bootstrap]. *)
Definition draw_resample (binsize num_bins : Z) : M T :=
  do bins <- randint num_bins;
  match bins with
  | [] => raise IndexError
  | b0 :: rest =>
      do new_datum <- _get_bin binsize b0;
      do new_datum <- for_fold (fun acc b => do x <- _get_bin binsize b;
                                             retM (d_add acc x))
                               new_datum rest;
      lift (d_div new_datum (len bins))
  end.

Definition bootstrap_name (ty : pytype) (binsize index : Z) : string :=
  ty_name ty +:+ "_bootstrap_binsize" +:+ pretty binsize +:+ "_" +:+ pretty index.

Definition jackknife_name (ty : pytype) (binsize index : Z) : string :=
  ty_name ty +:+ "_jackknife_binsize" +:+ pretty binsize +:+ "_" +:+ pretty index.

(** [self.cache[name] = datum] *)
Definition cache_store (name : string) (datum : T) : M unit :=
  modify (with_self (fun d => set_cache (<[name := datum]> (cache d)) d)).

(** [DataSet.generate_bootstrap_cache] *)
Definition generate_bootstrap_cache (num_bootstraps binsize : Z) : M unit :=
  if binsize <? 1 then raise ValueError
  else
    do n <- gets (fun s => num_data (self s));
    do ty <- gets (fun s => datatype (self s));
    let num_bins := num_bins_of n binsize in
    do_ for_each (fun i => do new_datum <- draw_resample binsize num_bins;
                           cache_store (bootstrap_name ty binsize i) new_datum)
                 (xrange 0 num_bootstraps);
    modify (with_self (set_bootstraps_cached true)).

(** [DataSet.generate_jackknife_cache] *)
Definition generate_jackknife_cache (binsize : Z) : M unit :=
  if binsize <? 1 then raise ValueError
  else
    do n <- gets (fun s => num_data (self s));
    do ty <- gets (fun s => datatype (self s));
    let num_bins := num_bins_of n binsize in
    do data_sum <- sum_bins binsize num_bins;
    do_ for_each (fun i => do b <- _get_bin binsize i;
                           do new_datum <- lift (d_div (d_sub data_sum b) (num_bins - 1));
                           cache_store (jackknife_name ty binsize i) new_datum)
                 (xrange 0 num_bins);
    modify (with_self (set_jackknifes_cached true)).

(** [DataSet._get_bootstrap_cache_datum]: memory, then disk, then
    regenerate and call itself again. *)
Fixpoint _get_bootstrap_cache_datum (limit : nat) (binsize index num_bootstraps : Z)
  : M T :=
  match limit with
  | O => raise RecursionError
  | S k =>
      do ty <- gets (fun s => datatype (self s));
      let datum_name := bootstrap_name ty binsize index in
      do c <- gets (fun s => cache (self s));
      match c !! datum_name with
      | Some x => retM x
      | None =>
          do disk <- gets pyQCDcache;
          match disk !! datum_name with
          | Some x => retM x
          | None =>
              do_ generate_bootstrap_cache num_bootstraps binsize;
              _get_bootstrap_cache_datum k binsize index num_bootstraps
          end
      end
  end.

(** [DataSet._get_jackknife_cache_datum] *)
Fixpoint _get_jackknife_cache_datum (limit : nat) (binsize index : Z) : M T :=
  match limit with
  | O => raise RecursionError
  | S k =>
      do ty <- gets (fun s => datatype (self s));
      let datum_name := jackknife_name ty binsize index in
      do c <- gets (fun s => cache (self s));
      match c !! datum_name with
      | Some x => retM x
      | None =>
          do disk <- gets pyQCDcache;
          match disk !! datum_name with
          | Some x => retM x
          | None =>
              do_ generate_jackknife_cache binsize;
              _get_jackknife_cache_datum k binsize index
          end
      end
  end.

(** ** The resampling engine *)

(** [if measurement != None: out.append(measurement)] *)
Definition append_measurement (out : list Algebra.value) (m : Algebra.value)
  : list Algebra.value :=
  match m with
  | Algebra.VNone => out
  | _ => (out ++ [m])%list
  end.

(** [DataSet.bootstrap]; [func] stands for [func(datum, *args)]. *)
Definition bootstrap (limit : nat) (func : T -> result Algebra.value)
    (num_bootstraps binsize : Z) (use_cache : bool)
  : M (Algebra.value * Algebra.value) :=
  if binsize <? 1 then raise ValueError
  else
    do n <- gets (fun s => num_data (self s));
    let num_bins := num_bins_of n binsize in
    do out <-
      (if use_cache then
         do cached <- gets (fun s => bootstraps_cached (self s));
         do_ (if cached then retM tt
              else generate_bootstrap_cache num_bootstraps binsize);
         for_fold (fun out i =>
                     do bootstrap_datum <-
                       _get_bootstrap_cache_datum limit binsize i num_bootstraps;
                     do measurement <- lift (func bootstrap_datum);
                     retM (append_measurement out measurement))
                  [] (xrange 0 num_bins)
       else
         for_fold (fun out i =>
                     do new_datum <- draw_resample binsize num_bins;
                     do measurement <- lift (func new_datum);
                     retM (append_measurement out measurement))
                  [] (xrange 0 num_bootstraps));
    do mean <- lift (Algebra._mean limit out);
    do std <- lift (Algebra._std limit out);
    retM (mean, std).

(** [DataSet.jackknife] *)
Definition jackknife (limit : nat) (func : T -> result Algebra.value)
    (binsize : Z) (use_cache : bool)
  : M (Algebra.value * Algebra.value) :=
  if binsize <? 1 then raise ValueError
  else
    do n <- gets (fun s => num_data (self s));
    let num_bins := num_bins_of n binsize in
    do out <-
      (if use_cache then
         do cached <- gets (fun s => jackknifes_cached (self s));
         do_ (if cached then retM tt else generate_jackknife_cache binsize);
         for_fold (fun out i =>
                     do jackknife_datum <- _get_jackknife_cache_datum limit binsize i;
                     do measurement <- lift (func jackknife_datum);
                     retM (append_measurement out measurement))
                  [] (xrange 0 num_bins)
       else
         do data_sum <- sum_bins binsize num_bins;
         for_fold (fun out i =>
                     do b <- _get_bin binsize i;
                     do new_datum <- lift (d_div (d_sub data_sum b) (num_bins - 1));
                     do measurement <- lift (func new_datum);
                     retM (append_measurement out measurement))
                  [] (xrange 0 num_bins));
    do mean <- lift (Algebra._mean limit out);
    do std <- lift (Algebra._std_jackknife limit out);
    retM (mean, std).

(** ** Averages over the archive *)

(** [DataSet.__getitem__] *)
Definition __getitem__ (index : Z) : M T := get_datum index.

(** [DataSet.measure]; [data] is the list of indices and [func] stands
    for [func(datum_sum, *args)]. *)
Definition measure {A : Type} (func : T -> result A) (data : list Z) : M A :=
  do n <- gets (fun s => num_data (self s));
  let data := match data with [] => xrange 0 n | _ => data end in
  match data with
  | [] => raise IndexError
  | i0 :: rest =>
      do datum_sum <- get_datum i0;
      do datum_sum <- for_fold (fun datum_sum i => do x <- get_datum i;
                                                   retM (d_add datum_sum x))
                               datum_sum rest;
      do datum_sum <- lift (d_div datum_sum (len data));
      lift (func datum_sum)
  end.

(** [DataSet.statistics] *)
Definition statistics `{Powers T} : M (T * T) :=
  do data_sum <- get_datum 0;
  do n <- gets (fun s => num_data (self s));
  do data_sum <- for_fold (fun data_sum i => do x <- get_datum i;
                                              retM (d_add data_sum x))
                          data_sum (xrange 1 n);
  do data_mean <- lift (d_div data_sum n);
  do x0 <- get_datum 0;
  do data_std <- for_fold (fun data_std i =>
                             do x <- get_datum i;
                             retM (d_add data_std (d_square (d_sub x data_mean))))
                          (d_square (d_sub x0 data_mean)) (xrange 1 n);
  do data_std <- lift (d_div data_std n);
  do std <- lift (d_root data_std);
  retM (data_mean, std).

(** ** Reference definitions for the statements below *)

(** What [get_datum] reads at an index: it depends on the element type
    and the archive file only. *)
Definition read (s : state) (index : Z) : result T :=
  c ← zip_extract (entry_name (datatype (self s)) index) (archive s);
  _datum_load (datatype (self s)) c.

(** The archive of [s] holds exactly the data [data]: the count is their
    number and index [i] reads back the [i]-th of them. *)
Definition stored (s : state) (data : list T) : Prop :=
  num_data (self s) = len data
  /\ forall (i : nat) (x : T), data !! i = Some x -> read s (Z.of_nat i) = Ok x.

(** [data[lo:hi]] for [0 <= lo]. *)
Definition py_slice (data : list T) (lo hi : Z) : list T :=
  take (Z.to_nat (hi - lo)) (drop (Z.to_nat lo) data).

(** A bin that starts inside the data. *)
Definition valid_bin (data : list T) (binsize b : Z) : Prop :=
  0 <= b /\ binsize * b < len data.

(** The sum of a non-empty run of data, added up from the left. *)
Definition sum_run (xs : list T) : result T :=
  match xs with
  | [] => Raise KeyError
  | x :: rest => Ok (fold_left d_add rest x)
  end.

(** The bin [binnum] of the data: the sum of the data at the indices
    from [binsize * binnum] up to [min (binsize * (binnum + 1)) count],
    divided by the nominal [binsize]. *)
Definition bin_of (data : list T) (binsize binnum : Z) : result T :=
  total ← sum_run (py_slice data (binsize * binnum)
                            (Z.min (binsize * (binnum + 1)) (len data)));
  d_div total binsize.

(** The sum of the bins [0 .. num_bins - 1], added up from the left. *)
Definition bins_total (data : list T) (binsize num_bins : Z) : result T :=
  b0 ← bin_of data binsize 0;
  foldM (fun acc i => b ← bin_of data binsize i; Ok (d_add acc b))
        b0 (xrange 1 num_bins).

(** The jackknife datum by its formula:
    (sum of all bins - bin(index)) / (num_bins - 1). *)
Definition jackknife_of (data : list T) (binsize index : Z) : result T :=
  let num_bins := num_bins_of (len data) binsize in
  total ← bins_total data binsize num_bins;
  b ← bin_of data binsize index;
  d_div (d_sub total b) (num_bins - 1).

(** Division by a non-zero int succeeds on the element type (as it does
    on floats). *)
Definition total_division : Prop :=
  forall (x : T) (n : Z), n <> 0 -> exists y, d_div x n = Ok y.

(** What the resampling methods leave alone: the element type, the
    count, the archive file, the disk cache and the random source. *)
Definition frame (s s' : state) : Prop :=
  datatype (self s') = datatype (self s)
  /\ num_data (self s') = num_data (self s)
  /\ archive s' = archive s
  /\ pyQCDcache s' = pyQCDcache s
  /\ entropy s' = entropy s.

(** The [n] bin indices read from the random source at position [pos]. *)
Definition drawn_bins (rng : nat -> Z) (pos : nat) (n : Z) : list Z :=
  map (fun j => rng (pos + j)%nat mod n) (seq 0 (Z.to_nat n)).

(** The bootstrap resample over the bins [bins]: their sum divided by
    their number. *)
Definition resample_of (data : list T) (binsize : Z) (bins : list Z) : result T :=
  match bins with
  | [] => Raise IndexError
  | b0 :: rest =>
      x0 ← bin_of data binsize b0;
      total ← foldM (fun acc b => x ← bin_of data binsize b; Ok (d_add acc x))
                    x0 rest;
      d_div total (len bins)
  end.

(** [k] successive resamples, each over [num_bins] freshly drawn bins. *)
Fixpoint draws (data : list T) (binsize num_bins : Z) (rng : nat -> Z)
    (pos k : nat) : result (list T) :=
  match k with
  | O => Ok []
  | S k' =>
      r ← resample_of data binsize (drawn_bins rng pos num_bins);
      rs ← draws data binsize num_bins rng (pos + Z.to_nat num_bins)%nat k';
      Ok (r :: rs)
  end.

(** Applying the measurement function to resamples in turn and keeping
    the results other than [None]. *)
Definition measure_all (func : T -> result Algebra.value) (out : list Algebra.value)
    (rs : list T) : result (list Algebra.value) :=
  foldM (fun out r => m ← func r; Ok (append_measurement out m)) out rs.

(** The pair (mean, plain standard deviation) of the collected results. *)
Definition mean_and_std (limit : nat) (out : result (list Algebra.value))
  : result (Algebra.value * Algebra.value) :=
  out ← out;
  mean ← Algebra._mean limit out;
  std ← Algebra._std limit out;
  Ok (mean, std).

(** The entries that appending the payloads [xs] writes, the first one
    under index [n]. *)
Fixpoint entries (ty : pytype) (n : Z) (xs : list T) : zipfile :=
  match xs with
  | [] => []
  | x :: rest => (entry_name ty n, Saved x) :: entries ty (n + 1) rest
  end.

(** The average of a run of data: their sum, added up from the left,
    over their number. *)
Definition average (xs : list T) : result T :=
  match xs with
  | [] => Raise IndexError
  | x :: rest => d_div (fold_left d_add rest x) (len xs)
  end.

(** A method that leaves the whole state as it found it, whatever it
    returns or raises. *)
Definition read_only {A : Type} (m : M A) : Prop := forall s, (m s).2 = s.

(** A method that keeps the [frame], whatever it returns or raises. *)
Definition keeps_frame {A : Type} (m : M A) : Prop := forall s, frame s (m s).2.

(** The jackknife data of all bins, and the pair (mean, jackknife
    standard deviation) of collected results. *)
Definition jackknife_data (data : list T) (binsize : Z) : result (list T) :=
  traverse (jackknife_of data binsize)
           (xrange 0 (num_bins_of (len data) binsize)).

Definition mean_and_std_jackknife (limit : nat) (out : result (list Algebra.value))
  : result (Algebra.value * Algebra.value) :=
  out ← out;
  mean ← Algebra._mean limit out;
  std ← Algebra._std_jackknife limit out;
  Ok (mean, std).

(** A state over a new archive created by the constructor. *)
Definition created (ty : pytype) (rng : nat -> Z) : state :=
  let '(d, z) := __init__ true ty "data.zip" true in
  {| self := d; archive := z; pyQCDcache := ∅; entropy := rng; drawn := 0%nat |}.

(** The state after appending the payloads [xs], as objects of type
    [ty], to a new archive. *)
Definition appended (ty : pytype) (rng : nat -> Z) (xs : list T) : state :=
  (for_each (fun x => add_datum {| ob_type := ty; ob_data := x |}) xs
            (created ty rng)).2.

End WithDatum.

Notation "'do' x <- m ; k" := (bindM m (fun x => k))
  (at level 10, x name, m at level 100, k at level 200).
Notation "'do_' m ; k" := (bindM m (fun _ => k))
  (at level 10, m at level 100, k at level 200).

(** ** Example element types *)

(** The built-in [float]: no [save], no [load]. *)
Definition float_type : pytype :=
  {| ty_name := "float"; ty_has_save := false; ty_has_load := false |}.

(** A scalar observable class with its own [save] and [load]; its
    payload is a float. *)
Definition scalar_type : pytype :=
  {| ty_name := "Scalar"; ty_has_save := true; ty_has_load := true |}.

(** The bin of a list of reals, and the jackknife datum, as closed
    formulas. *)
Definition Rbin (xs : list R) (binsize binnum : Z) : R :=
  (Algebra.Rsum (py_slice xs (binsize * binnum)
                          (Z.min (binsize * (binnum + 1)) (len xs)))
   / IZR binsize)%R.

Definition Rjackknife (xs : list R) (binsize index : Z) : R :=
  let num_bins := num_bins_of (len xs) binsize in
  ((Algebra.Rsum (map (Rbin xs binsize) (xrange 0 num_bins)) - Rbin xs binsize index)
   / IZR (num_bins - 1))%R.

(** A random source for the examples. *)
Definition example_rng (i : nat) : Z := Z.of_nat (i * i + 1).

(** Archives of scalar observables, built by appending. *)
Definition one_scalar : state (T := R) :=
  appended scalar_type example_rng [1%R].
Definition two_scalars : state (T := R) :=
  appended scalar_type example_rng [1%R; 2%R].
Definition four_scalars : state (T := R) :=
  appended scalar_type example_rng [1%R; 2%R; 3%R; 4%R].
Definition five_scalars : state (T := R) :=
  appended scalar_type example_rng [1%R; 2%R; 3%R; 4%R; 5%R].

(** An archive file in which a bootstrap resample was stored next to two
    data. *)
Definition archive_with_bootstrap_entry : zipfile (T := R) :=
  [("type", Pickled scalar_type);
   ("Scalar0.npz", Saved 1%R);
   ("Scalar1.npz", Saved 2%R);
   ("Scalar_bootstrap_binsize1_0.npz", Saved 1%R)].

(** The same with a jackknife resample instead. *)
Definition archive_with_jackknife_entry : zipfile (T := R) :=
  [("type", Pickled scalar_type);
   ("Scalar0.npz", Saved 1%R);
   ("Scalar1.npz", Saved 2%R);
   ("Scalar_jackknife_binsize1_0.npz", Saved 2%R)].

End Store.

(** * Properties of the measurement algebra *)

Module AlgebraFacts.
Import Algebra.

Local Open Scope R_scope.

Lemma add_floats (k : nat) (x y : R) :
  _add_measurements (S k) (VFloat x) (VFloat y) = Ok (VFloat (x + y)).
Proof. reflexivity. Qed.

Lemma sub_floats (k : nat) (x y : R) :
  _sub_measurements (S k) (VFloat x) (VFloat y) = Ok (VFloat (x - y)).
Proof. reflexivity. Qed.

Lemma mul_floats (k : nat) (x y : R) :
  _mul_measurements (S k) (VFloat x) (VFloat y) = Ok (VFloat (x * y)).
Proof. reflexivity. Qed.

Lemma len_cons {A : Type} (x : A) (xs : list A) : len (x :: xs) = (len xs + 1)%Z.
Proof. unfold len. simpl length. lia. Qed.

Lemma len_nonneg {A : Type} (xs : list A) : (0 <= len xs)%Z.
Proof. unfold len. lia. Qed.

Lemma div_float_by_int (k : nat) (x : R) (n : Z) :
  n <> 0%Z ->
  _div_measurements (S k) (VFloat x) (VInt n) = Ok (VFloat (x / IZR n)).
Proof.
  intros Hn. simpl. destruct (Z.eqb_spec n 0); [contradiction | reflexivity].
Qed.

(** The accumulation loop of [_mean] on floats. *)
Lemma fold_add_floats (k : nat) (xs : list R) (a : R) :
  foldM (fun out datum => _add_measurements (S k) out datum)
        (VFloat a) (map VFloat xs)
  = Ok (VFloat (a + Rsum xs)).
Proof.
  revert a. induction xs as [|x xs IH]; intros a; simpl.
  - do 2 f_equal. lra.
  - rewrite IH. do 2 f_equal. lra.
Qed.

Lemma len_map {A B : Type} (f : A -> B) (xs : list A) : len (map f xs) = len xs.
Proof. unfold len. now rewrite length_map. Qed.

Lemma mean_floats (k : nat) (x : R) (xs : list R) :
  _mean (S k) (map VFloat (x :: xs)) = Ok (VFloat (Rmean (x :: xs))).
Proof.
  unfold _mean. cbn [map]. rewrite fold_add_floats. cbn [mbind result_bind].
  change (VFloat x :: map VFloat xs) with (map VFloat (x :: xs)).
  rewrite len_map, div_float_by_int; [reflexivity|].
  rewrite len_cons. pose proof (len_nonneg xs). lia.
Qed.

(** The accumulation loop of the standard-deviation reducers on floats. *)
Lemma fold_squares_floats (k : nat) (m : R) (xs : list R) (a : R) :
  foldM (fun out datum =>
           diff ← _sub_measurements (S k) datum (VFloat m);
           square ← _mul_measurements (S k) diff diff;
           _add_measurements (S k) out square)
        (VFloat a) (map VFloat xs)
  = Ok (VFloat (a + Rsum (map (fun x => (x - m) * (x - m)) xs))).
Proof.
  revert a. induction xs as [|x xs IH]; intros a; simpl.
  - do 2 f_equal. lra.
  - rewrite IH. do 2 f_equal. lra.
Qed.

Lemma sum_squares_floats (k : nat) (x : R) (xs : list R) :
  sum_squares (S k) (map VFloat (x :: xs)) = Ok (VFloat (Rsumsq (x :: xs))).
Proof.
  unfold sum_squares. rewrite mean_floats. cbn [mbind result_bind map].
  rewrite sub_floats. cbn [mbind result_bind]. rewrite mul_floats.
  cbn [mbind result_bind]. rewrite fold_squares_floats. reflexivity.
Qed.

Lemma std_floats (k : nat) (x : R) (xs : list R) :
  _std (S k) (map VFloat (x :: xs))
  = Ok (VFloat (sqrt (Rsumsq (x :: xs) / IZR (len (x :: xs))))).
Proof.
  unfold _std. rewrite sum_squares_floats. cbn [mbind result_bind].
  rewrite len_map, div_float_by_int; [reflexivity|].
  rewrite len_cons. pose proof (len_nonneg xs). lia.
Qed.

Lemma std_jackknife_floats (k : nat) (xs : list R) :
  (2 <= len xs)%Z ->
  _std_jackknife (S k) (map VFloat xs)
  = Ok (VFloat (sqrt (Rsumsq xs * IZR (len xs - 1) / IZR (len xs)))).
Proof.
  intros Hn. destruct xs as [|x xs]; [unfold len in Hn; simpl in Hn; lia|].
  unfold _std_jackknife. rewrite sum_squares_floats. cbn [mbind result_bind].
  rewrite len_map. set (n := len (x :: xs)) in *.
  unfold dunder_div. destruct (Z.eqb_spec (n - 1) 0) as [E|E]; [lia|].
  cbn [mbind result_bind].
  assert (Hn0 : IZR n <> 0) by (apply not_0_IZR; lia).
  assert (Hn1 : IZR (n - 1) <> 0) by (apply not_0_IZR; lia).
  simpl. destruct (Req_dec_T (IZR n / IZR (n - 1)) 0) as [E0|E0].
  - exfalso. apply Hn0.
    replace (IZR n) with (IZR n / IZR (n - 1) * IZR (n - 1)) by (field; exact Hn1).
    rewrite E0. ring.
  - cbn [mbind result_bind np_sqrt]. do 3 f_equal. field. split; assumption.
Qed.

(** The three reducers on a non-empty list of floats: the mean is the
    sum over [n], the plain standard deviation is the root of the sum of
    squared deviations over [n], and, from two values on, the jackknife
    standard deviation is the root of that sum times [(n-1)/n]. *)
Theorem reducers_exact_on_floats (k : nat) (xs : list R) :
  xs <> [] ->
  _mean (S k) (map VFloat xs) = Ok (VFloat (Rsum xs / IZR (len xs)))
  /\ _std (S k) (map VFloat xs)
     = Ok (VFloat (sqrt (Rsumsq xs / IZR (len xs))))
  /\ ((2 <= len xs)%Z ->
      _std_jackknife (S k) (map VFloat xs)
      = Ok (VFloat (sqrt (Rsumsq xs * IZR (len xs - 1) / IZR (len xs))))).
Proof.
  intros Hne. destruct xs as [|x xs]; [congruence|].
  split; [apply mean_floats|]. split; [apply std_floats|].
  apply std_jackknife_floats.
Qed.

(** C1.  On a list holding a single float the jackknife
    standard-deviation reducer does not return the value of the formula
    [sqrt (sum * (n-1)/n)], which is 0 there: computing
    [float(len(data)) / (len(data) - 1)] divides by zero. *)
Theorem C1_std_jackknife_single_raises (k : nat) (x : R) :
  _std_jackknife (S k) [VFloat x] = Raise ZeroDivisionError
  /\ sqrt (Rsumsq [x] * IZR (len [x] - 1) / IZR (len [x])) = 0.
Proof.
  split.
  - unfold _std_jackknife.
    change [VFloat x] with (map VFloat [x]).
    rewrite sum_squares_floats. reflexivity.
  - replace (Rsumsq [x] * IZR (len [x] - 1) / IZR (len [x])) with 0.
    + apply sqrt_0.
    + unfold Rsumsq, Rmean, len. simpl. field.
Qed.

(** On Python 2 ints the mean is a floor division and the jackknife
    reducer divides an int by a float through [int.__div__], which
    answers [NotImplemented]; the root of that is [None]. *)
Example mean_of_ints : _mean 1 [VInt 1; VInt 2] = Ok (VInt 1).
Proof. reflexivity. Qed.

Example std_jackknife_of_ints : _std_jackknife 1 [VInt 1; VInt 2] = Ok VNone.
Proof. reflexivity. Qed.

(** ** Addition followed by subtraction *)

Local Close Scope R_scope.
Local Open Scope nat_scope.



(** One step of each operation on two sequences and on dicts. *)
Lemma add_seq_seq (k : nat) (a b : value) (la lb : list value) :
  tuple_to_list a = VList la -> tuple_to_list b = VList lb ->
  _add_measurements (S k) a b
  = VList <$> traverse (fun xy => _add_measurements k xy.1 xy.2) (zip la lb).
Proof. intros Ha Hb. simpl. rewrite Ha, Hb. reflexivity. Qed.

Lemma sub_list_seq (k : nat) (b : value) (la lb : list value) :
  tuple_to_list b = VList lb ->
  _sub_measurements (S k) (VList la) b
  = VList <$> traverse (fun xy => _sub_measurements k xy.1 xy.2) (zip la lb).
Proof. intros Hb. simpl. rewrite Hb. reflexivity. Qed.






Lemma zip_keys_untuple (d : list (string * value)) :
  zip (keys d) (map untuple (values d)) = map (fun kv => (kv.1, untuple kv.2)) d.
Proof. induction d as [|[k x] d IH]; simpl; [reflexivity|]. now rewrite IH. Qed.







(** An int on the left of a float is refused by [int.__add__]: the sum
    is [NotImplemented] and the subtraction raises. *)
Example int_plus_float_lost (k : nat) (x : Z) (y : R) :
  _add_measurements (S k) (VInt x) (VFloat y) = Ok VNotImplemented
  /\ _sub_measurements (S k) VNotImplemented (VFloat y) = Raise TypeError.
Proof. split; reflexivity. Qed.

End AlgebraFacts.

(** * Properties of the archive store *)

Module StoreFacts.
Import Store.

Section WithDatum.

Context {T : Type} `{Datum T}.

Lemma get_datum_read (s : @state T) (index : Z) :
  get_datum index s = (read s index, s).
Proof.
  unfold get_datum, read, bindM, gets, lift; simpl.
  destruct (zip_extract _ _); reflexivity.
Qed.

(** [stored] only looks at the element type, the count and the file. *)
Lemma stored_same_store (s s' : @state T) (data : list T) :
  datatype (self s') = datatype (self s) ->
  num_data (self s') = num_data (self s) ->
  archive s' = archive s ->
  stored s data -> stored s' data.
Proof.
  intros Ht Hn Ha [Hcount Hread]. split; [congruence|].
  intros i x Hi. unfold read. rewrite Ht, Ha. apply (Hread i x Hi).
Qed.

(** *** Appending *)

Lemma add_datum_type_error (s : @state T) (datum : pyobj) :
  ob_type datum <> datatype (self s) ->
  add_datum datum s = (Raise TypeError, s).
Proof.
  intros Hty. unfold add_datum, bindM, gets; simpl.
  rewrite bool_decide_eq_false_2 by assumption. reflexivity.
Qed.

Lemma add_datum_with_save (s : @state T) (datum : pyobj) :
  ob_type datum = datatype (self s) ->
  ty_has_save (ob_type datum) = true ->
  add_datum datum s
  = (Ok tt,
     with_self (set_num_data (num_data (self s) + 1))
       (set_archive
          (archive s ++ [(entry_name (datatype (self s)) (num_data (self s)),
                          Saved (ob_data datum))])%list s)).
Proof.
  intros Hty Hsave. unfold add_datum, bindM, gets, lift, modify, _datum_save; simpl.
  rewrite bool_decide_eq_true_2 by assumption. simpl. rewrite Hsave. reflexivity.
Qed.

Lemma add_datum_without_save (s : @state T) (datum : pyobj) :
  ob_type datum = datatype (self s) ->
  ty_has_save (ob_type datum) = false ->
  add_datum datum s = (Raise NameError, s).
Proof.
  intros Hty Hsave. unfold add_datum, bindM, gets, lift, modify, _datum_save; simpl.
  rewrite bool_decide_eq_true_2 by assumption. simpl. rewrite Hsave. reflexivity.
Qed.

(** *** Reading back what was appended *)

Lemma append_cons (c : ascii) (r t : string) : String c r +:+ t = String c (r +:+ t).
Proof. reflexivity. Qed.

Lemma append_length (s t : string) :
  String.length (s +:+ t) = (String.length s + String.length t)%nat.
Proof.
  induction s as [|c s IH]; [reflexivity|].
  rewrite append_cons. simpl. now rewrite IH.
Qed.

Lemma append_inj_r (t s1 s2 : string) : s1 +:+ t = s2 +:+ t -> s1 = s2.
Proof.
  revert s2. induction s1 as [|c1 s1 IH]; intros [|c2 s2] E.
  - reflexivity.
  - apply (f_equal String.length) in E. rewrite !append_length in E.
    simpl in E. lia.
  - apply (f_equal String.length) in E. rewrite !append_length in E.
    simpl in E. lia.
  - rewrite !append_cons in E. injection E as -> E. f_equal. now apply IH.
Qed.

Lemma entry_name_inj (ty : pytype) (i j : Z) :
  entry_name ty i = entry_name ty j -> i = j.
Proof.
  unfold entry_name. intros E. apply (inj (String.append _)) in E.
  apply append_inj_r in E. exact (inj pretty _ _ E).
Qed.

Lemma zip_extract_snoc (z : @zipfile T) (name fname : string) (c : content) :
  zip_extract name (z ++ [(fname, c)])%list
  = if String.eqb fname name then Ok c else zip_extract name z.
Proof.
  unfold zip_extract. rewrite rev_app_distr. simpl.
  destruct (String.eqb fname name); reflexivity.
Qed.

(** Appending a datum of an element type with [save] and [load] keeps
    what was stored and adds the datum at the next index. *)
Lemma add_datum_stored (s : @state T) (data : list T) (datum : pyobj) :
  stored s data ->
  ob_type datum = datatype (self s) ->
  ty_has_save (datatype (self s)) = true ->
  ty_has_load (datatype (self s)) = true ->
  (add_datum datum s).1 = Ok tt
  /\ stored (add_datum datum s).2 (data ++ [ob_data datum])%list.
Proof.
  intros [Hcount Hread] Hty Hsave Hload.
  rewrite add_datum_with_save by (auto; congruence).
  split; [reflexivity|]. split.
  - simpl. rewrite Hcount. unfold len. rewrite length_app. simpl. lia.
  - intros i x Hi. unfold read. simpl. rewrite zip_extract_snoc.
    destruct (String.eqb_spec (entry_name (datatype (self s)) (num_data (self s)))
                (entry_name (datatype (self s)) (Z.of_nat i))) as [E|E].
    + apply entry_name_inj in E. simpl. unfold _datum_load. rewrite Hload.
      rewrite lookup_app_r in Hi by (unfold len in *; lia).
      replace (i - length data)%nat with 0%nat in Hi by (unfold len in *; lia).
      simpl in Hi. congruence.
    + rewrite lookup_app_l in Hi.
      * exact (Hread i x Hi).
      * destruct (Nat.lt_ge_cases i (length data)) as [Hlt|Hge]; [exact Hlt|].
        exfalso. apply lookup_lt_Some in Hi. rewrite length_app in Hi. simpl in Hi.
        apply E. f_equal. unfold len in *. lia.
Qed.

Lemma appended_onto (ty : pytype) (xs : list T) :
  ty_has_save ty = true -> ty_has_load ty = true ->
  forall (s : @state T) (data : list T),
    datatype (self s) = ty -> stored s data ->
    stored (for_each (fun x => add_datum {| ob_type := ty; ob_data := x |}) xs s).2
           (data ++ xs)%list.
Proof.
  intros Hsave Hload. induction xs as [|x xs IH]; intros s data Hty Hst.
  - simpl. now rewrite app_nil_r.
  - simpl. unfold bindM.
    destruct (add_datum_stored s data {| ob_type := ty; ob_data := x |} Hst)
      as [Hok Hst']; simpl; try congruence.
    destruct (add_datum _ s) as [[[]|e] s1] eqn:E; simpl in *; [|discriminate].
    replace (data ++ x :: xs)%list with ((data ++ [x]) ++ xs)%list
      by (rewrite <- app_assoc; reflexivity).
    apply IH; [|exact Hst'].
    rewrite add_datum_with_save in E by (simpl; congruence).
    injection E as <-. exact Hty.
Qed.

(** Data appended to a new archive read back as they were given. *)
Lemma appended_stored (ty : pytype) (rng : nat -> Z) (xs : list T) :
  ty_has_save ty = true -> ty_has_load ty = true ->
  stored (appended ty rng xs) xs.
Proof.
  intros Hsave Hload. unfold appended.
  apply (appended_onto ty xs Hsave Hload (created ty rng) []); [reflexivity|].
  split; [reflexivity|]. intros i x Hi. discriminate.
Qed.

(** *** Unsupported operations *)

Lemma set_datum_raises (s : @state T) (index : Z) (datum : T) :
  set_datum index datum s = (Raise NotImplementedError, s).
Proof. reflexivity. Qed.

Lemma xrange_empty (lo hi : Z) : hi <= lo -> xrange lo hi = [].
Proof. intros Hle. unfold xrange. replace (Z.to_nat (hi - lo)) with 0%nat by lia. reflexivity. Qed.

Lemma xrange_cons (lo hi : Z) : lo < hi -> xrange lo hi = lo :: xrange (lo + 1) hi.
Proof.
  intros Hlt. unfold xrange.
  replace (Z.to_nat (hi - lo)) with (S (Z.to_nat (hi - (lo + 1)))) by lia.
  simpl. f_equal; [lia|].
  rewrite <- seq_shift, map_map. apply map_ext. intros i. lia.
Qed.

Lemma apply_function_outcome (s : @state T) (func : T -> result T) (data : list T) :
  stored s data ->
  (forall x, head data = Some x -> exists y, func x = Ok y) ->
  apply_function func s
  = (if len data =? 0 then Ok tt else Raise NotImplementedError, s).
Proof.
  intros [Hcount Hread] Hfunc. unfold apply_function, bindM at 1, gets. simpl.
  rewrite Hcount. destruct data as [|x data].
  - reflexivity.
  - rewrite AlgebraFacts.len_cons.
    pose proof (AlgebraFacts.len_nonneg data) as Hn.
    destruct (Z.eqb_spec (len data + 1) 0) as [E|E]; [lia|].
    rewrite xrange_cons by lia. simpl. unfold bindM at 1.
    unfold bindM at 1. rewrite get_datum_read.
    pose proof (Hread 0%nat x eq_refl) as Hx.
    change (Z.of_nat 0) with 0 in Hx. rewrite Hx.
    destruct (Hfunc x eq_refl) as [y Hy]. unfold bindM, lift. rewrite Hy.
    reflexivity.
Qed.

(** *** Iteration *)

Lemma read_same_store (s s' : @state T) (index : Z) :
  datatype (self s') = datatype (self s) -> archive s' = archive s ->
  read s' index = read s index.
Proof. intros Ht Ha. unfold read. now rewrite Ht, Ha. Qed.

Lemma next_yields (s : @state T) (data : list T) (i : nat) (x : T) :
  stored s data ->
  iteration (self s) = Z.of_nat i ->
  data !! i = Some x ->
  next s = (Ok x, with_self (set_iteration (Z.of_nat (S i))) s).
Proof.
  intros [Hcount Hread] Hit Hi. unfold next, bindM at 1, gets. simpl.
  unfold bindM at 1. simpl. rewrite Hit, Hcount.
  apply lookup_lt_Some in Hi as Hlt.
  destruct (Z.geb_spec (Z.of_nat i) (len data)) as [Hge|_];
    [unfold len in Hge; lia|].
  unfold bindM at 1, modify. unfold bindM at 1, gets. simpl.
  rewrite get_datum_read.
  replace (Z.of_nat i + 1 - 1) with (Z.of_nat i) by lia.
  rewrite (read_same_store s) by reflexivity.
  rewrite (Hread i x Hi). do 3 f_equal. lia.
Qed.

Lemma next_stops (s : @state T) :
  num_data (self s) <= iteration (self s) ->
  next s = (Raise StopIteration, s).
Proof.
  intros Hge. unfold next, bindM at 1, gets. simpl. unfold bindM at 1. simpl.
  destruct (Z.geb_spec (iteration (self s)) (num_data (self s))); [reflexivity | lia].
Qed.

Lemma set_iteration_same (s : @state T) :
  with_self (set_iteration (iteration (self s))) s = s.
Proof. destruct s as [[] ? ? ? ?]. reflexivity. Qed.

Lemma for_in_run (n : nat) :
  forall (s : @state T) (data : list T) (i fuel : nat) (acc : list T),
    stored s data ->
    iteration (self s) = Z.of_nat i ->
    (length data - i = n)%nat -> (i <= length data)%nat -> (n < fuel)%nat ->
    for_in fuel acc s
    = Some (Ok (acc ++ drop i data)%list, with_self (set_iteration (len data)) s).
Proof.
  induction n as [|n IH]; intros s data i fuel acc Hst Hit Hn Hle Hfuel;
    (destruct fuel as [|fuel]; [lia|]); simpl.
  - rewrite next_stops by (destruct Hst as [-> _]; unfold len; lia).
    rewrite drop_ge by lia. rewrite app_nil_r.
    replace (len data) with (iteration (self s)) by (unfold len; lia).
    now rewrite set_iteration_same.
  - destruct (lookup_lt_is_Some_2 data i) as [x Hx]; [lia|].
    rewrite (next_yields s data i x Hst Hit Hx).
    rewrite (IH _ data (S i)); try lia; try reflexivity.
    + rewrite (drop_S data x i Hx), <- app_assoc. reflexivity.
    + eapply stored_same_store; [..|exact Hst]; reflexivity.
Qed.

End WithDatum.

(** *** The claims on the archive store *)

Local Open Scope R_scope.

(** C7.  Appending a datum of the declared element type fails when that
    type has no [save]: the fallback that should write the textual form
    reads the undefined name [filenaem].  Here the element type is the
    built-in float. *)
Theorem C7_add_datum_without_save_raises :
  add_datum {| ob_type := float_type; ob_data := 3 / 2 |}
            (created float_type example_rng)
  = (Raise NameError, created float_type example_rng).
Proof. apply add_datum_without_save; reflexivity. Qed.

(** C8, as the code has it.  [set_datum] raises the unsupported-operation
    failure whatever its arguments.  On an archive whose data are
    readable, and with a function that accepts the first datum,
    [apply_function] raises it exactly when the archive is not empty; on
    an empty archive it returns. *)
Theorem C8_unsupported_operations {T : Type} `{Datum T}
    (s : @state T) (func : T -> result T) (data : list T) :
  stored s data ->
  (forall x, head data = Some x -> exists y, func x = Ok y) ->
  (forall index datum, set_datum index datum s = (Raise NotImplementedError, s))
  /\ apply_function func s
     = (if (len data =? 0)%Z then Ok tt else Raise NotImplementedError, s).
Proof.
  intros Hst Hfunc. split; [intros; apply set_datum_raises|].
  now apply apply_function_outcome.
Qed.

Lemma stored_appended_scalars :
  stored four_scalars [1; 2; 3; 4].
Proof. apply appended_stored; reflexivity. Qed.

Lemma C8_unsupported_operations_witness :
  (forall index datum,
      set_datum index datum four_scalars
      = (Raise NotImplementedError, four_scalars))
  /\ apply_function (fun x => Ok (x + 1))
                    four_scalars
     = (if (len [1; 2; 3; 4] =? 0)%Z then Ok tt else Raise NotImplementedError,
        four_scalars).
Proof.
  apply (C8_unsupported_operations
           four_scalars
           (fun x => Ok (x + 1)) [1; 2; 3; 4]).
  - exact stored_appended_scalars.
  - intros x _. exists (x + 1). reflexivity.
Defined.

(** C8 as stated fails on the empty archive: [apply_function] has no
    datum to write back and returns without raising. *)
Lemma C8_apply_function_empty_counterexample :
  apply_function (fun x : R => Ok (x + 1)) (created scalar_type example_rng)
  = (Ok tt, created scalar_type example_rng)
  /\ (apply_function (fun x : R => Ok (x + 1)) (created scalar_type example_rng)).1
     <> Raise NotImplementedError.
Proof. split; [reflexivity | discriminate]. Qed.

(** The count recovered by [load]: the type comes from the [type] entry;
    the count is the largest number read from the names that start with
    the type's name and do not contain "jackknife", plus one. *)
Lemma load_count {T : Type} (zip64 : bool) (z : @zipfile T) (fname : string)
    (ty : pytype) (data : list Z) :
  zip_extract "type" z = Ok (Pickled ty) ->
  traverse (fun n => py_int (slice_to_minus4 (String.length (ty_name ty)) n))
           (filter (fun n => String.prefix (ty_name ty) n && not_found "jackknife" n)
                   (namelist z)) = Ok data ->
  exists out,
    load zip64 z fname = Ok out
    /\ datatype out = ty
    /\ num_data out = match data with [] => 0%Z | _ => (py_max data + 1)%Z end.
Proof.
  intros Hty Hdata. unfold load. rewrite Hty. simpl. rewrite Hdata. simpl.
  eexists. split; [reflexivity|].
  destruct data as [|n data]; simpl; [auto|].
  unfold len. simpl length.
  destruct (Z.ltb_spec 0 (Z.of_nat (S (length data)))); [auto | lia].
Qed.

(** Names of jackknife resamples are passed over. *)
Example load_skips_jackknife_entry :
  num_data <$> load true archive_with_jackknife_entry "data.zip" = Ok 2%Z.
Proof. vm_compute. reflexivity. Qed.

(** C6.  A stored name of a bootstrap resample starts with the element
    type's name and does not contain "jackknife", so [load] does not
    pass over it: it hands [_bootstrap_binsize1_0] to [int], which
    raises, where the count of the two data was to be recovered. *)
Theorem C6_load_bootstrap_entry_raises :
  load true archive_with_bootstrap_entry "data.zip" = Raise ValueError.
Proof. vm_compute. reflexivity. Qed.



End StoreFacts.

(** * Properties of the bin accessor and of the resampling engine *)

Module ResampleFacts.
Import Store StoreFacts.

Section WithDatum.

Context {T : Type} `{Datum T}.

(** ** Monadic steps *)

Lemma bindM_ok {A B : Type} (m : M (T := T) A) (f : A -> M B) (s s' : @state T) (a : A) :
  m s = (Ok a, s') -> bindM m f s = f a s'.
Proof. intros Hm. unfold bindM. now rewrite Hm. Qed.




(** A loop whose body leaves the state [s] alone is a fold. *)
Lemma for_fold_pure {A B : Type} (body : A -> B -> M (T := T) A)
    (g : A -> B -> result A) (s : @state T) (xs : list B) :
  (forall acc x, In x xs -> body acc x s = (g acc x, s)) ->
  forall acc, for_fold body acc xs s = (foldM g acc xs, s).
Proof.
  induction xs as [|x xs IH]; intros Hbody acc; simpl; [reflexivity|].
  unfold bindM. rewrite Hbody by (left; reflexivity).
  destruct (g acc x) as [acc'|e]; simpl; [|reflexivity].
  apply IH. intros acc0 y Hy. apply Hbody. right. exact Hy.
Qed.

Lemma in_xrange (lo hi i : Z) : In i (xrange lo hi) <-> lo <= i < hi.
Proof.
  unfold xrange. rewrite in_map_iff. split.
  - intros (j & <- & Hj). apply in_seq in Hj. lia.
  - intros Hi. exists (Z.to_nat (i - lo)). split; [lia|]. apply in_seq. lia.
Qed.

(** ** Bins *)

Lemma py_slice_empty (data : list T) (lo hi : Z) :
  hi <= lo -> py_slice data lo hi = [].
Proof. intros Hle. unfold py_slice. replace (Z.to_nat (hi - lo)) with 0%nat by lia. reflexivity. Qed.

Lemma py_slice_cons (data : list T) (lo hi : Z) (x : T) :
  0 <= lo < hi -> data !! Z.to_nat lo = Some x ->
  py_slice data lo hi = x :: py_slice data (lo + 1) hi.
Proof.
  intros Hlo Hx. unfold py_slice.
  replace (Z.to_nat (hi - lo)) with (S (Z.to_nat (hi - (lo + 1)))) by lia.
  rewrite (drop_S data x _ Hx). simpl.
  replace (Z.to_nat (lo + 1)) with (S (Z.to_nat lo)) by lia. reflexivity.
Qed.

Lemma stored_lookup (s : @state T) (data : list T) (i : Z) :
  stored s data -> 0 <= i < len data ->
  exists x, data !! Z.to_nat i = Some x /\ get_datum i s = (Ok x, s).
Proof.
  intros [Hcount Hread] Hi.
  destruct (lookup_lt_is_Some_2 data (Z.to_nat i)) as [x Hx]; [unfold len in Hi; lia|].
  exists x. split; [exact Hx|]. rewrite get_datum_read.
  pose proof (Hread _ x Hx) as Hr. rewrite Z2Nat.id in Hr by lia. now rewrite Hr.
Qed.

(** The accumulation loop of [_get_bin]. *)
Lemma accumulate_run (n : nat) :
  forall (s : @state T) (data : list T) (lo hi : Z) (acc : T),
    stored s data -> 0 <= lo -> hi <= len data -> Z.to_nat (hi - lo) = n ->
    for_fold (fun out i => do x <- get_datum i; retM (d_add out x))
             acc (xrange lo hi) s
    = (Ok (fold_left d_add (py_slice data lo hi) acc), s).
Proof.
  induction n as [|n IH]; intros s data lo hi acc Hst Hlo Hhi Hn.
  - rewrite xrange_empty, py_slice_empty by lia. reflexivity.
  - rewrite xrange_cons by lia. simpl.
    destruct (stored_lookup s data lo Hst) as (x & Hx & Hget); [lia|].
    rewrite (bindM_ok _ _ s s (d_add acc x))
      by (rewrite (bindM_ok _ _ s s x Hget); reflexivity).
    rewrite (IH s data (lo + 1) hi) by (auto; lia).
    rewrite (py_slice_cons data lo hi x) by (auto; lia). reflexivity.
Qed.

Lemma get_bin_of (s : @state T) (data : list T) (binsize binnum : Z) :
  stored s data -> 1 <= binsize -> 0 <= binnum -> binsize * binnum < len data ->
  _get_bin binsize binnum s = (bin_of data binsize binnum, s).
Proof.
  intros Hst Hbs Hk Hlt. unfold _get_bin, bin_of.
  destruct (stored_lookup s data (binsize * binnum) Hst) as (x & Hx & Hget); [lia|].
  rewrite (bindM_ok _ _ s s x Hget).
  unfold bindM at 1, gets. destruct Hst as [Hcount Hread] eqn:Est. rewrite Hcount.
  set (last := if binsize * (binnum + 1) >? len data then len data
               else binsize * (binnum + 1)).
  assert (Hlast : last = Z.min (binsize * (binnum + 1)) (len data)).
  { unfold last. destruct (Z.gtb_spec (binsize * (binnum + 1)) (len data)); lia. }
  rewrite (bindM_ok _ _ s s _
             (accumulate_run _ s data (binsize * binnum + 1) last x
                (conj Hcount Hread) ltac:(lia) ltac:(lia) eq_refl)).
  rewrite <- Hlast.
  rewrite (py_slice_cons data (binsize * binnum) last x) by (auto; lia).
  simpl. unfold lift. reflexivity.
Qed.

(** The number of bins is the count divided by the bin size, rounded up. *)
Lemma num_bins_ceil (n binsize : Z) :
  0 <= n -> 1 <= binsize ->
  num_bins_of n binsize = (n + binsize - 1) / binsize
  /\ (num_bins_of n binsize - 1) * binsize < n <= num_bins_of n binsize * binsize.
Proof.
  intros Hn Hbs. unfold num_bins_of.
  pose proof (Z.div_mod n binsize ltac:(lia)) as Hdm.
  pose proof (Z.mod_pos_bound n binsize ltac:(lia)) as Hm.
  destruct (Z.gtb_spec (n mod binsize) 0) as [Hpos|Hzero].
  - split; [|nia].
    apply (Z.div_unique_pos _ _ _ (n mod binsize - 1)); [lia|nia].
  - assert (Hz : n mod binsize = 0) by lia. split.
    + apply (Z.div_unique_pos _ _ _ (binsize - 1)); [lia|nia].
    + nia.
Qed.

Lemma num_bins_le_count (n binsize : Z) :
  0 <= n -> 1 <= binsize -> 0 <= num_bins_of n binsize <= n.
Proof.
  intros Hn Hbs. destruct (num_bins_ceil n binsize Hn Hbs) as [_ Hc]. nia.
Qed.

Lemma bin_index_in_range (n binsize i : Z) :
  0 <= n -> 1 <= binsize -> 0 <= i < num_bins_of n binsize -> binsize * i < n.
Proof.
  intros Hn Hbs Hi. destruct (num_bins_ceil n binsize Hn Hbs) as [_ Hc]. nia.
Qed.

Lemma sum_bins_total (s : @state T) (data : list T) (binsize num_bins : Z) :
  stored s data -> 1 <= binsize -> 0 < len data ->
  num_bins <= num_bins_of (len data) binsize ->
  sum_bins binsize num_bins s = (bins_total data binsize num_bins, s).
Proof.
  intros Hst Hbs Hpos Hnb. unfold sum_bins, bins_total.
  unfold bindM at 1. rewrite (get_bin_of s data binsize 0) by (auto; lia).
  destruct (bin_of data binsize 0) as [b0|e]; simpl; [|reflexivity].
  apply for_fold_pure. intros acc i Hi. apply in_xrange in Hi.
  unfold bindM. rewrite (get_bin_of s data binsize i); auto; try lia.
  - destruct (bin_of data binsize i); reflexivity.
  - apply bin_index_in_range; lia.
Qed.

Lemma jackknife_datum_value_error (s : @state T) (data : list T) (index binsize : Z) :
  stored s data -> binsize < 1 \/ len data <= index ->
  jackknife_datum index binsize s = (Raise ValueError, s).
Proof.
  intros [Hcount _] Hbad. unfold jackknife_datum.
  destruct (Z.ltb_spec binsize 1); [reflexivity|].
  unfold bindM, gets. rewrite Hcount.
  destruct (Z.geb_spec index (len data)); [reflexivity | lia].
Qed.

Lemma jackknife_datum_formula (s : @state T) (data : list T) (index binsize : Z) :
  stored s data -> 1 <= binsize ->
  0 <= index < num_bins_of (len data) binsize ->
  jackknife_datum index binsize s = (jackknife_of data binsize index, s).
Proof.
  intros Hst Hbs Hidx. pose proof (AlgebraFacts.len_nonneg data) as Hn.
  pose proof (num_bins_le_count (len data) binsize Hn Hbs) as Hle.
  unfold jackknife_datum, jackknife_of.
  destruct (Z.ltb_spec binsize 1); [lia|].
  unfold bindM at 1, gets. destruct Hst as [Hcount Hread] eqn:Est. rewrite Hcount.
  destruct (Z.geb_spec index (len data)); [lia|].
  unfold bindM at 1.
  rewrite (sum_bins_total s data binsize _ (conj Hcount Hread)) by lia.
  destruct (bins_total data binsize _) as [total|e]; simpl; [|reflexivity].
  unfold bindM. rewrite (get_bin_of s data binsize index (conj Hcount Hread)); try lia.
  - destruct (bin_of data binsize index); reflexivity.
  - apply bin_index_in_range; lia.
Qed.

End WithDatum.

(** ** Archives of floats *)

Local Open Scope R_scope.

Lemma fold_left_Rplus (xs : list R) (a : R) :
  fold_left Rplus xs a = a + Algebra.Rsum xs.
Proof.
  revert a. induction xs as [|x xs IH]; intros a; simpl; [lra|].
  rewrite IH. lra.
Qed.

Lemma bin_of_floats (xs : list R) (binsize binnum : Z) :
  (1 <= binsize)%Z -> (0 <= binnum)%Z -> (binsize * binnum < len xs)%Z ->
  bin_of xs binsize binnum = Ok (Rbin xs binsize binnum).
Proof.
  intros Hbs Hk Hlt. unfold bin_of, Rbin.
  destruct (lookup_lt_is_Some_2 xs (Z.to_nat (binsize * binnum))) as [x Hx];
    [unfold len in Hlt; lia|].
  rewrite (py_slice_cons xs (binsize * binnum) _ x) by (auto; lia).
  simpl. destruct (Z.eqb_spec binsize 0); [lia|].
  rewrite fold_left_Rplus. reflexivity.
Qed.

Lemma fold_bins_floats (xs : list R) (binsize : Z) (l : list Z) (acc : R) :
  (forall i, In i l -> bin_of xs binsize i = Ok (Rbin xs binsize i)) ->
  foldM (fun acc i => b ← bin_of xs binsize i; Ok (d_add acc b)) acc l
  = Ok (acc + Algebra.Rsum (map (Rbin xs binsize) l)).
Proof.
  revert acc. induction l as [|i l IH]; intros acc Hl; simpl.
  - f_equal. lra.
  - rewrite Hl by (left; reflexivity). simpl.
    rewrite IH by (intros j Hj; apply Hl; right; exact Hj). f_equal. lra.
Qed.

Lemma jackknife_of_floats (xs : list R) (binsize index : Z) :
  (1 <= binsize)%Z ->
  (0 <= index < num_bins_of (len xs) binsize)%Z ->
  (2 <= num_bins_of (len xs) binsize)%Z ->
  jackknife_of xs binsize index = Ok (Rjackknife xs binsize index).
Proof.
  intros Hbs Hidx Hnb. pose proof (AlgebraFacts.len_nonneg xs) as Hn.
  assert (Hbin : forall i, (0 <= i < num_bins_of (len xs) binsize)%Z ->
                           bin_of xs binsize i = Ok (Rbin xs binsize i)).
  { intros i Hi. apply bin_of_floats; try lia. apply bin_index_in_range; lia. }
  unfold jackknife_of, Rjackknife, bins_total.
  rewrite (Hbin 0%Z) by lia. simpl.
  rewrite fold_bins_floats by (intros i Hi; apply in_xrange in Hi; apply Hbin; lia).
  simpl. rewrite (Hbin index) by lia. simpl.
  destruct (Z.eqb_spec (num_bins_of (len xs) binsize - 1) 0); [lia|].
  rewrite (xrange_cons 0) by lia. simpl. reflexivity.
Qed.

Lemma stored_five :
  stored five_scalars [1; 2; 3; 4; 5].
Proof. apply appended_stored; reflexivity. Qed.

Lemma stored_two : stored two_scalars [1; 2].
Proof. apply appended_stored; reflexivity. Qed.

Lemma stored_one : stored one_scalar [1].
Proof. apply appended_stored; reflexivity. Qed.

Ltac solve_real_list :=
  repeat (apply (f_equal2 cons); [apply (f_equal Ok); lra|]); reflexivity.

(** C2.  On an archive holding [data], for a bin size of at least one
    and a bin that starts inside the data, the bin accessor returns the
    sum of the data in the bin divided by the nominal bin size, also
    when the last bin is cut short, and leaves the state alone; the
    number of bins is the count over the bin size rounded up.  On the
    floats 1..5 with bin size 2 the bins are 3/2, 7/2 and 5/2. *)
Theorem C2_bin_accessor {T : Type} `{Datum T}
    (s : @state T) (data : list T) (binsize binnum : Z) :
  stored s data ->
  (1 <= binsize)%Z -> (0 <= binnum)%Z -> (binsize * binnum < len data)%Z ->
  (exists x rest,
      py_slice data (binsize * binnum)
               (Z.min (binsize * (binnum + 1)) (len data)) = x :: rest
      /\ _get_bin binsize binnum s = (d_div (fold_left d_add rest x) binsize, s))
  /\ num_bins_of (len data) binsize = ((len data + binsize - 1) / binsize)%Z
  /\ ((num_bins_of (len data) binsize - 1) * binsize < len data
      <= num_bins_of (len data) binsize * binsize)%Z
  /\ (forall xs : list R,
         (binsize * binnum < len xs)%Z ->
         bin_of xs binsize binnum
         = Ok (Algebra.Rsum (py_slice xs (binsize * binnum)
                                      (Z.min (binsize * (binnum + 1)) (len xs)))
               / IZR binsize))
  /\ map (fun k => (_get_bin 2 k five_scalars).1)
         [0; 1; 2]%Z
     = [Ok (3 / 2); Ok (7 / 2); Ok (5 / 2)].
Proof.
  intros Hst Hbs Hk Hlt. pose proof (AlgebraFacts.len_nonneg data) as Hn.
  destruct (num_bins_ceil (len data) binsize Hn Hbs) as [Hceil Hbounds].
  repeat split; try lia.
  - rewrite (get_bin_of s data binsize binnum Hst Hbs Hk Hlt). unfold bin_of.
    destruct (lookup_lt_is_Some_2 data (Z.to_nat (binsize * binnum))) as [x Hx];
      [unfold len in Hlt; lia|].
    rewrite (py_slice_cons data (binsize * binnum) _ x) by (auto; lia).
    eexists _, _. split; reflexivity.
  - intros xs Hxs. apply bin_of_floats; assumption.
  - cbn [map].
    rewrite !(get_bin_of _ [1; 2; 3; 4; 5]) by (try exact stored_five; unfold len; simpl; lia).
    rewrite !bin_of_floats by (unfold len; simpl; lia).
    unfold Rbin. vm_compute.
    solve_real_list.
Qed.

Lemma C2_bin_accessor_witness :
  (exists x rest,
      py_slice [1; 2; 3; 4; 5] (2 * 2) (Z.min (2 * (2 + 1)) (len [1; 2; 3; 4; 5]))
      = x :: rest
      /\ _get_bin 2 2 five_scalars = (d_div (fold_left d_add rest x) 2, five_scalars))
  /\ num_bins_of (len [1; 2; 3; 4; 5]) 2 = ((len [1; 2; 3; 4; 5] + 2 - 1) / 2)%Z
  /\ ((num_bins_of (len [1; 2; 3; 4; 5]) 2 - 1) * 2 < len [1; 2; 3; 4; 5]
      <= num_bins_of (len [1; 2; 3; 4; 5]) 2 * 2)%Z
  /\ (forall xs : list R,
         (2 * 2 < len xs)%Z ->
         bin_of xs 2 2
         = Ok (Algebra.Rsum (py_slice xs (2 * 2) (Z.min (2 * (2 + 1)) (len xs)))
               / IZR 2))
  /\ map (fun k => (_get_bin 2 k five_scalars).1) [0; 1; 2]%Z
     = [Ok (3 / 2); Ok (7 / 2); Ok (5 / 2)].
Proof.
  apply (C2_bin_accessor five_scalars [1; 2; 3; 4; 5] 2 2).
  - exact stored_five.
  - lia.
  - lia.
  - unfold len. simpl. lia.
Defined.

(** C3, as the code has it.  On an archive holding [data],
    [jackknife_datum] raises a value error when the bin size is below
    one or the index is not below the count.  For a bin size of at least
    one and an index below the number of bins it returns
    (sum of all bins - bin(index)) / (number of bins - 1), computed from
    the data alone, and leaves the state, cache included, as it was.  On
    floats, with at least two bins, that is the real number of the
    formula.  On the floats 1, 2, 3, 4 with bin size 1 the sum of the
    bins is 10 and the jackknife data are 9/3, 8/3, 7/3 and 6/3. *)
Theorem C3_jackknife_datum {T : Type} `{Datum T}
    (s : @state T) (data : list T) (index binsize : Z) :
  stored s data ->
  ((binsize < 1)%Z \/ (len data <= index)%Z ->
   jackknife_datum index binsize s = (Raise ValueError, s))
  /\ ((1 <= binsize)%Z -> (0 <= index < num_bins_of (len data) binsize)%Z ->
      jackknife_datum index binsize s = (jackknife_of data binsize index, s))
  /\ (forall xs : list R,
         (1 <= binsize)%Z ->
         (0 <= index < num_bins_of (len xs) binsize)%Z ->
         (2 <= num_bins_of (len xs) binsize)%Z ->
         jackknife_of xs binsize index
         = Ok ((Algebra.Rsum (map (Rbin xs binsize)
                                  (xrange 0 (num_bins_of (len xs) binsize)))
                - Rbin xs binsize index)
               / IZR (num_bins_of (len xs) binsize - 1)))
  /\ map (fun i => (jackknife_datum i 1 four_scalars).1) [0; 1; 2; 3]%Z
     = [Ok ((10 - 1) / 3); Ok ((10 - 2) / 3); Ok ((10 - 3) / 3); Ok ((10 - 4) / 3)].
Proof.
  intros Hst. split; [|split; [|split]].
  - now apply jackknife_datum_value_error.
  - now apply jackknife_datum_formula.
  - intros xs Hbs Hidx Hnb. now apply jackknife_of_floats.
  - cbn [map].
    rewrite !(jackknife_datum_formula _ [1; 2; 3; 4])
      by (try exact stored_appended_scalars; vm_compute; intuition discriminate).
    cbn [fst].
    rewrite !jackknife_of_floats by (vm_compute; intuition discriminate).
    unfold Rjackknife, Rbin. vm_compute. solve_real_list.
Qed.

Lemma C3_jackknife_datum_witness :
  ((1 < 1)%Z \/ (len [1; 2; 3; 4] <= 2)%Z ->
   jackknife_datum 2 1 four_scalars = (Raise ValueError, four_scalars))
  /\ ((1 <= 1)%Z -> (0 <= 2 < num_bins_of (len [1; 2; 3; 4]) 1)%Z ->
      jackknife_datum 2 1 four_scalars = (jackknife_of [1; 2; 3; 4] 1 2, four_scalars))
  /\ (forall xs : list R,
         (1 <= 1)%Z ->
         (0 <= 2 < num_bins_of (len xs) 1)%Z ->
         (2 <= num_bins_of (len xs) 1)%Z ->
         jackknife_of xs 1 2
         = Ok ((Algebra.Rsum (map (Rbin xs 1) (xrange 0 (num_bins_of (len xs) 1)))
                - Rbin xs 1 2)
               / IZR (num_bins_of (len xs) 1 - 1)))
  /\ map (fun i => (jackknife_datum i 1 four_scalars).1) [0; 1; 2; 3]%Z
     = [Ok ((10 - 1) / 3); Ok ((10 - 2) / 3); Ok ((10 - 3) / 3); Ok ((10 - 4) / 3)].
Proof.
  apply (C3_jackknife_datum four_scalars [1; 2; 3; 4] 2 1).
  exact stored_appended_scalars.
Defined.

(** C3 as stated fails in its example: on the floats 1, 2, 3, 4 with bin
    size 1 the first jackknife datum is (10 - 1) / 3 = 3, not
    (9 - 1) / 3. *)
Lemma C3_jackknife_example_counterexample :
  (jackknife_datum 0 1 four_scalars).1 = Ok 3
  /\ (jackknife_datum 0 1 four_scalars).1 <> Ok ((9 - 1) / 3).
Proof.
  assert (Hval : (jackknife_datum 0 1 four_scalars).1 = Ok 3).
  { rewrite (jackknife_datum_formula _ [1; 2; 3; 4])
      by (try exact stored_appended_scalars; vm_compute; intuition discriminate).
    cbn [fst].
    rewrite jackknife_of_floats by (vm_compute; intuition discriminate).
    unfold Rjackknife, Rbin. vm_compute. apply (f_equal Ok). lra. }
  split; [exact Hval|]. rewrite Hval. intros E. injection E as E. lra.
Qed.

(** On Python 2 ints the division of a bin is a floor division. *)
Example bins_of_ints :
  map (bin_of [1; 2; 3; 4; 5]%Z 2) [0; 1; 2]%Z = [Ok 1; Ok 3; Ok 2]%Z.
Proof. reflexivity. Qed.

(** With a single bin the division by [num_bins - 1] fails, and an index
    between the number of bins and the count passes the guard and then
    reads beyond the data. *)
Example jackknife_datum_single_bin :
  (jackknife_datum 0 1 one_scalar).1 = Raise ZeroDivisionError.
Proof. vm_compute. reflexivity. Qed.

Example jackknife_datum_index_beyond_bins :
  num_bins_of 4 2 = 2%Z
  /\ (jackknife_datum 3 2 four_scalars).1 = Raise KeyError.
Proof. split; vm_compute; reflexivity. Qed.

(** ** The resample cache *)

Local Close Scope R_scope.

Section Cache.

Context {T : Type} `{Datum T}.

Lemma frame_refl (s : @state T) : frame s s.
Proof. repeat split. Qed.

Lemma frame_trans (s1 s2 s3 : @state T) : frame s1 s2 -> frame s2 s3 -> frame s1 s3.
Proof.
  intros (? & ? & ? & ? & ?) (? & ? & ? & ? & ?). repeat split; congruence.
Qed.

Lemma frame_stored (s s' : @state T) (data : list T) :
  frame s s' -> stored s data -> stored s' data.
Proof. intros (? & ? & ? & ? & ?). now apply stored_same_store. Qed.

Lemma frame_set_cache (s s' : @state T) (c : gmap string T) :
  frame s s' -> frame s (with_self (set_cache c) s').
Proof. intros Hf. exact Hf. Qed.

Lemma frame_set_drawn (s s' : @state T) (n : nat) :
  frame s s' -> frame s (set_drawn n s').
Proof. intros Hf. exact Hf. Qed.

(** *** Drawing bins *)

Lemma randint_draws (s : @state T) (n : Z) :
  0 < n ->
  randint n s = (Ok (drawn_bins (entropy s) (drawn s) n),
                 set_drawn (drawn s + Z.to_nat n) s).
Proof.
  intros Hn. unfold randint. destruct (Z.leb_spec n 0); [lia | reflexivity].
Qed.

Lemma drawn_bins_in_range (rng : nat -> Z) (pos : nat) (n b : Z) :
  0 < n -> In b (drawn_bins rng pos n) -> 0 <= b < n.
Proof.
  intros Hn Hb. unfold drawn_bins in Hb. apply in_map_iff in Hb as (j & <- & _).
  apply Z.mod_pos_bound. exact Hn.
Qed.

Lemma drawn_bins_length (rng : nat -> Z) (pos : nat) (n : Z) :
  length (drawn_bins rng pos n) = Z.to_nat n.
Proof. unfold drawn_bins. now rewrite length_map, length_seq. Qed.

Lemma num_bins_pos (n binsize : Z) :
  0 < n -> 1 <= binsize -> 1 <= num_bins_of n binsize.
Proof.
  intros Hn Hbs. destruct (num_bins_ceil n binsize ltac:(lia) Hbs) as [_ Hc]. nia.
Qed.

Lemma add_bins_pure (s : @state T) (data : list T) (binsize : Z) (bins : list Z) :
  stored s data -> 1 <= binsize ->
  (forall b, In b bins -> valid_bin data binsize b) ->
  forall acc,
    for_fold (fun acc b => do x <- _get_bin binsize b; retM (d_add acc x)) acc bins s
    = (foldM (fun acc b => x ← bin_of data binsize b; Ok (d_add acc x)) acc bins, s).
Proof.
  intros Hst Hbs Hbins. apply for_fold_pure. intros acc b Hb.
  destruct (Hbins b Hb) as [Hb0 Hb1]. unfold bindM.
  rewrite (get_bin_of s data binsize b Hst Hbs Hb0 Hb1).
  destruct (bin_of data binsize b); reflexivity.
Qed.

Lemma draw_resample_of (s : @state T) (data : list T) (binsize : Z) :
  stored s data -> 1 <= binsize -> 0 < len data ->
  draw_resample binsize (num_bins_of (len data) binsize) s
  = (resample_of data binsize
       (drawn_bins (entropy s) (drawn s) (num_bins_of (len data) binsize)),
     set_drawn (drawn s + Z.to_nat (num_bins_of (len data) binsize)) s).
Proof.
  intros Hst Hbs Hpos. set (nb := num_bins_of (len data) binsize).
  assert (Hnb : 1 <= nb) by (apply num_bins_pos; lia).
  unfold draw_resample. unfold bindM at 1. rewrite randint_draws by lia.
  set (s1 := set_drawn _ s).
  assert (Hst1 : stored s1 data) by (eapply stored_same_store; [..|exact Hst]; reflexivity).
  assert (Hvalid : forall b, In b (drawn_bins (entropy s) (drawn s) nb) ->
                             valid_bin data binsize b).
  { intros b Hb. apply drawn_bins_in_range in Hb; [|lia]. split; [lia|].
    apply bin_index_in_range; lia. }
  destruct (drawn_bins (entropy s) (drawn s) nb) as [|b0 rest] eqn:Ebins.
  { pose proof (drawn_bins_length (entropy s) (drawn s) nb) as Hl.
    rewrite Ebins in Hl. simpl in Hl. lia. }
  unfold resample_of. unfold bindM at 1.
  destruct (Hvalid b0 (or_introl eq_refl)) as [Hb0 Hb1].
  rewrite (get_bin_of s1 data binsize b0 Hst1 Hbs Hb0 Hb1).
  destruct (bin_of data binsize b0) as [x0|e]; simpl; [|reflexivity].
  unfold bindM at 1.
  rewrite (add_bins_pure s1 data binsize rest Hst1 Hbs)
    by (intros b Hb; apply Hvalid; right; exact Hb).
  destruct (foldM _ x0 rest); reflexivity.
Qed.

Section TotalDivision.

Hypothesis Hdiv : total_division (T := T).

Lemma bin_of_ok (data : list T) (binsize b : Z) :
  1 <= binsize -> valid_bin data binsize b ->
  exists x, bin_of data binsize b = Ok x.
Proof.
  intros Hbs [Hb0 Hb1]. unfold bin_of.
  destruct (lookup_lt_is_Some_2 data (Z.to_nat (binsize * b))) as [x Hx];
    [unfold len in Hb1; lia|].
  rewrite (py_slice_cons data (binsize * b) _ x) by (auto; lia). simpl.
  apply Hdiv. lia.
Qed.

Lemma add_bins_ok (data : list T) (binsize : Z) (bins : list Z) :
  1 <= binsize ->
  (forall b, In b bins -> valid_bin data binsize b) ->
  forall acc, exists total,
    foldM (fun acc b => x ← bin_of data binsize b; Ok (d_add acc x)) acc bins
    = Ok total.
Proof.
  intros Hbs. induction bins as [|b bins IH]; intros Hbins acc; simpl.
  - eauto.
  - destruct (bin_of_ok data binsize b Hbs (Hbins b (or_introl eq_refl))) as [x ->].
    simpl. apply IH. intros b' Hb'. apply Hbins. right. exact Hb'.
Qed.

Lemma resample_of_ok (data : list T) (binsize : Z) (bins : list Z) :
  1 <= binsize -> bins <> [] ->
  (forall b, In b bins -> valid_bin data binsize b) ->
  exists r, resample_of data binsize bins = Ok r.
Proof.
  intros Hbs Hne Hbins. destruct bins as [|b0 rest]; [congruence|].
  unfold resample_of.
  destruct (bin_of_ok data binsize b0 Hbs (Hbins b0 (or_introl eq_refl))) as [x0 ->].
  simpl.
  destruct (add_bins_ok data binsize rest Hbs
              (fun b Hb => Hbins b (or_intror Hb)) x0) as [total ->].
  simpl. apply Hdiv. unfold len. simpl length. lia.
Qed.

Lemma drawn_resample_ok (data : list T) (binsize : Z) (rng : nat -> Z) (pos : nat) :
  1 <= binsize -> 0 < len data ->
  exists r, resample_of data binsize
              (drawn_bins rng pos (num_bins_of (len data) binsize)) = Ok r.
Proof.
  intros Hbs Hpos.
  assert (Hnb : 1 <= num_bins_of (len data) binsize) by (apply num_bins_pos; lia).
  apply resample_of_ok; [exact Hbs | |].
  - intros E. pose proof (drawn_bins_length rng pos (num_bins_of (len data) binsize)) as Hl.
    rewrite E in Hl. simpl in Hl. lia.
  - intros b Hb. apply drawn_bins_in_range in Hb; [|lia]. split; [lia|].
    apply bin_index_in_range; lia.
Qed.

(** *** Filling the cache *)

(** A loop that produces one record per index and stores it under the
    index's name: every index of the loop ends up cached, what was
    cached stays cached, and other names are left alone. *)
Lemma fill_cache (produce : Z -> M (T := T) T) (name : Z -> string)
    (P : @state T -> Prop) (l : list Z) :
  (forall s i, P s -> In i l ->
               exists r s1, produce i s = (Ok r, s1)
                            /\ cache (self s1) = cache (self s)
                            /\ forall c, P (with_self (set_cache c) s1)) ->
  forall s, P s ->
    exists s',
      for_each (fun i => do r <- produce i; cache_store (name i) r) l s = (Ok tt, s')
      /\ P s'
      /\ (forall k, is_Some (cache (self s) !! k) -> is_Some (cache (self s') !! k))
      /\ (forall i, In i l -> is_Some (cache (self s') !! name i))
      /\ (forall k, (forall i, In i l -> name i <> k) ->
                    cache (self s') !! k = cache (self s) !! k).
Proof.
  induction l as [|i l IH]; intros Hprod s HP.
  - exists s. simpl. repeat split; auto. intros i [].
  - destruct (Hprod s i HP (or_introl eq_refl)) as (r & s1 & Hr & Hc & HP1).
    set (s2 := with_self (fun d => set_cache (<[name i := r]> (cache d)) d) s1).
    assert (HP2 : P s2) by apply HP1.
    destruct (IH (fun s j HPs Hj => Hprod s j HPs (or_intror Hj)) s2 HP2)
      as (s' & Hrun & HP' & Hkeep & Hall & Hother).
    assert (Hc2 : cache (self s2) = <[name i := r]> (cache (self s))).
    { unfold s2. simpl. now rewrite Hc. }
    exists s'. split; [|split; [exact HP'|split; [|split]]].
    + simpl. unfold bindM at 1. unfold bindM at 1. rewrite Hr.
      unfold cache_store, modify. exact Hrun.
    + intros k Hk. apply Hkeep. rewrite Hc2.
      destruct (decide (name i = k)) as [->|Hne].
      * rewrite lookup_insert_eq. eauto.
      * now rewrite lookup_insert_ne.
    + intros j [<-|Hj]; [|now apply Hall].
      apply Hkeep. rewrite Hc2, lookup_insert_eq. eauto.
    + intros k Hk. rewrite Hother by (intros j Hj; apply Hk; right; exact Hj).
      rewrite Hc2. apply lookup_insert_ne. apply Hk. left. reflexivity.
Qed.

Lemma generate_bootstrap_cache_fills (s : @state T) (data : list T)
    (num_bootstraps binsize : Z) :
  stored s data -> 1 <= binsize -> 0 < len data ->
  exists s',
    generate_bootstrap_cache num_bootstraps binsize s = (Ok tt, s')
    /\ frame s s'
    /\ bootstraps_cached (self s') = true
    /\ (forall i, 0 <= i < num_bootstraps ->
                  is_Some (cache (self s')
                             !! bootstrap_name (datatype (self s)) binsize i))
    /\ (forall k, (forall i, 0 <= i < num_bootstraps ->
                             bootstrap_name (datatype (self s)) binsize i <> k) ->
                  cache (self s') !! k = cache (self s) !! k).
Proof.
  intros Hst Hbs Hpos. unfold generate_bootstrap_cache.
  destruct (Z.ltb_spec binsize 1); [lia|].
  unfold bindM at 1, gets. unfold bindM at 1, gets.
  destruct Hst as [Hcount Hread] eqn:Est. rewrite Hcount.
  destruct (fill_cache
              (fun _ => draw_resample binsize (num_bins_of (len data) binsize))
              (bootstrap_name (datatype (self s)) binsize)
              (fun s' => frame s s') (xrange 0 num_bootstraps)) with (s := s)
    as (s' & Hrun & Hframe & _ & Hall & Hother).
  - intros s0 i Hf _.
    pose proof (frame_stored s s0 data Hf (conj Hcount Hread)) as Hst0.
    rewrite (draw_resample_of s0 data binsize Hst0 Hbs Hpos).
    destruct (drawn_resample_ok data binsize (entropy s0) (drawn s0) Hbs Hpos) as [r ->].
    eexists r, _. split; [reflexivity|]. split; [reflexivity|].
    intros c. exact Hf.
  - apply frame_refl.
  - exists (with_self (set_bootstraps_cached true) s').
    unfold bindM at 1. rewrite Hrun. unfold modify.
    split; [reflexivity|]. split; [exact Hframe|]. split; [reflexivity|].
    split.
    + intros i Hi. apply Hall. apply in_xrange. lia.
    + intros k Hk. apply Hother. intros i Hi. apply in_xrange in Hi. apply Hk. lia.
Qed.

Lemma bins_total_ok (data : list T) (binsize : Z) :
  1 <= binsize -> 0 < len data ->
  exists total, bins_total data binsize (num_bins_of (len data) binsize) = Ok total.
Proof.
  intros Hbs Hpos. unfold bins_total.
  destruct (bin_of_ok data binsize 0 Hbs) as [b0 ->]; [split; lia|]. simpl.
  apply add_bins_ok; [exact Hbs|]. intros b Hb. apply in_xrange in Hb.
  split; [lia|]. apply bin_index_in_range; lia.
Qed.


(** *** Retrieval *)

Lemma get_bootstrap_cache_datum_step (k : nat) (binsize index num_bootstraps : Z)
    (s : @state T) :
  _get_bootstrap_cache_datum (S k) binsize index num_bootstraps s
  = match cache (self s) !! bootstrap_name (datatype (self s)) binsize index with
    | Some x => (Ok x, s)
    | None =>
        match pyQCDcache s !! bootstrap_name (datatype (self s)) binsize index with
        | Some x => (Ok x, s)
        | None =>
            match generate_bootstrap_cache num_bootstraps binsize s with
            | (Ok _, s1) =>
                _get_bootstrap_cache_datum k binsize index num_bootstraps s1
            | (Raise e, s1) => (Raise e, s1)
            end
        end
    end.
Proof.
  simpl. unfold bindM, gets, retM. simpl.
  destruct (cache (self s) !! _); [reflexivity|].
  destruct (pyQCDcache s !! _); reflexivity.
Qed.

Lemma get_jackknife_cache_datum_step (k : nat) (binsize index : Z) (s : @state T) :
  _get_jackknife_cache_datum (S k) binsize index s
  = match cache (self s) !! jackknife_name (datatype (self s)) binsize index with
    | Some x => (Ok x, s)
    | None =>
        match pyQCDcache s !! jackknife_name (datatype (self s)) binsize index with
        | Some x => (Ok x, s)
        | None =>
            match generate_jackknife_cache binsize s with
            | (Ok _, s1) => _get_jackknife_cache_datum k binsize index s1
            | (Raise e, s1) => (Raise e, s1)
            end
        end
    end.
Proof.
  simpl. unfold bindM, gets, retM. simpl.
  destruct (cache (self s) !! _); [reflexivity|].
  destruct (pyQCDcache s !! _); reflexivity.
Qed.




End TotalDivision.

End Cache.


Lemma float_total_division : total_division (T := R).
Proof.
  intros x n Hn. simpl. destruct (Z.eqb_spec n 0); [contradiction|]. eauto.
Qed.




(** With a single bin the jackknife batch cannot be generated on floats:
    the division by [num_bins - 1] fails and the miss surfaces. *)
Example jackknife_retrieval_single_bin :
  (_get_jackknife_cache_datum 2 1 0 one_scalar).1 = Raise ZeroDivisionError.
Proof. vm_compute. reflexivity. Qed.

(** ** The bootstrap estimate *)

Section Bootstrap.

Context {T : Type} `{Datum T}.

Variable func : T -> result Algebra.value.

Lemma cached_records (c : gmap string T) (name : Z -> string) (l : list Z) :
  (forall i, In i l -> is_Some (c !! name i)) ->
  exists rs, Forall2 (fun i r => c !! name i = Some r) l rs.
Proof.
  induction l as [|i l IH]; intros Hl.
  - exists []. constructor.
  - destruct (Hl i (or_introl eq_refl)) as [r Hr].
    destruct IH as [rs Hrs]; [intros j Hj; apply Hl; right; exact Hj|].
    exists (r :: rs). now constructor.
Qed.

(** The loop of the cached branch when every record asked for is in
    memory: the state stays put and the function is applied to the
    records in turn. *)
Lemma cached_loop (s1 : @state T) (k : nat) (binsize num_bootstraps : Z)
    (l : list Z) (rs : list T) :
  Forall2 (fun i r => cache (self s1) !! bootstrap_name (datatype (self s1)) binsize i
                      = Some r) l rs ->
  forall out,
    for_fold (fun out i =>
                do bootstrap_datum <-
                  _get_bootstrap_cache_datum (S k) binsize i num_bootstraps;
                do measurement <- lift (func bootstrap_datum);
                retM (append_measurement out measurement))
             out l s1
    = (measure_all func out rs, s1).
Proof.
  induction 1 as [|i r l rs Hr _ IH]; intros out; [reflexivity|].
  cbn [for_fold]. unfold bindM at 1. unfold bindM at 1.
  rewrite get_bootstrap_cache_datum_step, Hr.
  unfold bindM at 1, lift. unfold measure_all. cbn [foldM].
  destruct (func r) as [m|e]; simpl; [|reflexivity].
  apply IH.
Qed.

Lemma reduce_results (limit : nat) (out : list Algebra.value) (s : @state T) :
  (do mean <- lift (Algebra._mean limit out);
   do std <- lift (Algebra._std limit out);
   retM (mean, std)) s
  = (mean_and_std limit (Ok out), s).
Proof.
  unfold bindM, lift, retM, mean_and_std. simpl.
  destruct (Algebra._mean limit out); simpl; [|reflexivity].
  destruct (Algebra._std limit out); reflexivity.
Qed.

Lemma draws_length (data : list T) (binsize num_bins : Z) (rng : nat -> Z) (k : nat) :
  forall pos rs, draws data binsize num_bins rng pos k = Ok rs -> length rs = k.
Proof.
  induction k as [|k IH]; intros pos rs; simpl.
  - intros [= <-]. reflexivity.
  - destruct (resample_of _ _ _) as [r|e]; simpl; [|discriminate].
    destruct (draws _ _ _ _ _ k) as [rs'|e] eqn:E; simpl; [|discriminate].
    intros [= <-]. simpl. f_equal. exact (IH _ _ E).
Qed.

Hypothesis Hdiv : total_division (T := T).

(** The loop of the uncached branch: one fresh draw per round, measured
    at once. *)
Lemma uncached_loop (data : list T) (binsize : Z) (l : list Z) :
  1 <= binsize -> 0 < len data ->
  forall (s : @state T) out,
    stored s data ->
    exists rs,
      draws data binsize (num_bins_of (len data) binsize) (entropy s) (drawn s)
            (length l) = Ok rs
      /\ (for_fold (fun out (i : Z) =>
                      do new_datum <-
                        draw_resample binsize (num_bins_of (len data) binsize);
                      do measurement <- lift (func new_datum);
                      retM (append_measurement out measurement))
                   out l s).1
         = measure_all func out rs.
Proof.
  intros Hbs Hpos. induction l as [|i l IH]; intros s out Hst.
  - exists []. split; reflexivity.
  - simpl. unfold bindM at 1. unfold bindM at 1.
    rewrite (draw_resample_of s data binsize Hst Hbs Hpos).
    destruct (drawn_resample_ok Hdiv data binsize (entropy s) (drawn s) Hbs Hpos)
      as [r ->].
    set (s1 := set_drawn _ s).
    assert (Hst1 : stored s1 data)
      by (eapply stored_same_store; [..|exact Hst]; reflexivity).
    destruct (IH s1 (match func r with
                     | Ok m => append_measurement out m
                     | Raise _ => out
                     end) Hst1) as (rs & Hrs & Hloop).
    change (entropy s1) with (entropy s) in Hrs.
    change (drawn s1) with (drawn s + Z.to_nat (num_bins_of (len data) binsize))%nat in Hrs.
    exists (r :: rs). simpl. rewrite Hrs. split; [reflexivity|].
    unfold bindM at 1, lift. unfold measure_all. simpl.
    destruct (func r) as [m|e]; simpl; [exact Hloop | reflexivity].
Qed.

Lemma bootstrap_cached (s : @state T) (data : list T)
    (num_bootstraps binsize : Z) (k : nat) :
  stored s data -> 1 <= binsize -> 0 < len data ->
  bootstraps_cached (self s) = false ->
  num_bins_of (len data) binsize <= num_bootstraps ->
  exists s1 rs,
    generate_bootstrap_cache num_bootstraps binsize s = (Ok tt, s1)
    /\ Forall2 (fun i r => cache (self s1) !! bootstrap_name (datatype (self s)) binsize i
                           = Some r)
               (xrange 0 (num_bins_of (len data) binsize)) rs
    /\ bootstrap (S k) func num_bootstraps binsize true s
       = (mean_and_std (S k) (measure_all func [] rs), s1).
Proof.
  intros Hst Hbs Hpos Hflag Hnb.
  destruct (generate_bootstrap_cache_fills Hdiv s data num_bootstraps binsize Hst Hbs Hpos)
    as (s1 & Hgen & Hframe & _ & Hall & _).
  destruct (cached_records (cache (self s1))
              (bootstrap_name (datatype (self s)) binsize)
              (xrange 0 (num_bins_of (len data) binsize))) as [rs Hrs].
  { intros i Hi. apply in_xrange in Hi. apply Hall. lia. }
  exists s1, rs. split; [exact Hgen|]. split; [exact Hrs|].
  unfold bootstrap. destruct (Z.ltb_spec binsize 1); [lia|].
  unfold bindM at 1, gets. destruct Hst as [Hcount Hread]. rewrite Hcount.
  unfold bindM at 1. unfold bindM at 1, gets. rewrite Hflag.
  unfold bindM at 1. rewrite Hgen.
  destruct Hframe as (Hty & _). rewrite <- Hty in Hrs.
  rewrite (cached_loop s1 k binsize num_bootstraps _ rs Hrs).
  destruct (measure_all func [] rs) as [out|e]; [|reflexivity].
  apply reduce_results.
Qed.

Lemma bootstrap_cache_hit (s : @state T) (data : list T)
    (num_bootstraps binsize : Z) (k : nat) (rs : list T) :
  stored s data -> 1 <= binsize ->
  bootstraps_cached (self s) = true ->
  Forall2 (fun i r => cache (self s) !! bootstrap_name (datatype (self s)) binsize i
                      = Some r)
          (xrange 0 (num_bins_of (len data) binsize)) rs ->
  bootstrap (S k) func num_bootstraps binsize true s
  = (mean_and_std (S k) (measure_all func [] rs), s).
Proof.
  intros [Hcount _] Hbs Hflag Hrs.
  unfold bootstrap. destruct (Z.ltb_spec binsize 1); [lia|].
  unfold bindM at 1, gets. rewrite Hcount.
  unfold bindM at 1. unfold bindM at 1, gets. rewrite Hflag.
  unfold bindM at 1, retM.
  rewrite (cached_loop s k binsize num_bootstraps _ rs Hrs).
  destruct (measure_all func [] rs) as [out|e]; [|reflexivity].
  apply reduce_results.
Qed.

Lemma bootstrap_uncached (s : @state T) (data : list T)
    (num_bootstraps binsize : Z) (limit : nat) :
  stored s data -> 1 <= binsize -> 0 < len data ->
  exists rs,
    draws data binsize (num_bins_of (len data) binsize) (entropy s) (drawn s)
          (Z.to_nat num_bootstraps) = Ok rs
    /\ length rs = Z.to_nat num_bootstraps
    /\ (bootstrap limit func num_bootstraps binsize false s).1
       = mean_and_std limit (measure_all func [] rs).
Proof.
  intros Hst Hbs Hpos.
  destruct (uncached_loop data binsize (xrange 0 num_bootstraps) Hbs Hpos s [] Hst)
    as (rs & Hrs & Hloop).
  assert (Hl : length (xrange 0 num_bootstraps) = Z.to_nat num_bootstraps).
  { unfold xrange. rewrite length_map, length_seq. f_equal. lia. }
  rewrite Hl in Hrs. exists rs. split; [exact Hrs|].
  split; [exact (draws_length _ _ _ _ _ _ _ Hrs)|].
  unfold bootstrap. destruct (Z.ltb_spec binsize 1); [lia|].
  unfold bindM at 1, gets. destruct Hst as [Hcount Hread]. rewrite Hcount.
  unfold bindM at 1.
  destruct (for_fold _ [] (xrange 0 num_bootstraps) s) as [[out|e] s'] eqn:E;
    simpl in Hloop; rewrite <- Hloop; [|reflexivity].
  rewrite reduce_results. reflexivity.
Qed.


Lemma xrange_length (n : Z) : length (xrange 0 n) = Z.to_nat n.
Proof. unfold xrange. rewrite length_map, length_seq. f_equal. lia. Qed.


End Bootstrap.




End ResampleFacts.

(** * Further properties of the measurement algebra *)

Module AlgebraMore.
Import Algebra AlgebraFacts.

Local Open Scope R_scope.

Lemma Rsum_squares_nonneg (m : R) (xs : list R) :
  0 <= Rsum (map (fun x => (x - m) * (x - m)) xs).
Proof.
  induction xs as [|x xs IH]; simpl; [lra|].
  set (t := Rsum _) in *. pose proof (Rle_0_sqr (x - m)) as Hsq.
  unfold Rsqr in Hsq. lra.
Qed.

Lemma Rsumsq_nonneg (xs : list R) : 0 <= Rsumsq xs.
Proof. apply Rsum_squares_nonneg. Qed.

(** X1.  On a list of at least two floats the jackknife standard
    deviation is the plain standard deviation times [sqrt (n - 1)], the
    relation the array branch of [_std_jackknife] computes by. *)
Theorem std_jackknife_scales_std (k : nat) (xs : list R) :
  (2 <= len xs)%Z ->
  exists sd,
    _std (S k) (map VFloat xs) = Ok (VFloat sd)
    /\ _std_jackknife (S k) (map VFloat xs)
       = Ok (VFloat (sqrt (IZR (len xs - 1)) * sd)).
Proof.
  intros Hn. destruct xs as [|x xs]; [unfold len in Hn; simpl in Hn; lia|].
  exists (sqrt (Rsumsq (x :: xs) / IZR (len (x :: xs)))).
  split; [apply std_floats|]. rewrite std_jackknife_floats by exact Hn.
  set (n := len (x :: xs)) in *.
  assert (Hn0 : 0 < IZR n) by (apply IZR_lt; lia).
  assert (Hn1 : 0 <= IZR (n - 1)) by (apply IZR_le; lia).
  pose proof (Rsumsq_nonneg (x :: xs)) as Hs.
  rewrite <- sqrt_mult.
  - do 3 f_equal. field. lra.
  - exact Hn1.
  - apply Rmult_le_pos; [exact Hs|]. apply Rlt_le, Rinv_0_lt_compat. exact Hn0.
Qed.

Lemma std_jackknife_scales_std_witness :
  exists sd,
    _std 1 (map VFloat [1; 2; 4]) = Ok (VFloat sd)
    /\ _std_jackknife 1 (map VFloat [1; 2; 4])
       = Ok (VFloat (sqrt (IZR (len [1; 2; 4] - 1)) * sd)).
Proof.
  apply (std_jackknife_scales_std 0 [1; 2; 4]). unfold len. simpl. lia.
Defined.





Lemma traverse_floats (op : R -> R -> R)
    (f : value * value -> result value) (xs ys : list R) :
  (forall x y, f (VFloat x, VFloat y) = Ok (VFloat (op x y))) ->
  traverse f (zip (map VFloat xs) (map VFloat ys))
  = Ok (map VFloat (zip_with op xs ys)).
Proof.
  intros Hf. revert ys. induction xs as [|x xs IH]; intros [|y ys]; simpl;
    try reflexivity.
  rewrite Hf. simpl. rewrite IH. reflexivity.
Qed.

(** X3.  Two lists of floats of any lengths are combined item by item up
    to the shorter one: the three binary operations drop the surplus
    items of the longer list without raising. *)
Theorem binary_operations_truncate (k : nat) (xs ys : list R) :
  _add_measurements (S (S k)) (VList (map VFloat xs)) (VList (map VFloat ys))
  = Ok (VList (map VFloat (zip_with Rplus xs ys)))
  /\ _sub_measurements (S (S k)) (VList (map VFloat xs)) (VList (map VFloat ys))
     = Ok (VList (map VFloat (zip_with Rminus xs ys)))
  /\ _mul_measurements (S (S k)) (VList (map VFloat xs)) (VList (map VFloat ys))
     = Ok (VList (map VFloat (zip_with Rmult xs ys)))
  /\ length (zip_with Rplus xs ys) = Nat.min (length xs) (length ys).
Proof.
  split; [|split; [|split]].
  - rewrite (add_seq_seq _ _ _ (map VFloat xs) (map VFloat ys)) by reflexivity.
    rewrite (traverse_floats Rplus) by reflexivity. reflexivity.
  - rewrite (sub_list_seq _ _ (map VFloat xs) (map VFloat ys)) by reflexivity.
    rewrite (traverse_floats Rminus) by reflexivity. reflexivity.
  - change (_mul_measurements (S (S k)) (VList (map VFloat xs)) (VList (map VFloat ys)))
      with (VList <$> traverse (fun xy => _mul_measurements (S k) xy.1 xy.2)
                               (zip (map VFloat xs) (map VFloat ys))).
    rewrite (traverse_floats Rmult) by reflexivity. reflexivity.
  - revert ys. induction xs as [|x xs IH]; intros [|y ys]; simpl; auto.
Qed.

Lemma values_float_dict (d : list (string * R)) :
  values (map (fun kx => (kx.1, VFloat kx.2)) d) = map VFloat (map snd d).
Proof. unfold values. rewrite !map_map. reflexivity. Qed.

Lemma keys_float_dict (d : list (string * R)) :
  keys (map (fun kx => (kx.1, VFloat kx.2)) d) = map fst d.
Proof. unfold keys. rewrite map_map. reflexivity. Qed.

(** X4.  Two mappings are combined by position, not by key: the sum,
    the difference and the product of two dicts of floats carry the keys
    of the left operand, in its order, each with the value of the left
    operand combined with the value found at the same position in the
    right operand, whatever the keys of the right operand are. *)
Theorem dict_operations_pair_by_position (k : nat) (da db : list (string * R)) :
  _add_measurements (S (S (S (S k))))
    (VDict (map (fun kx => (kx.1, VFloat kx.2)) da))
    (VDict (map (fun kx => (kx.1, VFloat kx.2)) db))
  = Ok (VDict (zip (map fst da)
                   (map VFloat (zip_with Rplus (map snd da) (map snd db)))))
  /\ _sub_measurements (S (S (S (S k))))
       (VDict (map (fun kx => (kx.1, VFloat kx.2)) da))
       (VDict (map (fun kx => (kx.1, VFloat kx.2)) db))
     = Ok (VDict (zip (map fst da)
                      (map VFloat (zip_with Rminus (map snd da) (map snd db)))))
  /\ _mul_measurements (S (S (S (S k))))
       (VDict (map (fun kx => (kx.1, VFloat kx.2)) da))
       (VDict (map (fun kx => (kx.1, VFloat kx.2)) db))
     = Ok (VDict (zip (map fst da)
                      (map VFloat (zip_with Rmult (map snd da) (map snd db))))).
Proof.
  split; [|split].
  - change (_add_measurements (S (S (S (S k))))
              (VDict (map (fun kx => (kx.1, VFloat kx.2)) da))
              (VDict (map (fun kx => (kx.1, VFloat kx.2)) db)))
      with (r ← _add_measurements (S (S k))
                  (VList (values (map (fun kx => (kx.1, VFloat kx.2)) da)))
                  (VList (values (map (fun kx => (kx.1, VFloat kx.2)) db)));
            dict_zip (keys (map (fun kx => (kx.1, VFloat kx.2)) da)) r).
    rewrite !values_float_dict, keys_float_dict.
    rewrite (add_seq_seq _ _ _ (map VFloat (map snd da)) (map VFloat (map snd db)))
      by reflexivity.
    rewrite (traverse_floats Rplus) by reflexivity. reflexivity.
  - change (_sub_measurements (S (S (S (S k))))
              (VDict (map (fun kx => (kx.1, VFloat kx.2)) da))
              (VDict (map (fun kx => (kx.1, VFloat kx.2)) db)))
      with (r ← _sub_measurements (S (S k))
                  (VList (values (map (fun kx => (kx.1, VFloat kx.2)) da)))
                  (VList (values (map (fun kx => (kx.1, VFloat kx.2)) db)));
            dict_zip (keys (map (fun kx => (kx.1, VFloat kx.2)) da)) r).
    rewrite !values_float_dict, keys_float_dict.
    rewrite (sub_list_seq _ _ (map VFloat (map snd da)) (map VFloat (map snd db)))
      by reflexivity.
    rewrite (traverse_floats Rminus) by reflexivity. reflexivity.
  - change (_mul_measurements (S (S (S (S k))))
              (VDict (map (fun kx => (kx.1, VFloat kx.2)) da))
              (VDict (map (fun kx => (kx.1, VFloat kx.2)) db)))
      with (r ← (VList <$> traverse (fun xy => _mul_measurements (S k) xy.1 xy.2)
                     (zip (values (map (fun kx => (kx.1, VFloat kx.2)) da))
                          (values (map (fun kx => (kx.1, VFloat kx.2)) db))));
            dict_zip (keys (map (fun kx => (kx.1, VFloat kx.2)) da)) r).
    rewrite !values_float_dict, keys_float_dict.
    rewrite (traverse_floats Rmult) by reflexivity. reflexivity.
Qed.

Local Close Scope R_scope.
Local Open Scope nat_scope.

Lemma div_seq (k : nat) (a div : value) (l : list value) :
  is_number div = true -> tuple_to_list a = VList l ->
  _div_measurements (S k) a div
  = VList <$> traverse (fun x => _div_measurements k x div) l.
Proof.
  intros Hd Ha. simpl.
  assert (Hd' : negb (is_float div) && negb (is_int div) = false).
  { unfold is_number in Hd. destruct (is_int div), (is_float div); auto. }
  rewrite Hd'. destruct a; try discriminate; simpl in *; congruence.
Qed.

Lemma div_dict (k : nat) (d : list (string * value)) (z : Z) :
  _div_measurements (S k) (VDict d) (VInt z)
  = r ← _div_measurements k (VList (values d)) (VInt z); dict_zip (keys d) r.
Proof. reflexivity. Qed.

Lemma div_by_one (limit : nat) :
  forall a, numeric a = true -> call_depth a <= limit ->
            _div_measurements limit a (VInt 1) = Ok (untuple a).
Proof.
  induction limit as [limit IH] using lt_wf_ind. intros a.
  induction a as [| |z|r|l IHl|l IHl|d IHd] using value_nested_ind;
    intros Hnum Hdepth; try discriminate Hnum;
    (destruct limit as [|k]; [simpl in Hdepth; lia|]).
  - simpl. now rewrite Z.div_1_r.
  - simpl. do 2 f_equal. lra.
  - rewrite (div_seq k _ _ l) by reflexivity. simpl in Hnum, Hdepth |- *.
    assert (Ht : traverse (fun x => _div_measurements k x (VInt 1)) l
                 = Ok (map untuple l)).
    { clear IHl. induction l as [|x l IHt]; [reflexivity|].
      simpl in *. apply andb_prop in Hnum as [Hx Hl].
      rewrite (IH k) by (auto; lia). simpl. rewrite IHt by (auto; lia).
      reflexivity. }
    now rewrite Ht.
  - rewrite (div_seq k _ _ l) by reflexivity. simpl in Hnum, Hdepth |- *.
    assert (Ht : traverse (fun x => _div_measurements k x (VInt 1)) l
                 = Ok (map untuple l)).
    { clear IHl. induction l as [|x l IHt]; [reflexivity|].
      simpl in *. apply andb_prop in Hnum as [Hx Hl].
      rewrite (IH k) by (auto; lia). simpl. rewrite IHt by (auto; lia).
      reflexivity. }
    now rewrite Ht.
  - rewrite div_dict. simpl in Hnum, Hdepth.
    rewrite (IH k) with (a := VList (values d)).
    + simpl. unfold values. rewrite zip_keys_untuple. reflexivity.
    + lia.
    + simpl. unfold values. rewrite forallb_forall in *. intros x Hx.
      apply in_map_iff in Hx as (kv & <- & Hkv). now apply Hnum.
    + simpl. unfold values. rewrite map_map. lia.
Qed.

(** X5.  The mean of a list holding one value made of numbers is that
    value, with its tuples turned into lists, whatever its nesting,
    given a recursion budget that covers it. *)
Theorem mean_of_single_value (limit : nat) (a : value) :
  numeric a = true -> call_depth a <= limit ->
  _mean limit [a] = Ok (untuple a).
Proof. intros Hnum Hdepth. unfold _mean. simpl. now apply div_by_one. Qed.

Lemma mean_of_single_value_witness :
  _mean 5 [VDict [("m", VFloat 1); ("c", VTuple [VInt 2; VInt 3])]]
  = Ok (untuple (VDict [("m", VFloat 1); ("c", VTuple [VInt 2; VInt 3])])).
Proof.
  apply (mean_of_single_value 5
           (VDict [("m", VFloat 1); ("c", VTuple [VInt 2; VInt 3])])).
  - reflexivity.
  - simpl. lia.
Defined.

End AlgebraMore.

(** * Further properties of the archive store *)

Module StoreMore.
Import Store StoreFacts ResampleFacts.

(** ** Printing and reading back a number *)

Lemma digit_of_pretty_char (d : N) :
  (d < 10)%N -> digit_of (pretty_N_char d) = Some (Z.of_N d).
Proof.
  intros Hd.
  assert (d = 0 \/ d = 1 \/ d = 2 \/ d = 3 \/ d = 4 \/ d = 5 \/ d = 6 \/ d = 7
          \/ d = 8 \/ d = 9)%N as Hcases by lia.
  repeat (destruct Hcases as [->|Hcases]; [reflexivity|]). subst. reflexivity.
Qed.

Lemma digits_pretty_go (x : N) :
  forall s, exists p, forall acc,
      digits acc (pretty_N_go x s) = digits (acc * p + Z.of_N x) s.
Proof.
  induction (N.lt_wf_0 x) as [x _ IH]. intros s.
  assert (x = 0 \/ 0 < x)%N as [->|Hpos] by lia.
  - exists 1. intros acc. rewrite pretty_N_go_0. f_equal. lia.
  - destruct (IH (x `div` 10)%N ltac:(apply N.div_lt; lia)
                (String (pretty_N_char (x `mod` 10)) s)) as [p Hp].
    exists (10 * p). intros acc. rewrite pretty_N_go_step by exact Hpos.
    rewrite Hp. simpl.
    rewrite digit_of_pretty_char by (apply N.mod_lt; lia).
    f_equal. rewrite N2Z.inj_div, N2Z.inj_mod.
    pose proof (Z.div_mod (Z.of_N x) 10 ltac:(lia)). change (Z.of_N 10) with 10. lia.
Qed.

Lemma all_digits_pretty_go (x : N) :
  forall s, all_digits s = true -> all_digits (pretty_N_go x s) = true.
Proof.
  induction (N.lt_wf_0 x) as [x _ IH]. intros s Hs.
  assert (x = 0 \/ 0 < x)%N as [->|Hpos] by lia.
  - now rewrite pretty_N_go_0.
  - rewrite pretty_N_go_step by exact Hpos. apply IH; [apply N.div_lt; lia|].
    simpl. rewrite digit_of_pretty_char by (apply N.mod_lt; lia). exact Hs.
Qed.

Lemma pretty_go_nonempty (x : N) :
  forall s, (0 < x)%N -> pretty_N_go x s <> "".
Proof.
  induction (N.lt_wf_0 x) as [x _ IH]. intros s Hpos.
  rewrite pretty_N_go_step by exact Hpos.
  destruct (N.eq_0_gt_0_cases (x `div` 10)) as [->|Hq].
  - rewrite pretty_N_go_0. discriminate.
  - apply IH; [apply N.div_lt; lia | exact Hq].
Qed.

Lemma digit_is_not_space (c : ascii) (d : Z) :
  digit_of c = Some d -> is_space c = false.
Proof.
  unfold digit_of, is_space. intros Hd.
  destruct (Nat.leb_spec 48 (nat_of_ascii c)); [|discriminate].
  destruct (Nat.eqb_spec (nat_of_ascii c) 32); [lia|].
  destruct (Nat.leb_spec (nat_of_ascii c) 13); [lia|].
  now rewrite andb_false_r.
Qed.

Lemma lstrip_digits (s : string) : all_digits s = true -> lstrip s = s.
Proof.
  destruct s as [|c r]; [reflexivity|]. simpl.
  destruct (digit_of c) as [d|] eqn:Hd; [|discriminate].
  now rewrite (digit_is_not_space c d Hd).
Qed.

Lemma rev_app_digits (s acc : string) :
  all_digits s = true -> all_digits acc = true ->
  all_digits (String.rev_app s acc) = true.
Proof.
  revert acc. induction s as [|c r IH]; intros acc Hs Hacc; [exact Hacc|].
  simpl in *. destruct (digit_of c) eqn:Hd; [|discriminate].
  apply IH; [exact Hs|]. simpl. now rewrite Hd.
Qed.

Lemma append_nil_r (s : string) : s +:+ "" = s.
Proof. induction s as [|c r IH]; [reflexivity|]. rewrite append_cons. now rewrite IH. Qed.

Lemma rev_app_rev_app (s acc b : string) :
  String.rev_app (String.rev_app s acc) b = String.rev_app acc (s +:+ b).
Proof.
  revert acc. induction s as [|c r IH]; intros acc; [reflexivity|].
  simpl. rewrite IH. reflexivity.
Qed.

Lemma rev_involutive (s : string) : String.rev (String.rev s) = s.
Proof. unfold String.rev. rewrite rev_app_rev_app. simpl. apply append_nil_r. Qed.

Lemma strip_digits (s : string) : all_digits s = true -> strip s = s.
Proof.
  intros Hs. unfold strip. rewrite (lstrip_digits s Hs).
  rewrite lstrip_digits by (apply rev_app_digits; auto).
  apply rev_involutive.
Qed.

Lemma digit_char_cases (c : ascii) (d : Z) :
  digit_of c = Some d ->
  In c ["0"; "1"; "2"; "3"; "4"; "5"; "6"; "7"; "8"; "9"]%char.
Proof.
  unfold digit_of. intros Hd.
  destruct (Nat.leb_spec 48 (nat_of_ascii c)) as [Hlo|]; [|discriminate].
  destruct (Nat.leb_spec (nat_of_ascii c) 57) as [Hhi|]; [|discriminate].
  rewrite <- (ascii_nat_embedding c).
  assert (exists j, (j < 10)%nat /\ nat_of_ascii c = (48 + j)%nat) as (j & Hj & ->)
    by (exists (nat_of_ascii c - 48)%nat; lia).
  do 10 (destruct j as [|j]; [simpl; tauto|]). lia.
Qed.

Lemma py_int_digits (s : string) (n : Z) :
  all_digits s = true -> s <> "" -> digits 0 s = Some n -> py_int s = Ok n.
Proof.
  intros Hs Hne Hn. unfold py_int. rewrite (strip_digits s Hs).
  destruct s as [|c r]; [congruence|].
  assert (Hc : exists d, digit_of c = Some d).
  { simpl in Hs. destruct (digit_of c); [eauto | discriminate]. }
  destruct Hc as [d Hd]. apply digit_char_cases in Hd.
  simpl in Hd.
  repeat (destruct Hd as [<-|Hd]; [rewrite Hn; f_equal; lia|]). destruct Hd.
Qed.

(** [int(str(n))] is [n] for a non-negative int. *)
Lemma py_int_pretty (n : Z) : 0 <= n -> py_int (pretty n) = Ok n.
Proof.
  intros Hn. destruct n as [|p|p]; [reflexivity| |lia].
  change (pretty (Z.pos p)) with (pretty_N_go (N.pos p) "").
  apply py_int_digits.
  - now apply all_digits_pretty_go.
  - apply pretty_go_nonempty. lia.
  - destruct (digits_pretty_go (N.pos p) "") as [q Hq]. rewrite Hq. simpl.
    f_equal.
Qed.

(** ** The archive written by appending *)

Lemma prefix_append (a b : string) : String.prefix a (a +:+ b) = true.
Proof.
  induction a as [|c a IH]; [now destruct b|].
  rewrite append_cons. simpl. destruct (ascii_dec c c); [exact IH | congruence].
Qed.

Lemma substring_append_skip (a b : string) (m : nat) :
  substring (String.length a) m (a +:+ b) = substring 0 m b.
Proof. induction a as [|c a IH]; [reflexivity|]. rewrite append_cons. exact IH. Qed.

Lemma substring_append_take (d e : string) :
  substring 0 (String.length d) (d +:+ e) = d.
Proof.
  induction d as [|c d IH]; [now destruct e|].
  rewrite append_cons. simpl. now rewrite IH.
Qed.

(** [name[len(prefix):-4]] of an entry name is the printed index. *)
Lemma slice_entry_name (ty : pytype) (i : Z) :
  slice_to_minus4 (String.length (ty_name ty)) (entry_name ty i) = pretty i.
Proof.
  unfold slice_to_minus4, entry_name. rewrite !append_length. simpl String.length.
  rewrite substring_append_skip.
  replace (String.length (ty_name ty) + (String.length (pretty i) + 4) - 4
           - String.length (ty_name ty))%nat
    with (String.length (pretty i)) by lia.
  apply substring_append_take.
Qed.

Lemma length_zero_empty (s : string) : String.length s = 0%nat -> s = "".
Proof. now destruct s. Qed.

Lemma entry_name_not_type (ty : pytype) (i : Z) : entry_name ty i <> "type".
Proof.
  unfold entry_name. intros E.
  pose proof (f_equal String.length E) as Hlen.
  rewrite !append_length in Hlen. simpl in Hlen.
  assert (Ha : ty_name ty = "") by (apply length_zero_empty; lia).
  assert (Hb : pretty i = "") by (apply length_zero_empty; lia).
  rewrite Ha, Hb in E. discriminate E.
Qed.

Section WithDatum.

Context {T : Type} `{Datum T}.

Lemma zip_extract_absent (z : @zipfile T) (name : string) :
  (forall e, In e z -> e.1 <> name) -> zip_extract name z = Raise KeyError.
Proof.
  intros Habs. unfold zip_extract.
  destruct (find _ (rev z)) as [e|] eqn:E; [|reflexivity].
  apply find_some in E as [Hin Heq]. apply in_rev in Hin.
  apply String.eqb_eq in Heq. now destruct (Habs e Hin).
Qed.

Lemma in_entries (ty : pytype) (xs : list T) :
  forall (n : Z) (e : string * content),
    In e (entries ty n xs) ->
    exists j, n <= j < n + len xs /\ e.1 = entry_name ty j.
Proof.
  induction xs as [|x xs IH]; intros n e Hin; [destruct Hin|].
  rewrite AlgebraFacts.len_cons. pose proof (AlgebraFacts.len_nonneg xs).
  destruct Hin as [<-|Hin].
  - exists n. split; [lia | reflexivity].
  - destruct (IH _ _ Hin) as (j & Hj & Hname). exists j. split; [lia | exact Hname].
Qed.

Lemma namelist_entries (ty : pytype) (xs : list T) :
  forall n, namelist (entries ty n xs)
            = map (entry_name ty) (xrange n (n + len xs)).
Proof.
  induction xs as [|x xs IH]; intros n.
  - rewrite xrange_empty by (unfold len; simpl; lia). reflexivity.
  - rewrite AlgebraFacts.len_cons. pose proof (AlgebraFacts.len_nonneg xs).
    rewrite xrange_cons by lia. cbn [entries namelist map fst].
    f_equal. change (map fst (entries ty (n + 1) xs))
      with (namelist (entries ty (n + 1) xs)).
    rewrite IH. do 2 f_equal. lia.
Qed.

(** The state reached by appending payloads of the declared type. *)
Lemma for_each_add_datum (ty : pytype) (xs : list T) :
  ty_has_save ty = true ->
  forall s : @state T,
    datatype (self s) = ty ->
    for_each (fun x => add_datum {| ob_type := ty; ob_data := x |}) xs s
    = (Ok tt,
       with_self (set_num_data (num_data (self s) + len xs))
         (set_archive (archive s ++ entries ty (num_data (self s)) xs)%list s)).
Proof.
  intros Hsave. induction xs as [|x xs IH]; intros s Hty.
  - simpl. unfold retM. f_equal. destruct s as [[] ? ? ? ?].
    unfold with_self, set_archive, set_num_data, len. simpl.
    rewrite Z.add_0_r, app_nil_r. reflexivity.
  - simpl. unfold bindM at 1.
    rewrite add_datum_with_save by (simpl; congruence).
    rewrite IH by (simpl; exact Hty). f_equal.
    rewrite AlgebraFacts.len_cons. destruct s as [[] ? ? ? ?].
    unfold with_self, set_archive, set_num_data. simpl in *. subst.
    rewrite <- app_assoc. simpl.
    replace (num_data0 + 1 + len xs) with (num_data0 + (len xs + 1)) by lia.
    reflexivity.
Qed.

Lemma appended_state (ty : pytype) (rng : nat -> Z) (xs : list T) :
  ty_has_save ty = true ->
  appended ty rng xs
  = with_self (set_num_data (len xs))
      (set_archive (("type", Pickled ty) :: entries ty 0 xs) (created ty rng)).
Proof.
  intros Hsave. unfold appended. rewrite for_each_add_datum by auto. reflexivity.
Qed.

Lemma find_app_none {A : Type} (f : A -> bool) (l l' : list A) :
  find f l = None -> find f (l ++ l')%list = find f l'.
Proof.
  induction l as [|a l IH]; [reflexivity|]. simpl.
  destruct (f a); [discriminate | exact IH].
Qed.

Lemma zip_extract_head (z : @zipfile T) (name : string) (c : content) :
  (forall e, In e z -> e.1 <> name) ->
  zip_extract name ((name, c) :: z) = Ok c.
Proof.
  intros Habs. unfold zip_extract. simpl rev.
  rewrite find_app_none.
  - simpl. now rewrite String.eqb_refl.
  - destruct (find _ (rev z)) as [e|] eqn:E; [|reflexivity].
    apply find_some in E as [Hin Heq]. apply in_rev in Hin.
    apply String.eqb_eq in Heq. now destruct (Habs e Hin).
Qed.

Lemma filter_all {A : Type} (P : A -> Prop) `{forall x, Decision (P x)} (l : list A) :
  (forall x, In x l -> P x) -> filter P l = l.
Proof.
  induction l as [|a l IH]; intros Hall; [reflexivity|].
  rewrite filter_cons_True by (apply Hall; left; reflexivity).
  f_equal. apply IH. intros x Hx. apply Hall. right. exact Hx.
Qed.

Lemma traverse_map_ok {A B : Type} (f : A -> result B) (g : B -> A) (l : list B) :
  (forall x, In x l -> f (g x) = Ok x) -> traverse f (map g l) = Ok l.
Proof.
  induction l as [|a l IH]; intros Hall; [reflexivity|]. simpl.
  rewrite Hall by (left; reflexivity). simpl.
  rewrite IH by (intros x Hx; apply Hall; right; exact Hx). reflexivity.
Qed.

Lemma fold_max_snoc (l : list Z) (m x : Z) :
  fold_left Z.max (l ++ [x])%list m = Z.max (fold_left Z.max l m) x.
Proof. rewrite fold_left_app. reflexivity. Qed.

(** [max(range(n + 1))] is [n]. *)
Lemma py_max_range (n : nat) : py_max (map Z.of_nat (seq 0 (S n))) = Z.of_nat n.
Proof.
  induction n as [|n IH]; [reflexivity|].
  rewrite seq_S, map_app. change (seq 0 (S n)) with (0%nat :: seq 1 n) in *.
  cbn [map app py_max] in *. rewrite fold_max_snoc, IH. simpl. lia.
Qed.

Lemma py_max_xrange (n : Z) : 0 < n -> py_max (xrange 0 n) + 1 = n.
Proof.
  intros Hn. unfold xrange. rewrite Z.sub_0_r.
  replace (Z.to_nat n) with (S (Z.to_nat (n - 1))) by lia.
  rewrite (map_ext _ Z.of_nat) by (intros; lia).
  rewrite py_max_range. lia.
Qed.

Lemma accumulate_picked (s : @state T) (data : list T) (g : T -> T)
    (ixs : list Z) (picked : list T) :
  stored s data ->
  Forall2 (fun i x => 0 <= i /\ data !! Z.to_nat i = Some x) ixs picked ->
  forall acc,
    for_fold (fun out i => do x <- get_datum i; retM (d_add out (g x))) acc ixs s
    = (Ok (fold_left (fun a x => d_add a (g x)) picked acc), s).
Proof.
  intros [Hcount Hread] Hall. induction Hall as [|i x ixs picked [Hi Hx] _ IH];
    intros acc; [reflexivity|].
  simpl. unfold bindM at 1. unfold bindM at 1. rewrite get_datum_read.
  pose proof (Hread _ x Hx) as Hr. rewrite Z2Nat.id in Hr by lia. rewrite Hr.
  unfold retM. apply IH.
Qed.

Lemma picked_range (data : list T) (lo : nat) :
  Forall2 (fun i x => 0 <= i /\ data !! Z.to_nat i = Some x)
          (xrange (Z.of_nat lo) (len data)) (drop lo data).
Proof.
  remember (length data - lo)%nat as n eqn:Hn. revert lo Hn.
  induction n as [|n IH]; intros lo Hn.
  - rewrite xrange_empty by (unfold len; lia). rewrite drop_ge by lia. constructor.
  - destruct (lookup_lt_is_Some_2 data lo) as [x Hx]; [lia|].
    rewrite xrange_cons by (unfold len; lia). rewrite (drop_S data x lo Hx).
    constructor.
    + split; [lia|]. now rewrite Nat2Z.id.
    + replace (Z.of_nat lo + 1) with (Z.of_nat (S lo)) by lia. apply IH. lia.
Qed.

(** *** Composition of methods that only read *)

Lemma read_only_bind {A B : Type} (m : M (T := T) A) (f : A -> M B) :
  read_only m -> (forall a, read_only (f a)) -> read_only (bindM m f).
Proof.
  intros Hm Hf s. unfold bindM. specialize (Hm s).
  destruct (m s) as [[a|e] s']; simpl in Hm; subst; [apply Hf | reflexivity].
Qed.

Lemma read_only_for_fold {A B : Type} (body : A -> B -> M (T := T) A) (xs : list B) :
  (forall acc x, read_only (body acc x)) ->
  forall acc, read_only (for_fold body acc xs).
Proof.
  intros Hbody. induction xs as [|x xs IH]; intros acc; [intros s; reflexivity|].
  simpl. apply read_only_bind; [apply Hbody | exact IH].
Qed.

Lemma read_only_for_each {B : Type} (body : B -> M (T := T) unit) (xs : list B) :
  (forall x, read_only (body x)) -> read_only (for_each body xs).
Proof.
  intros Hbody. induction xs as [|x xs IH]; [intros s; reflexivity|].
  simpl. apply read_only_bind; [apply Hbody | intros _; exact IH].
Qed.

Lemma read_only_get_datum (i : Z) : read_only (T := T) (get_datum i).
Proof. intros s. now rewrite get_datum_read. Qed.

Lemma read_only_lift {A : Type} (r : result A) : read_only (T := T) (lift r).
Proof. intros s. reflexivity. Qed.

Lemma read_only_gets {A : Type} (f : @state T -> A) : read_only (gets f).
Proof. intros s. reflexivity. Qed.

Lemma read_only_add (acc : T) (g : T -> T) (i : Z) :
  read_only (T := T) (do x <- get_datum i; retM (d_add acc (g x))).
Proof.
  apply read_only_bind; [apply read_only_get_datum | intros x s; reflexivity].
Qed.

Lemma read_only_get_bin (binsize binnum : Z) :
  read_only (T := T) (_get_bin binsize binnum).
Proof.
  unfold _get_bin. apply read_only_bind; [apply read_only_get_datum|]. intros out.
  apply read_only_bind; [apply read_only_gets|]. intros n.
  apply read_only_bind; [|intros; apply read_only_lift].
  apply read_only_for_fold. intros acc i. apply (read_only_add acc (fun x => x)).
Qed.

Lemma read_only_sum_bins (binsize num_bins : Z) :
  read_only (T := T) (sum_bins binsize num_bins).
Proof.
  unfold sum_bins. apply read_only_bind; [apply read_only_get_bin|]. intros b0.
  apply read_only_for_fold. intros acc i.
  apply read_only_bind; [apply read_only_get_bin | intros x s; reflexivity].
Qed.

(** ** Properties of the archive store *)

(** X6.  Data appended to a new archive, of an element type with its
    own [save] and [load], are counted and read back by index as they
    were given; an index below zero or from the count on raises
    [KeyError] (there is no indexing from the end), and reading leaves
    the state as it was. *)
Theorem appended_read_back (ty : pytype) (rng : nat -> Z) (xs : list T) :
  ty_has_save ty = true -> ty_has_load ty = true ->
  num_data (self (appended ty rng xs)) = len xs
  /\ (forall (i : nat) (x : T),
         xs !! i = Some x ->
         __getitem__ (Z.of_nat i) (appended ty rng xs) = (Ok x, appended ty rng xs))
  /\ (forall i : Z,
         i < 0 \/ len xs <= i ->
         __getitem__ i (appended ty rng xs) = (Raise KeyError, appended ty rng xs)).
Proof.
  intros Hsave Hload.
  destruct (appended_stored ty rng xs Hsave Hload) as [Hcount Hread].
  split; [exact Hcount|]. split.
  - intros i x Hi. unfold __getitem__. rewrite get_datum_read.
    now rewrite (Hread i x Hi).
  - intros i Hi. unfold __getitem__. rewrite get_datum_read. f_equal.
    unfold read. rewrite appended_state by exact Hsave. simpl.
    rewrite zip_extract_absent; [reflexivity|].
    intros e [<-|Hin].
    + simpl. intros E. symmetry in E. exact (entry_name_not_type _ _ E).
    + apply in_entries in Hin as (j & Hj & ->). intros E.
      apply entry_name_inj in E. lia.
Qed.

(** X7.  Opening the archive written by appending [xs] to a new data
    set recovers the element type and the count [len xs], with the
    iteration counter at zero and an empty cache, and the reopened data
    set reads the same data back; this for an element type with [save]
    whose name is not a prefix of "type" and whose entry names do not
    contain "jackknife". *)
Theorem load_after_appends (ty : pytype) (rng : nat -> Z) (xs : list T)
    (zip64 : bool) (fname : string) :
  ty_has_save ty = true ->
  String.prefix (ty_name ty) "type" = false ->
  (forall i, 0 <= i < len xs -> not_found "jackknife" (entry_name ty i) = true) ->
  exists out,
    load zip64 (archive (appended ty rng xs)) fname = Ok out
    /\ datatype out = ty
    /\ num_data out = len xs
    /\ iteration out = 0
    /\ cache out = ∅
    /\ (ty_has_load ty = true ->
        stored {| self := out; archive := archive (appended ty rng xs);
                  pyQCDcache := ∅; entropy := rng; drawn := 0 |} xs).
Proof.
  intros Hsave Hpre Hjack. pose proof (AlgebraFacts.len_nonneg xs) as Hn.
  rewrite appended_state by exact Hsave. cbn [archive with_self set_archive].
  assert (Htype : zip_extract "type" (("type", Pickled ty) :: entries ty 0 xs)
                  = Ok (Pickled ty)).
  { apply zip_extract_head. intros e Hin.
    apply in_entries in Hin as (j & _ & ->). apply entry_name_not_type. }
  assert (Hnames :
    traverse (fun n => py_int (slice_to_minus4 (String.length (ty_name ty)) n))
      (filter (fun n => String.prefix (ty_name ty) n && not_found "jackknife" n)
              (namelist (("type", Pickled ty) :: entries ty 0 xs)))
    = Ok (xrange 0 (len xs))).
  { cbn [namelist map fst].
    change (map fst (entries ty 0 xs)) with (namelist (entries ty 0 xs)).
    rewrite namelist_entries, Z.add_0_l.
    rewrite filter_cons_False by (rewrite Hpre; simpl; tauto).
    rewrite filter_all.
    - apply traverse_map_ok. intros i Hi. apply in_xrange in Hi.
      rewrite slice_entry_name. apply py_int_pretty. lia.
    - intros n Hin. apply in_map_iff in Hin as (i & <- & Hi).
      apply in_xrange in Hi. unfold entry_name at 1. rewrite prefix_append.
      rewrite Hjack by lia. exact I. }
  unfold load. rewrite Htype. cbn [mbind result_bind]. rewrite Hnames.
  cbn [mbind result_bind]. eexists. split; [reflexivity|].
  assert (Hlen : len (xrange 0 (len xs)) = len xs).
  { unfold len at 1. rewrite xrange_length. lia. }
  rewrite Hlen.
  destruct (Z.ltb_spec 0 (len xs)) as [Hpos|Hzero].
  - rewrite py_max_xrange by exact Hpos.
    do 4 (split; [reflexivity|]).
    intros Hload. destruct (appended_stored ty rng xs Hsave Hload) as [_ Hread].
    split; [reflexivity|]. intros i x Hi. rewrite <- (Hread i x Hi).
    unfold read. rewrite appended_state by exact Hsave. reflexivity.
  - assert (Hz : len xs = 0) by lia.
    do 4 (split; [simpl; auto|]).
    intros Hload. destruct (appended_stored ty rng xs Hsave Hload) as [_ Hread].
    split; [simpl; auto|]. intros i x Hi. rewrite <- (Hread i x Hi).
    unfold read. rewrite appended_state by exact Hsave. reflexivity.
Qed.

(** X8.  The iteration counter is compared with the count at every
    call of [next]: after a datum is appended, a loop started from
    counter [i] yields the data from index [i] on followed by the new
    datum, so an exhausted iterator yields exactly the datum appended
    since. *)
Theorem iteration_resumes_after_append (s : @state T) (data : list T)
    (datum : pyobj) (i fuel : nat) :
  stored s data ->
  iteration (self s) = Z.of_nat i -> (i <= length data)%nat ->
  ob_type datum = datatype (self s) ->
  ty_has_save (datatype (self s)) = true ->
  ty_has_load (datatype (self s)) = true ->
  (length data + 1 - i < fuel)%nat ->
  iterate fuel (add_datum datum s).2
  = Some (Ok (drop i data ++ [ob_data datum])%list,
          with_self (set_iteration (len data + 1)) (add_datum datum s).2).
Proof.
  intros Hst Hit Hi Hty Hsave Hload Hfuel.
  destruct (add_datum_stored s data datum Hst Hty Hsave Hload) as [_ Hst'].
  assert (Hit' : iteration (self (add_datum datum s).2) = Z.of_nat i).
  { rewrite add_datum_with_save by (auto; congruence). exact Hit. }
  unfold iterate. simpl.
  rewrite (for_in_run (length data + 1 - i) _ (data ++ [ob_data datum])%list
             i fuel [] Hst' Hit')
    by (try rewrite length_app; simpl; lia).
  rewrite drop_app_le by exact Hi. simpl.
  unfold len. rewrite length_app. simpl.
  replace (Z.of_nat (length data + 1)) with (Z.of_nat (length data) + 1) by lia.
  reflexivity.
Qed.

(** X9.  [measure] applies the function to the average of the data at
    the given indices (all stored data when no index is given), summed
    from the left and divided by their number, and leaves the state as
    it was; with no index and an empty archive it raises [IndexError]. *)
Theorem measure_averages {A : Type} (s : @state T) (data : list T)
    (func : T -> result A) (ixs : list Z) (picked : list T) :
  stored s data ->
  Forall2 (fun i x => 0 <= i /\ data !! Z.to_nat i = Some x) ixs picked ->
  measure func ixs s
  = (avg ← average (match ixs with [] => data | _ => picked end); func avg, s).
Proof.
  intros Hst Hall.
  assert (Hgen : forall (ixs : list Z) (picked : list T),
             Forall2 (fun i x => 0 <= i /\ data !! Z.to_nat i = Some x) ixs picked ->
             match ixs with
             | [] => raise IndexError
             | i0 :: rest =>
                 do datum_sum <- get_datum i0;
                 do datum_sum <- for_fold (fun datum_sum i =>
                                             do x <- get_datum i;
                                             retM (d_add datum_sum x))
                                          datum_sum rest;
                 do datum_sum <- lift (d_div datum_sum (len ixs));
                 lift (func datum_sum)
             end s
             = (avg ← average picked; func avg, s)).
  { intros l p Hlp. destruct Hlp as [|i0 x0 rest prest [Hi Hx] Hrest]; [reflexivity|].
    unfold bindM at 1. rewrite get_datum_read.
    destruct Hst as [Hcount Hread] eqn:Est.
    pose proof (Hread _ x0 Hx) as Hr. rewrite Z2Nat.id in Hr by lia. rewrite Hr.
    unfold bindM at 1.
    rewrite (accumulate_picked s data (fun x => x) rest prest (conj Hcount Hread) Hrest).
    unfold bindM, lift. cbn [average].
    assert (Hlen : len (i0 :: rest) = len (x0 :: prest)).
    { unfold len. simpl. now rewrite (Forall2_length _ _ _ Hrest). }
    rewrite Hlen.
    destruct (d_div _ _); reflexivity. }
  unfold measure, bindM at 1, gets. cbn [fst snd].
  destruct ixs as [|i0 rest].
  - apply Forall2_nil_inv_l in Hall as ->.
    replace (num_data (self s)) with (len data) by (symmetry; apply Hst).
    apply (Hgen (xrange 0 (len data)) data).
    exact (picked_range data 0).
  - exact (Hgen _ _ Hall).
Qed.

(** X10.  The methods that read never write: [get_datum], [__getitem__],
    [_get_bin], [jackknife_datum], [measure], [statistics],
    [apply_function], [set_datum] and [jackknife] without the cache
    leave the object, the archive, the disk cache and the random source
    exactly as they found them, whether they return or raise. *)
Theorem reading_methods_leave_state :
  (forall i, read_only (T := T) (get_datum i))
  /\ (forall i, read_only (T := T) (__getitem__ i))
  /\ (forall binsize binnum, read_only (T := T) (_get_bin binsize binnum))
  /\ (forall index binsize, read_only (T := T) (jackknife_datum index binsize))
  /\ (forall (A : Type) (func : T -> result A) ixs, read_only (measure func ixs))
  /\ (forall P : Powers T, read_only (statistics (T := T)))
  /\ (forall func, read_only (T := T) (apply_function func))
  /\ (forall index datum, read_only (T := T) (set_datum index datum))
  /\ (forall limit func binsize, read_only (T := T) (jackknife limit func binsize false)).
Proof.
  split; [exact read_only_get_datum|].
  split; [exact read_only_get_datum|].
  split; [exact read_only_get_bin|].
  split.
  { intros index binsize. unfold jackknife_datum.
    destruct (binsize <? 1); [intros s; reflexivity|].
    apply read_only_bind; [apply read_only_gets|]. intros n.
    destruct (index >=? n); [intros s; reflexivity|].
    apply read_only_bind; [apply read_only_sum_bins|]. intros total.
    apply read_only_bind; [apply read_only_get_bin|]. intros b.
    apply read_only_lift. }
  split.
  { intros A func ixs. unfold measure.
    apply read_only_bind; [apply read_only_gets|]. intros n.
    destruct (match ixs with [] => xrange 0 n | _ => ixs end) as [|i0 rest];
      [intros s; reflexivity|].
    apply read_only_bind; [apply read_only_get_datum|]. intros x0.
    apply read_only_bind;
      [apply read_only_for_fold; intros acc i;
       apply (read_only_add acc (fun x => x))|].
    intros total. apply read_only_bind; intros; apply read_only_lift. }
  split.
  { intros P. unfold statistics.
    apply read_only_bind; [apply read_only_get_datum|]. intros x0.
    apply read_only_bind; [apply read_only_gets|]. intros n.
    apply read_only_bind;
      [apply read_only_for_fold; intros acc i;
       apply (read_only_add acc (fun x => x))|].
    intros total. apply read_only_bind; [apply read_only_lift|]. intros mean.
    apply read_only_bind; [apply read_only_get_datum|]. intros x0'.
    apply read_only_bind;
      [apply read_only_for_fold; intros acc i;
       apply (read_only_add acc (fun x => d_square (d_sub x mean)))|].
    intros sq. apply read_only_bind; [apply read_only_lift|]. intros q.
    apply read_only_bind; [apply read_only_lift|]. intros sd s. reflexivity. }
  split.
  { intros func. unfold apply_function.
    apply read_only_bind; [apply read_only_gets|]. intros n.
    apply read_only_for_each. intros i.
    apply read_only_bind; [apply read_only_get_datum|]. intros x.
    apply read_only_bind; [apply read_only_lift|]. intros y s. reflexivity. }
  split; [intros index datum s; reflexivity|].
  intros limit func binsize. unfold jackknife.
  destruct (binsize <? 1); [intros s; reflexivity|].
  apply read_only_bind; [apply read_only_gets|]. intros n.
  apply read_only_bind.
  - apply read_only_bind; [apply read_only_sum_bins|]. intros total.
    apply read_only_for_fold. intros out i.
    apply read_only_bind; [apply read_only_get_bin|]. intros b.
    apply read_only_bind; [apply read_only_lift|]. intros x.
    apply read_only_bind; [apply read_only_lift|]. intros m s. reflexivity.
  - intros out. apply read_only_bind; [apply read_only_lift|]. intros mean.
    apply read_only_bind; [apply read_only_lift|]. intros sd s. reflexivity.
Qed.

End WithDatum.

(** *** Examples for the properties above *)

Lemma appended_read_back_witness :
  num_data (self two_scalars) = len [1%R; 2%R]
  /\ (forall (i : nat) (x : R),
         [1%R; 2%R] !! i = Some x ->
         __getitem__ (Z.of_nat i) two_scalars = (Ok x, two_scalars))
  /\ (forall i : Z,
         i < 0 \/ len [1%R; 2%R] <= i ->
         __getitem__ i two_scalars = (Raise KeyError, two_scalars)).
Proof.
  apply (appended_read_back scalar_type example_rng [1%R; 2%R]); reflexivity.
Defined.

Lemma load_after_appends_witness :
  exists out,
    load true (archive two_scalars) "data.zip" = Ok out
    /\ datatype out = scalar_type
    /\ num_data out = len [1%R; 2%R]
    /\ iteration out = 0
    /\ cache out = ∅
    /\ (ty_has_load scalar_type = true ->
        stored {| self := out; archive := archive two_scalars;
                  pyQCDcache := ∅; entropy := example_rng; drawn := 0 |}
               [1%R; 2%R]).
Proof.
  apply (load_after_appends scalar_type example_rng [1%R; 2%R] true "data.zip").
  - reflexivity.
  - reflexivity.
  - intros i Hi.
    assert (i = 0 \/ i = 1) as [-> | ->] by (unfold len in Hi; simpl in Hi; lia);
      vm_compute; reflexivity.
Defined.

Lemma iteration_resumes_after_append_witness :
  iterate 2 (add_datum {| ob_type := scalar_type; ob_data := 3%R |}
                       (with_self (set_iteration 2) two_scalars)).2
  = Some (Ok (drop 2 [1%R; 2%R] ++ [3%R])%list,
          with_self (set_iteration (len [1%R; 2%R] + 1))
            (add_datum {| ob_type := scalar_type; ob_data := 3%R |}
                       (with_self (set_iteration 2) two_scalars)).2).
Proof.
  apply (iteration_resumes_after_append
           (with_self (set_iteration 2) two_scalars) [1%R; 2%R]
           {| ob_type := scalar_type; ob_data := 3%R |} 2 2).
  - eapply stored_same_store; [..|exact stored_two]; reflexivity.
  - reflexivity.
  - simpl. lia.
  - reflexivity.
  - reflexivity.
  - reflexivity.
  - simpl. lia.
Defined.

Lemma measure_averages_witness :
  measure (fun x : R => Ok x) [0; 2] four_scalars
  = (avg ← average [1%R; 3%R]; Ok avg, four_scalars).
Proof.
  apply (measure_averages four_scalars [1%R; 2%R; 3%R; 4%R] (fun x : R => Ok x)
           [0; 2] [1%R; 3%R]).
  - exact stored_appended_scalars.
  - constructor; [split; [lia | reflexivity]|].
    constructor; [split; [lia | reflexivity]|]. constructor.
Defined.

(** ** Statistics of an archive of floats *)

Local Open Scope R_scope.

Lemma fold_left_add_map (g : R -> R) (l : list R) (a : R) :
  fold_left (fun a y => d_add a (g y)) l a = a + Algebra.Rsum (map g l).
Proof.
  revert a. induction l as [|y l IH]; intros a; simpl; [lra|].
  rewrite IH. simpl. lra.
Qed.

(** X11.  On an archive of floats holding at least one datum,
    [statistics] returns the mean of the data and their plain standard
    deviation [sqrt (sum (x - mean)^2 / n)], the very values the
    reducers [_mean] and [_std] give on the list of the data, and leaves
    the state as it was. *)
Theorem statistics_of_floats (s : @state R) (xs : list R) (k : nat) :
  stored s xs -> xs <> [] ->
  statistics s
  = (Ok (Algebra.Rmean xs, sqrt (Algebra.Rsumsq xs / IZR (len xs))), s)
  /\ Algebra._mean (S k) (map Algebra.VFloat xs)
     = Ok (Algebra.VFloat (Algebra.Rmean xs))
  /\ Algebra._std (S k) (map Algebra.VFloat xs)
     = Ok (Algebra.VFloat (sqrt (Algebra.Rsumsq xs / IZR (len xs)))).
Proof.
  intros Hst Hne. destruct xs as [|x rest]; [congruence|].
  split; [|split; [apply AlgebraFacts.mean_floats | apply AlgebraFacts.std_floats]].
  pose proof (AlgebraFacts.len_nonneg rest) as Hn.
  assert (Hlen : (len (x :: rest) = len rest + 1)%Z) by apply AlgebraFacts.len_cons.
  destruct (stored_lookup s _ 0%Z Hst) as (x0 & Hx0 & Hget); [lia|].
  simpl in Hx0. injection Hx0 as <-.
  pose proof (picked_range (x :: rest) 1) as Hrange.
  change (Z.of_nat 1) with 1%Z in Hrange.
  change (drop 1 (x :: rest)) with rest in Hrange.
  assert (Hcount : num_data (self s) = len (x :: rest)) by apply Hst.
  unfold statistics.
  rewrite (bindM_ok _ _ s s x Hget).
  rewrite (bindM_ok _ _ s s (len (x :: rest)))
    by (unfold gets; now rewrite Hcount).
  rewrite (bindM_ok _ _ s s _
             (accumulate_picked s (x :: rest) (fun y => y) _ _ Hst Hrange x)).
  set (m := Algebra.Rmean (x :: rest)).
  assert (Hm : d_div (fold_left (fun a y => d_add a y) rest x) (len (x :: rest))
               = Ok m).
  { rewrite (fold_left_add_map (fun y => y)). rewrite map_id. simpl d_div.
    destruct (Z.eqb_spec (len (x :: rest)) 0) as [E|_]; [lia|]. reflexivity. }
  rewrite (bindM_ok _ _ s s m) by (unfold lift; now rewrite Hm).
  rewrite (bindM_ok _ _ s s x Hget).
  rewrite (bindM_ok _ _ s s _
             (accumulate_picked s (x :: rest) (fun y => d_square (d_sub y m))
                _ _ Hst Hrange _)).
  assert (Hsq : d_div (fold_left (fun a y => d_add a (d_square (d_sub y m))) rest
                                 (d_square (d_sub x m))) (len (x :: rest))
                = Ok (Algebra.Rsumsq (x :: rest) / IZR (len (x :: rest)))).
  { rewrite (fold_left_add_map (fun y => d_square (d_sub y m))). simpl d_div.
    destruct (Z.eqb_spec (len (x :: rest)) 0) as [E|_]; [lia|]. reflexivity. }
  rewrite (bindM_ok _ _ s s (Algebra.Rsumsq (x :: rest) / IZR (len (x :: rest))))
    by (unfold lift; now rewrite Hsq).
  assert (Hroot : d_root (Algebra.Rsumsq (x :: rest) / IZR (len (x :: rest)))
                  = Ok (sqrt (Algebra.Rsumsq (x :: rest) / IZR (len (x :: rest))))).
  { simpl. destruct (Rlt_dec _ 0) as [Hneg|_]; [|reflexivity]. exfalso.
    pose proof (AlgebraMore.Rsumsq_nonneg (x :: rest)) as Hs.
    assert (0 < IZR (len (x :: rest))) by (apply IZR_lt; lia).
    assert (0 <= Algebra.Rsumsq (x :: rest) / IZR (len (x :: rest))).
    { apply Rmult_le_pos; [exact Hs|]. left. now apply Rinv_0_lt_compat. }
    lra. }
  rewrite (bindM_ok _ _ s s
             (sqrt (Algebra.Rsumsq (x :: rest) / IZR (len (x :: rest)))))
    by (unfold lift; now rewrite Hroot).
  reflexivity.
Qed.

Lemma statistics_of_floats_witness :
  statistics four_scalars
  = (Ok (Algebra.Rmean [1; 2; 3; 4],
         sqrt (Algebra.Rsumsq [1; 2; 3; 4] / IZR (len [1; 2; 3; 4]))), four_scalars)
  /\ Algebra._mean 1 (map Algebra.VFloat [1; 2; 3; 4])
     = Ok (Algebra.VFloat (Algebra.Rmean [1; 2; 3; 4]))
  /\ Algebra._std 1 (map Algebra.VFloat [1; 2; 3; 4])
     = Ok (Algebra.VFloat (sqrt (Algebra.Rsumsq [1; 2; 3; 4] / IZR (len [1; 2; 3; 4])))).
Proof.
  apply (statistics_of_floats four_scalars [1; 2; 3; 4] 0).
  - exact stored_appended_scalars.
  - discriminate.
Defined.

Local Close Scope R_scope.

End StoreMore.

(** * Further properties of the resampling engine *)

Module ResampleMore.
Import Store StoreFacts ResampleFacts StoreMore.

Section Frames.

Context {T : Type} `{Datum T}.

Lemma read_only_keeps_frame {A : Type} (m : M (T := T) A) :
  read_only m -> keeps_frame m.
Proof. intros Hm s. rewrite Hm. apply frame_refl. Qed.

Lemma keeps_frame_bind {A B : Type} (m : M (T := T) A) (f : A -> M B) :
  keeps_frame m -> (forall a, keeps_frame (f a)) -> keeps_frame (bindM m f).
Proof.
  intros Hm Hf s. unfold bindM. specialize (Hm s).
  destruct (m s) as [[a|e] s']; simpl in Hm |- *; [|exact Hm].
  eapply frame_trans; [exact Hm | apply Hf].
Qed.

Lemma keeps_frame_for_fold {A B : Type} (body : A -> B -> M (T := T) A) (xs : list B) :
  (forall acc x, keeps_frame (body acc x)) ->
  forall acc, keeps_frame (for_fold body acc xs).
Proof.
  intros Hbody. induction xs as [|x xs IH]; intros acc; [intros s; apply frame_refl|].
  simpl. apply keeps_frame_bind; [apply Hbody | exact IH].
Qed.

Lemma keeps_frame_for_each {B : Type} (body : B -> M (T := T) unit) (xs : list B) :
  (forall x, keeps_frame (body x)) -> keeps_frame (for_each body xs).
Proof.
  intros Hbody. induction xs as [|x xs IH]; [intros s; apply frame_refl|].
  simpl. apply keeps_frame_bind; [apply Hbody | intros _; exact IH].
Qed.

Lemma keeps_frame_pure {A : Type} (r : result A) :
  keeps_frame (T := T) (fun s => (r, s)).
Proof. intros s. apply frame_refl. Qed.

Lemma keeps_frame_cache_store (name : string) (x : T) :
  keeps_frame (cache_store name x).
Proof. intros s. repeat split; reflexivity. Qed.

Lemma keeps_frame_randint (n : Z) : keeps_frame (T := T) (randint n).
Proof.
  intros s. unfold randint. destruct (n <=? 0); repeat split; reflexivity.
Qed.

Lemma keeps_frame_add_bin (binsize : Z) (acc : T) (b : Z) :
  keeps_frame (T := T) (do x <- _get_bin binsize b; retM (d_add acc x)).
Proof.
  apply keeps_frame_bind; [apply read_only_keeps_frame, read_only_get_bin|].
  intros x. apply keeps_frame_pure.
Qed.

Lemma keeps_frame_draw_resample (binsize num_bins : Z) :
  keeps_frame (T := T) (draw_resample binsize num_bins).
Proof.
  unfold draw_resample. apply keeps_frame_bind; [apply keeps_frame_randint|].
  intros [|b0 rest]; [apply keeps_frame_pure|].
  apply keeps_frame_bind; [apply read_only_keeps_frame, read_only_get_bin|].
  intros x0. apply keeps_frame_bind.
  - apply keeps_frame_for_fold. intros acc b. apply keeps_frame_add_bin.
  - intros total. apply keeps_frame_pure.
Qed.

Lemma keeps_frame_generate_bootstrap_cache (num_bootstraps binsize : Z) :
  keeps_frame (T := T) (generate_bootstrap_cache num_bootstraps binsize).
Proof.
  unfold generate_bootstrap_cache. destruct (binsize <? 1); [apply keeps_frame_pure|].
  apply keeps_frame_bind; [intros s; apply frame_refl|]. intros n.
  apply keeps_frame_bind; [intros s; apply frame_refl|]. intros ty.
  apply keeps_frame_bind.
  - apply keeps_frame_for_each. intros i.
    apply keeps_frame_bind; [apply keeps_frame_draw_resample|].
    intros x. apply keeps_frame_cache_store.
  - intros _ s. repeat split; reflexivity.
Qed.

Lemma keeps_frame_generate_jackknife_cache (binsize : Z) :
  keeps_frame (T := T) (generate_jackknife_cache binsize).
Proof.
  unfold generate_jackknife_cache. destruct (binsize <? 1); [apply keeps_frame_pure|].
  apply keeps_frame_bind; [intros s; apply frame_refl|]. intros n.
  apply keeps_frame_bind; [intros s; apply frame_refl|]. intros ty.
  apply keeps_frame_bind; [apply read_only_keeps_frame, read_only_sum_bins|].
  intros total. apply keeps_frame_bind.
  - apply keeps_frame_for_each. intros i.
    apply keeps_frame_bind; [apply read_only_keeps_frame, read_only_get_bin|].
    intros b. apply keeps_frame_bind; [apply keeps_frame_pure|].
    intros x. apply keeps_frame_cache_store.
  - intros _ s. repeat split; reflexivity.
Qed.

Lemma keeps_frame_get_bootstrap_cache_datum (limit : nat)
    (binsize index num_bootstraps : Z) :
  keeps_frame (T := T)
    (_get_bootstrap_cache_datum limit binsize index num_bootstraps).
Proof.
  induction limit as [|k IH]; [apply keeps_frame_pure|].
  intros s. rewrite get_bootstrap_cache_datum_step.
  destruct (cache (self s) !! _); [apply frame_refl|].
  destruct (pyQCDcache s !! _); [apply frame_refl|].
  pose proof (keeps_frame_generate_bootstrap_cache num_bootstraps binsize s) as Hg.
  destruct (generate_bootstrap_cache num_bootstraps binsize s) as [[[]|e] s1];
    simpl in Hg |- *; [|exact Hg].
  eapply frame_trans; [exact Hg | apply IH].
Qed.

Lemma keeps_frame_get_jackknife_cache_datum (limit : nat) (binsize index : Z) :
  keeps_frame (T := T) (_get_jackknife_cache_datum limit binsize index).
Proof.
  induction limit as [|k IH]; [apply keeps_frame_pure|].
  intros s. rewrite get_jackknife_cache_datum_step.
  destruct (cache (self s) !! _); [apply frame_refl|].
  destruct (pyQCDcache s !! _); [apply frame_refl|].
  pose proof (keeps_frame_generate_jackknife_cache binsize s) as Hg.
  destruct (generate_jackknife_cache binsize s) as [[[]|e] s1];
    simpl in Hg |- *; [|exact Hg].
  eapply frame_trans; [exact Hg | apply IH].
Qed.

(** X12.  Resampling never touches the data: whatever their arguments
    and whether they return or raise, the cache generators, the cache
    retrievals, [bootstrap] and [jackknife] leave the element type, the
    count, the archive file, the disk cache and the random sequence as
    they were (only the memory cache, its flags and the position in the
    random sequence may change). *)
Theorem resampling_keeps_the_data :
  (forall num_bootstraps binsize,
      keeps_frame (T := T) (generate_bootstrap_cache num_bootstraps binsize))
  /\ (forall binsize, keeps_frame (T := T) (generate_jackknife_cache binsize))
  /\ (forall limit binsize index num_bootstraps,
         keeps_frame (T := T)
           (_get_bootstrap_cache_datum limit binsize index num_bootstraps))
  /\ (forall limit binsize index,
         keeps_frame (T := T) (_get_jackknife_cache_datum limit binsize index))
  /\ (forall limit func num_bootstraps binsize use_cache,
         keeps_frame (T := T) (bootstrap limit func num_bootstraps binsize use_cache))
  /\ (forall limit func binsize use_cache,
         keeps_frame (T := T) (jackknife limit func binsize use_cache)).
Proof.
  split; [exact keeps_frame_generate_bootstrap_cache|].
  split; [exact keeps_frame_generate_jackknife_cache|].
  split; [exact keeps_frame_get_bootstrap_cache_datum|].
  split; [exact keeps_frame_get_jackknife_cache_datum|].
  split.
  - intros limit func num_bootstraps binsize use_cache. unfold bootstrap.
    destruct (binsize <? 1); [apply keeps_frame_pure|].
    apply keeps_frame_bind; [intros s; apply frame_refl|]. intros n.
    apply keeps_frame_bind.
    + destruct use_cache.
      * apply keeps_frame_bind; [intros s; apply frame_refl|]. intros cached.
        apply keeps_frame_bind.
        { destruct cached; [apply keeps_frame_pure
                           | apply keeps_frame_generate_bootstrap_cache]. }
        intros _. apply keeps_frame_for_fold. intros out i.
        apply keeps_frame_bind; [apply keeps_frame_get_bootstrap_cache_datum|].
        intros x. apply keeps_frame_bind; [apply keeps_frame_pure|].
        intros m. apply keeps_frame_pure.
      * apply keeps_frame_for_fold. intros out i.
        apply keeps_frame_bind; [apply keeps_frame_draw_resample|].
        intros x. apply keeps_frame_bind; [apply keeps_frame_pure|].
        intros m. apply keeps_frame_pure.
    + intros out. apply keeps_frame_bind; [apply keeps_frame_pure|].
      intros mean. apply keeps_frame_bind; [apply keeps_frame_pure|].
      intros sd. apply keeps_frame_pure.
  - intros limit func binsize use_cache. unfold jackknife.
    destruct (binsize <? 1); [apply keeps_frame_pure|].
    apply keeps_frame_bind; [intros s; apply frame_refl|]. intros n.
    apply keeps_frame_bind.
    + destruct use_cache.
      * apply keeps_frame_bind; [intros s; apply frame_refl|]. intros cached.
        apply keeps_frame_bind.
        { destruct cached; [apply keeps_frame_pure
                           | apply keeps_frame_generate_jackknife_cache]. }
        intros _. apply keeps_frame_for_fold. intros out i.
        apply keeps_frame_bind; [apply keeps_frame_get_jackknife_cache_datum|].
        intros x. apply keeps_frame_bind; [apply keeps_frame_pure|].
        intros m. apply keeps_frame_pure.
      * apply keeps_frame_bind; [apply read_only_keeps_frame, read_only_sum_bins|].
        intros total. apply keeps_frame_for_fold. intros out i.
        apply keeps_frame_bind; [apply read_only_keeps_frame, read_only_get_bin|].
        intros b. apply keeps_frame_bind; [apply keeps_frame_pure|].
        intros x. apply keeps_frame_bind; [apply keeps_frame_pure|].
        intros m. apply keeps_frame_pure.
    + intros out. apply keeps_frame_bind; [apply keeps_frame_pure|].
      intros mean. apply keeps_frame_bind; [apply keeps_frame_pure|].
      intros sd. apply keeps_frame_pure.
Qed.

(** X13.  A bin size below one is rejected before anything else is
    done: the two cache generators, [bootstrap], [jackknife] and
    [jackknife_datum] raise [ValueError] and leave the state as it
    was, whatever the other arguments and the content of the archive. *)
Theorem bin_size_below_one_rejected (s : @state T) (limit : nat)
    (func : T -> result Algebra.value) (num_bootstraps binsize index : Z)
    (use_cache : bool) :
  binsize < 1 ->
  generate_bootstrap_cache num_bootstraps binsize s = (Raise ValueError, s)
  /\ generate_jackknife_cache binsize s = (Raise ValueError, s)
  /\ bootstrap limit func num_bootstraps binsize use_cache s = (Raise ValueError, s)
  /\ jackknife limit func binsize use_cache s = (Raise ValueError, s)
  /\ jackknife_datum index binsize s = (Raise ValueError, s).
Proof.
  intros Hbs.
  unfold generate_bootstrap_cache, generate_jackknife_cache, bootstrap, jackknife,
    jackknife_datum.
  destruct (Z.ltb_spec binsize 1); [|lia].
  repeat split; reflexivity.
Qed.

End Frames.

Lemma bin_size_below_one_rejected_witness :
  generate_bootstrap_cache 3 0 four_scalars = (Raise ValueError, four_scalars)
  /\ generate_jackknife_cache 0 four_scalars = (Raise ValueError, four_scalars)
  /\ bootstrap 5 (fun x => Ok (Algebra.VFloat x)) 3 0 true four_scalars
     = (Raise ValueError, four_scalars)
  /\ jackknife 5 (fun x => Ok (Algebra.VFloat x)) 0 true four_scalars
     = (Raise ValueError, four_scalars)
  /\ jackknife_datum 1 0 four_scalars = (Raise ValueError, four_scalars).
Proof.
  apply (bin_size_below_one_rejected four_scalars 5
           (fun x => Ok (Algebra.VFloat x)) 3 0 1 true).
  lia.
Defined.

(** ** The jackknife *)

Lemma jackknife_name_inj (ty : pytype) (binsize i j : Z) :
  jackknife_name ty binsize i = jackknife_name ty binsize j -> i = j.
Proof.
  unfold jackknife_name. intros E.
  do 4 apply (inj (String.append _)) in E.
  exact (inj pretty _ _ E).
Qed.

Lemma traverse_Forall2 {A B : Type} (f : A -> result B) (l : list A) :
  forall rs, traverse f l = Ok rs -> Forall2 (fun i r => f i = Ok r) l rs.
Proof.
  induction l as [|a l IH]; intros rs Hrs; simpl in Hrs.
  - injection Hrs as <-. constructor.
  - destruct (f a) as [r|e] eqn:Hr; simpl in Hrs; [|discriminate].
    destruct (traverse f l) as [rs'|e]; simpl in Hrs; [|discriminate].
    injection Hrs as <-. constructor; [exact Hr | now apply IH].
Qed.

Lemma Forall2_xrange_tail {B : Type} (P : Z -> B -> Prop) (lo hi : Z) (rs : list B) :
  lo < hi -> Forall2 P (xrange lo hi) rs ->
  exists r rs', rs = r :: rs' /\ P lo r /\ Forall2 P (xrange (lo + 1) hi) rs'.
Proof.
  intros Hlt Hall. rewrite xrange_cons in Hall by exact Hlt.
  inversion Hall as [|? r ? rs' Hr Hrest]; subst. eauto.
Qed.

Lemma Forall2_In {A B : Type} (P : A -> B -> Prop) (l : list A) (rs : list B) :
  Forall2 P l rs -> Forall2 (fun i r => In i l /\ P i r) l rs.
Proof.
  induction 1 as [|i r l rs Hp Hall IH]; constructor.
  - split; [left; reflexivity | exact Hp].
  - eapply Forall2_impl; [exact IH|]. intros i' r' [Hin Hp'].
    split; [right; exact Hin | exact Hp'].
Qed.

Section Jackknife.

Context {T : Type} `{Datum T}.

Variable func : T -> result Algebra.value.

Lemma set_cache_twice (s : @state T) (c c' : gmap string T) :
  with_self (set_cache c') (with_self (set_cache c) s) = with_self (set_cache c') s.
Proof. reflexivity. Qed.

Lemma set_cache_same (s : @state T) : with_self (set_cache (cache (self s))) s = s.
Proof. destruct s as [[] ? ? ? ?]. reflexivity. Qed.

Lemma jackknife_of_parts (data : list T) (binsize i : Z) (total r : T) :
  bins_total data binsize (num_bins_of (len data) binsize) = Ok total ->
  jackknife_of data binsize i = Ok r ->
  exists b, bin_of data binsize i = Ok b
            /\ d_div (d_sub total b) (num_bins_of (len data) binsize - 1) = Ok r.
Proof.
  intros Htotal Hr. unfold jackknife_of in Hr. rewrite Htotal in Hr.
  cbn [mbind result_bind] in Hr.
  destruct (bin_of data binsize i) as [b|e]; cbn [mbind result_bind] in Hr;
    [|discriminate].
  exists b. split; [reflexivity | exact Hr].
Qed.

(** The first jackknife datum tells that the sum of the bins exists. *)
Lemma jackknife_data_total (data : list T) (binsize : Z) (rs : list T) :
  1 <= binsize -> 0 < len data ->
  jackknife_data data binsize = Ok rs ->
  exists total, bins_total data binsize (num_bins_of (len data) binsize) = Ok total.
Proof.
  intros Hbs Hpos Hrs. pose proof (num_bins_pos (len data) binsize Hpos Hbs) as Hnb.
  apply traverse_Forall2 in Hrs.
  apply Forall2_xrange_tail in Hrs as (r & rs' & _ & Hr & _); [|lia].
  unfold jackknife_of in Hr.
  destruct (bins_total data binsize _) as [total|e]; [eauto | discriminate].
Qed.

Lemma jackknife_step (s : @state T) (data : list T) (binsize i : Z) (total r : T) :
  stored s data -> 1 <= binsize ->
  0 <= i < num_bins_of (len data) binsize ->
  bins_total data binsize (num_bins_of (len data) binsize) = Ok total ->
  jackknife_of data binsize i = Ok r ->
  _get_bin binsize i s
  = (bin_of data binsize i, s)
  /\ exists b, bin_of data binsize i = Ok b
               /\ d_div (d_sub total b) (num_bins_of (len data) binsize - 1) = Ok r.
Proof.
  intros Hst Hbs Hi Htotal Hr. split.
  - apply get_bin_of; auto; try lia.
    apply bin_index_in_range; [apply AlgebraFacts.len_nonneg | lia | lia].
  - now apply jackknife_of_parts.
Qed.

(** The loop of the uncached branch of [jackknife]. *)
Lemma jackknife_uncached_loop (s : @state T) (data : list T) (binsize : Z)
    (total : T) (l : list Z) (rs : list T) :
  stored s data -> 1 <= binsize ->
  bins_total data binsize (num_bins_of (len data) binsize) = Ok total ->
  Forall2 (fun i r => 0 <= i < num_bins_of (len data) binsize
                      /\ jackknife_of data binsize i = Ok r) l rs ->
  forall out,
    for_fold (fun out i =>
                do b <- _get_bin binsize i;
                do new_datum <- lift (d_div (d_sub total b)
                                            (num_bins_of (len data) binsize - 1));
                do measurement <- lift (func new_datum);
                retM (append_measurement out measurement))
             out l s
    = (measure_all func out rs, s).
Proof.
  intros Hst Hbs Htotal Hall.
  induction Hall as [|i r l rs [Hi Hr] _ IH]; intros out; [reflexivity|].
  destruct (jackknife_step s data binsize i total r Hst Hbs Hi Htotal Hr)
    as [Hbin (b & Hb & Hdivr)].
  cbn [for_fold]. unfold bindM at 1. unfold bindM at 1. rewrite Hbin, Hb.
  unfold bindM at 1, lift. rewrite Hdivr.
  unfold bindM at 1. unfold measure_all. cbn [foldM].
  destruct (func r) as [m|e]; simpl; [|reflexivity].
  apply IH.
Qed.

(** The loop of the cached branch, on a cache that holds the records. *)
Lemma jackknife_cached_loop (s1 : @state T) (k : nat) (binsize : Z)
    (l : list Z) (rs : list T) :
  Forall2 (fun i r => cache (self s1) !! jackknife_name (datatype (self s1)) binsize i
                      = Some r) l rs ->
  forall out,
    for_fold (fun out i =>
                do jackknife_datum <- _get_jackknife_cache_datum (S k) binsize i;
                do measurement <- lift (func jackknife_datum);
                retM (append_measurement out measurement))
             out l s1
    = (measure_all func out rs, s1).
Proof.
  induction 1 as [|i r l rs Hr _ IH]; intros out; [reflexivity|].
  cbn [for_fold]. unfold bindM at 1. unfold bindM at 1.
  rewrite get_jackknife_cache_datum_step, Hr.
  unfold bindM at 1, lift. unfold measure_all. cbn [foldM].
  destruct (func r) as [m|e]; simpl; [|reflexivity].
  apply IH.
Qed.

Lemma reduce_results_jackknife (limit : nat) (out : list Algebra.value)
    (s : @state T) :
  (do mean <- lift (Algebra._mean limit out);
   do std <- lift (Algebra._std_jackknife limit out);
   retM (mean, std)) s
  = (mean_and_std_jackknife limit (Ok out), s).
Proof.
  unfold bindM, lift, retM, mean_and_std_jackknife. simpl.
  destruct (Algebra._mean limit out); simpl; [|reflexivity].
  destruct (Algebra._std_jackknife limit out); reflexivity.
Qed.

(** The generation loop stores the jackknife datum of every index under
    its name and touches no other record. *)
Lemma jackknife_fill (data : list T) (binsize : Z) (total : T) (ty : pytype)
    (n : nat) :
  1 <= binsize ->
  bins_total data binsize (num_bins_of (len data) binsize) = Ok total ->
  forall (lo : Z) (s : @state T) (rs : list T),
    stored s data -> 0 <= lo ->
    Z.to_nat (num_bins_of (len data) binsize - lo) = n ->
    Forall2 (fun i r => jackknife_of data binsize i = Ok r)
            (xrange lo (num_bins_of (len data) binsize)) rs ->
    exists c',
      for_each (fun i =>
                  do b <- _get_bin binsize i;
                  do new_datum <- lift (d_div (d_sub total b)
                                              (num_bins_of (len data) binsize - 1));
                  cache_store (jackknife_name ty binsize i) new_datum)
               (xrange lo (num_bins_of (len data) binsize)) s
      = (Ok tt, with_self (set_cache c') s)
      /\ Forall2 (fun i r => c' !! jackknife_name ty binsize i = Some r)
                 (xrange lo (num_bins_of (len data) binsize)) rs
      /\ (forall k, (forall i, lo <= i < num_bins_of (len data) binsize ->
                               jackknife_name ty binsize i <> k) ->
                    c' !! k = cache (self s) !! k).
Proof.
  intros Hbs Htotal.
  induction n as [|n IH]; intros lo s rs Hst Hlo Hn Hall.
  - rewrite xrange_empty in * by lia. inversion Hall; subst.
    exists (cache (self s)). rewrite set_cache_same.
    split; [reflexivity|]. split; [constructor | reflexivity].
  - apply Forall2_xrange_tail in Hall as (r & rs' & -> & Hr & Hrest); [|lia].
    rewrite xrange_cons by lia.
    destruct (jackknife_step s data binsize lo total r Hst Hbs ltac:(lia) Htotal Hr)
      as [Hbin (b & Hb & Hdivr)].
    set (s1 := with_self (set_cache (<[jackknife_name ty binsize lo := r]>
                                       (cache (self s)))) s).
    assert (Hst1 : stored s1 data)
      by (eapply stored_same_store; [..|exact Hst]; reflexivity).
    destruct (IH (lo + 1) s1 rs' Hst1 ltac:(lia) ltac:(lia) Hrest)
      as (c' & Hrun & Hrecs & Hother).
    exists c'. split; [|split].
    + cbn [for_each]. unfold bindM at 1. unfold bindM at 1. rewrite Hbin, Hb.
      unfold bindM at 1, lift. rewrite Hdivr.
      change (cache_store (jackknife_name ty binsize lo) r s) with (Ok tt, s1).
      cbv beta iota. exact Hrun.
    + constructor; [|exact Hrecs].
      rewrite Hother.
      * simpl. apply lookup_insert_eq.
      * intros i Hi E. apply jackknife_name_inj in E. lia.
    + intros k Hk. rewrite Hother by (intros i Hi; apply Hk; lia).
      simpl. apply lookup_insert_ne. apply Hk. lia.
Qed.

(** What [generate_jackknife_cache] does on an archive whose jackknife
    data exist. *)
Lemma generate_jackknife_cache_run (s : @state T) (data : list T) (binsize : Z)
    (rs : list T) :
  stored s data -> 1 <= binsize -> 0 < len data ->
  jackknife_data data binsize = Ok rs ->
  exists c',
    generate_jackknife_cache binsize s
    = (Ok tt, with_self (set_jackknifes_cached true) (with_self (set_cache c') s))
    /\ Forall2 (fun i r => c' !! jackknife_name (datatype (self s)) binsize i = Some r)
               (xrange 0 (num_bins_of (len data) binsize)) rs
    /\ (forall k, (forall i, 0 <= i < num_bins_of (len data) binsize ->
                             jackknife_name (datatype (self s)) binsize i <> k) ->
                  c' !! k = cache (self s) !! k).
Proof.
  intros Hst Hbs Hpos Hrs. pose proof (AlgebraFacts.len_nonneg data) as Hn.
  pose proof (num_bins_le_count (len data) binsize Hn Hbs) as Hle.
  destruct (jackknife_data_total data binsize rs Hbs Hpos Hrs) as [total Htotal].
  apply traverse_Forall2 in Hrs.
  destruct (jackknife_fill data binsize total (datatype (self s)) _ Hbs Htotal
              0 s rs Hst ltac:(lia) eq_refl Hrs) as (c' & Hrun & Hrecs & Hother).
  exists c'. split; [|split; [exact Hrecs | exact Hother]].
  unfold generate_jackknife_cache.
  destruct (Z.ltb_spec binsize 1); [lia|].
  unfold bindM at 1, gets. unfold bindM at 1, gets.
  assert (Hcount : num_data (self s) = len data) by apply Hst.
  rewrite Hcount. unfold bindM at 1.
  rewrite (sum_bins_total s data binsize _ Hst) by lia.
  rewrite Htotal. unfold bindM at 1. rewrite Hrun. reflexivity.
Qed.

Lemma jackknife_uncached_run (s : @state T) (data : list T) (binsize : Z)
    (limit : nat) (rs : list T) :
  stored s data -> 1 <= binsize -> 0 < len data ->
  jackknife_data data binsize = Ok rs ->
  jackknife limit func binsize false s
  = (mean_and_std_jackknife limit (measure_all func [] rs), s).
Proof.
  intros Hst Hbs Hpos Hrs. pose proof (AlgebraFacts.len_nonneg data) as Hn.
  destruct (jackknife_data_total data binsize rs Hbs Hpos Hrs) as [total Htotal].
  apply traverse_Forall2 in Hrs.
  assert (Hall : Forall2 (fun i r => 0 <= i < num_bins_of (len data) binsize
                                     /\ jackknife_of data binsize i = Ok r)
                         (xrange 0 (num_bins_of (len data) binsize)) rs).
  { apply Forall2_In in Hrs. eapply Forall2_impl; [exact Hrs|].
    intros i r [Hin Hr]. split; [apply in_xrange in Hin; lia | exact Hr]. }
  unfold jackknife. destruct (Z.ltb_spec binsize 1); [lia|].
  unfold bindM at 1, gets.
  assert (Hcount : num_data (self s) = len data) by apply Hst.
  rewrite Hcount. unfold bindM at 1. unfold bindM at 1.
  rewrite (sum_bins_total s data binsize _ Hst) by lia.
  rewrite Htotal.
  rewrite (jackknife_uncached_loop s data binsize total _ rs Hst Hbs Htotal Hall).
  destruct (measure_all func [] rs) as [out|e]; [|reflexivity].
  apply reduce_results_jackknife.
Qed.

Lemma jackknife_cached_run (s : @state T) (data : list T) (binsize : Z)
    (k : nat) (rs : list T) :
  stored s data -> 1 <= binsize ->
  jackknifes_cached (self s) = true ->
  Forall2 (fun i r => cache (self s) !! jackknife_name (datatype (self s)) binsize i
                      = Some r)
          (xrange 0 (num_bins_of (len data) binsize)) rs ->
  jackknife (S k) func binsize true s
  = (mean_and_std_jackknife (S k) (measure_all func [] rs), s).
Proof.
  intros [Hcount _] Hbs Hflag Hrs.
  unfold jackknife. destruct (Z.ltb_spec binsize 1); [lia|].
  unfold bindM at 1, gets. rewrite Hcount.
  unfold bindM at 1. unfold bindM at 1, gets. rewrite Hflag.
  unfold bindM at 1, retM.
  rewrite (jackknife_cached_loop s k binsize _ rs Hrs).
  destruct (measure_all func [] rs) as [out|e]; [|reflexivity].
  apply reduce_results_jackknife.
Qed.

Lemma jackknife_generating_run (s : @state T) (data : list T) (binsize : Z)
    (k : nat) (rs : list T) (c' : gmap string T) :
  stored s data -> 1 <= binsize ->
  jackknifes_cached (self s) = false ->
  generate_jackknife_cache binsize s
  = (Ok tt, with_self (set_jackknifes_cached true) (with_self (set_cache c') s)) ->
  Forall2 (fun i r => c' !! jackknife_name (datatype (self s)) binsize i = Some r)
          (xrange 0 (num_bins_of (len data) binsize)) rs ->
  jackknife (S k) func binsize true s
  = (mean_and_std_jackknife (S k) (measure_all func [] rs),
     with_self (set_jackknifes_cached true) (with_self (set_cache c') s)).
Proof.
  intros [Hcount _] Hbs Hflag Hgen Hrs.
  unfold jackknife. destruct (Z.ltb_spec binsize 1); [lia|].
  unfold bindM at 1, gets. rewrite Hcount.
  unfold bindM at 1. unfold bindM at 1, gets. rewrite Hflag.
  unfold bindM at 1. rewrite Hgen.
  rewrite (jackknife_cached_loop
             (with_self (set_jackknifes_cached true) (with_self (set_cache c') s))
             k binsize _ rs Hrs).
  destruct (measure_all func [] rs) as [out|e]; [|reflexivity].
  apply reduce_results_jackknife.
Qed.

End Jackknife.

Lemma Forall2_and {A B : Type} (P Q : A -> B -> Prop) (l : list A) (rs : list B) :
  Forall2 P l rs -> Forall2 Q l rs -> Forall2 (fun i r => P i r /\ Q i r) l rs.
Proof.
  intros HP. induction HP as [|i r l rs Hp _ IH]; intros HQ;
    inversion HQ; subst; constructor; auto.
Qed.

(** The jackknife data are what [jackknife_datum] returns, index by
    index. *)
Lemma jackknife_data_datum {T : Type} `{Datum T} (s : @state T) (data : list T)
    (binsize : Z) (rs : list T) :
  stored s data -> 1 <= binsize ->
  jackknife_data data binsize = Ok rs ->
  Forall2 (fun i r => jackknife_datum i binsize s = (Ok r, s))
          (xrange 0 (num_bins_of (len data) binsize)) rs.
Proof.
  intros Hst Hbs Hrs. apply traverse_Forall2 in Hrs. apply Forall2_In in Hrs.
  eapply Forall2_impl; [exact Hrs|]. intros i r [Hin Hr].
  apply in_xrange in Hin.
  rewrite (jackknife_datum_formula s data i binsize Hst Hbs Hin). now rewrite Hr.
Qed.

(** X14.  Without the cache, on an archive holding at least one datum
    whose jackknife data all exist, [jackknife] applies the function to
    the jackknife datum of every bin in turn (the values
    [jackknife_datum] returns), keeps the results other than [None] and
    returns their mean and their jackknife standard deviation; the state
    is left as it was. *)
Theorem jackknife_without_cache {T : Type} `{Datum T}
    (func : T -> result Algebra.value) (s : @state T) (data : list T)
    (binsize : Z) (limit : nat) (rs : list T) :
  stored s data -> 1 <= binsize -> 0 < len data ->
  jackknife_data data binsize = Ok rs ->
  Forall2 (fun i r => jackknife_datum i binsize s = (Ok r, s))
          (xrange 0 (num_bins_of (len data) binsize)) rs
  /\ jackknife limit func binsize false s
     = (mean_and_std_jackknife limit (measure_all func [] rs), s).
Proof.
  intros Hst Hbs Hpos Hrs. split.
  - now apply (jackknife_data_datum s data).
  - now apply (jackknife_uncached_run func s data).
Qed.

(** X15.  With the cache, on an archive whose jackknife data are not
    yet cached, [jackknife] generates the batch and returns the very
    outcome of the uncached computation; afterwards the batch is marked
    as cached and a further call returns the same outcome without
    changing the state. *)
Theorem jackknife_with_cache {T : Type} `{Datum T}
    (func : T -> result Algebra.value) (s : @state T) (data : list T)
    (binsize : Z) (k : nat) (rs : list T) :
  stored s data -> 1 <= binsize -> 0 < len data ->
  jackknife_data data binsize = Ok rs ->
  jackknifes_cached (self s) = false ->
  exists s1,
    jackknife (S k) func binsize true s
    = (mean_and_std_jackknife (S k) (measure_all func [] rs), s1)
    /\ (jackknife (S k) func binsize true s).1
       = (jackknife (S k) func binsize false s).1
    /\ jackknifes_cached (self s1) = true
    /\ jackknife (S k) func binsize true s1
       = (mean_and_std_jackknife (S k) (measure_all func [] rs), s1).
Proof.
  intros Hst Hbs Hpos Hrs Hflag.
  destruct (generate_jackknife_cache_run s data binsize rs Hst Hbs Hpos Hrs)
    as (c' & Hgen & Hrecs & _).
  pose proof (jackknife_generating_run func s data binsize k rs c'
                Hst Hbs Hflag Hgen Hrecs) as Hrun.
  exists (with_self (set_jackknifes_cached true) (with_self (set_cache c') s)).
  split; [exact Hrun|]. split; [|split; [reflexivity|]].
  - rewrite Hrun. now rewrite (jackknife_uncached_run func s data binsize _ rs).
  - apply (jackknife_cached_run func _ data binsize k rs);
      [eapply stored_same_store; [..|exact Hst]; reflexivity
      | exact Hbs | reflexivity | exact Hrecs].
Qed.

(** X16.  [generate_jackknife_cache] stores under the name of every
    bin index the value [jackknife_datum] returns for it, marks the
    batch as cached and leaves every record under another name as it
    was; from then on the retrieval of an index returns that value from
    memory, leaving the state alone. *)
Theorem generate_jackknife_cache_stores_jackknife_data {T : Type} `{Datum T}
    (s : @state T) (data : list T) (binsize : Z) (rs : list T) (k : nat) :
  stored s data -> 1 <= binsize -> 0 < len data ->
  jackknife_data data binsize = Ok rs ->
  exists s1,
    generate_jackknife_cache binsize s = (Ok tt, s1)
    /\ jackknifes_cached (self s1) = true
    /\ Forall2 (fun i r =>
                  jackknife_datum i binsize s = (Ok r, s)
                  /\ cache (self s1) !! jackknife_name (datatype (self s)) binsize i
                     = Some r
                  /\ _get_jackknife_cache_datum (S k) binsize i s1 = (Ok r, s1))
               (xrange 0 (num_bins_of (len data) binsize)) rs
    /\ (forall name,
           (forall i, 0 <= i < num_bins_of (len data) binsize ->
                      jackknife_name (datatype (self s)) binsize i <> name) ->
           cache (self s1) !! name = cache (self s) !! name).
Proof.
  intros Hst Hbs Hpos Hrs.
  destruct (generate_jackknife_cache_run s data binsize rs Hst Hbs Hpos Hrs)
    as (c' & Hgen & Hrecs & Hother).
  exists (with_self (set_jackknifes_cached true) (with_self (set_cache c') s)).
  split; [exact Hgen|]. split; [reflexivity|]. split; [|exact Hother].
  apply Forall2_and; [now apply (jackknife_data_datum s data)|].
  eapply Forall2_impl; [exact Hrecs|]. intros i r Hr. split; [exact Hr|].
  rewrite get_jackknife_cache_datum_step. simpl. now rewrite Hr.
Qed.

(** ** Archives of floats *)

Local Open Scope R_scope.

Lemma jackknife_data_four :
  jackknife_data [1; 2; 3; 4] 1 = Ok [3; 8 / 3; 7 / 3; 2].
Proof.
  vm_compute. apply (f_equal Ok).
  repeat (apply (f_equal2 cons); [lra|]). reflexivity.
Qed.

Lemma jackknife_without_cache_witness :
  Forall2 (fun i r => jackknife_datum i 1 four_scalars = (Ok r, four_scalars))
          (xrange 0 (num_bins_of (len [1; 2; 3; 4]) 1)) [3; 8 / 3; 7 / 3; 2]
  /\ jackknife 1 (fun x => Ok (Algebra.VFloat x)) 1 false four_scalars
     = (mean_and_std_jackknife 1
          (measure_all (fun x => Ok (Algebra.VFloat x)) [] [3; 8 / 3; 7 / 3; 2]),
        four_scalars).
Proof.
  apply (jackknife_without_cache (fun x => Ok (Algebra.VFloat x)) four_scalars
           [1; 2; 3; 4] 1 1 [3; 8 / 3; 7 / 3; 2]).
  - exact stored_appended_scalars.
  - lia.
  - reflexivity.
  - exact jackknife_data_four.
Defined.

Lemma jackknife_with_cache_witness :
  exists s1,
    jackknife 1 (fun x => Ok (Algebra.VFloat x)) 1 true four_scalars
    = (mean_and_std_jackknife 1
         (measure_all (fun x => Ok (Algebra.VFloat x)) [] [3; 8 / 3; 7 / 3; 2]), s1)
    /\ (jackknife 1 (fun x => Ok (Algebra.VFloat x)) 1 true four_scalars).1
       = (jackknife 1 (fun x => Ok (Algebra.VFloat x)) 1 false four_scalars).1
    /\ jackknifes_cached (self s1) = true
    /\ jackknife 1 (fun x => Ok (Algebra.VFloat x)) 1 true s1
       = (mean_and_std_jackknife 1
            (measure_all (fun x => Ok (Algebra.VFloat x)) [] [3; 8 / 3; 7 / 3; 2]), s1).
Proof.
  apply (jackknife_with_cache (fun x => Ok (Algebra.VFloat x)) four_scalars
           [1; 2; 3; 4] 1 0 [3; 8 / 3; 7 / 3; 2]).
  - exact stored_appended_scalars.
  - lia.
  - reflexivity.
  - exact jackknife_data_four.
  - reflexivity.
Defined.

Lemma generate_jackknife_cache_stores_jackknife_data_witness :
  exists s1,
    generate_jackknife_cache 1 four_scalars = (Ok tt, s1)
    /\ jackknifes_cached (self s1) = true
    /\ Forall2 (fun i r =>
                  jackknife_datum i 1 four_scalars = (Ok r, four_scalars)
                  /\ cache (self s1) !! jackknife_name (datatype (self four_scalars)) 1 i
                     = Some r
                  /\ _get_jackknife_cache_datum 1 1 i s1 = (Ok r, s1))
               (xrange 0 (num_bins_of (len [1; 2; 3; 4]) 1)) [3; 8 / 3; 7 / 3; 2]
    /\ (forall name,
           (forall i, (0 <= i < num_bins_of (len [1; 2; 3; 4]) 1)%Z ->
                      jackknife_name (datatype (self four_scalars)) 1 i <> name) ->
           cache (self s1) !! name = cache (self four_scalars) !! name).
Proof.
  apply (generate_jackknife_cache_stores_jackknife_data four_scalars
           [1; 2; 3; 4] 1 [3; 8 / 3; 7 / 3; 2] 0).
  - exact stored_appended_scalars.
  - lia.
  - reflexivity.
  - exact jackknife_data_four.
Defined.







Lemma num_bins_of_empty (binsize : Z) : num_bins_of 0 binsize = 0%Z.
Proof. unfold num_bins_of. now rewrite Zmod_0_l, Zdiv_0_l. Qed.

(** X18.  With a single bin the jackknife divides by the number of
    bins less one, which is zero: on an archive of floats
    [jackknife_datum], [generate_jackknife_cache] and [jackknife] (with
    the cache not yet generated, or without it) raise
    [ZeroDivisionError] and leave the state as it was. *)
Theorem jackknife_single_bin_raises (s : @state R) (xs : list R)
    (func : R -> result Algebra.value) (binsize : Z) (limit : nat) :
  stored s xs -> (1 <= binsize)%Z -> num_bins_of (len xs) binsize = 1%Z ->
  jackknifes_cached (self s) = false ->
  jackknife_datum 0 binsize s = (Raise ZeroDivisionError, s)
  /\ generate_jackknife_cache binsize s = (Raise ZeroDivisionError, s)
  /\ jackknife limit func binsize false s = (Raise ZeroDivisionError, s)
  /\ jackknife limit func binsize true s = (Raise ZeroDivisionError, s).
Proof.
  intros Hst Hbs Hnb Hflag. pose proof (AlgebraFacts.len_nonneg xs) as Hn.
  assert (Hpos : (0 < len xs)%Z).
  { destruct (Z.eq_dec (len xs) 0%Z) as [E|E]; [|lia].
    rewrite E, num_bins_of_empty in Hnb. discriminate. }
  assert (Hcount : num_data (self s) = len xs) by apply Hst.
  destruct (bins_total_ok float_total_division xs binsize Hbs Hpos) as [total Htotal].
  rewrite Hnb in Htotal.
  assert (Hbin : _get_bin binsize 0 s = (Ok (Rbin xs binsize 0), s)).
  { rewrite (get_bin_of s xs binsize 0 Hst Hbs) by lia.
    now rewrite bin_of_floats by lia. }
  assert (Hsum : sum_bins binsize 1 s = (Ok total, s)).
  { rewrite (sum_bins_total s xs binsize 1 Hst Hbs Hpos) by lia. now rewrite Htotal. }
  assert (Hgen : generate_jackknife_cache binsize s = (Raise ZeroDivisionError, s)).
  { unfold generate_jackknife_cache. destruct (Z.ltb_spec binsize 1); [lia|].
    unfold bindM at 1, gets. unfold bindM at 1, gets. rewrite Hcount, Hnb.
    unfold bindM at 1. rewrite Hsum.
    change (xrange 0 1) with [0%Z]. cbn [for_each].
    unfold bindM at 1. unfold bindM at 1. unfold bindM at 1. rewrite Hbin.
    reflexivity. }
  split; [|split; [exact Hgen|split]].
  - rewrite (jackknife_datum_formula s xs 0 binsize Hst Hbs) by lia.
    unfold jackknife_of. rewrite Hnb, Htotal. cbn [mbind result_bind].
    rewrite bin_of_floats by lia. reflexivity.
  - unfold jackknife. destruct (Z.ltb_spec binsize 1); [lia|].
    unfold bindM at 1, gets. rewrite Hcount, Hnb.
    unfold bindM at 1. unfold bindM at 1. rewrite Hsum.
    change (xrange 0 1) with [0%Z]. cbn [for_fold].
    unfold bindM at 1. unfold bindM at 1. rewrite Hbin. reflexivity.
  - unfold jackknife. destruct (Z.ltb_spec binsize 1); [lia|].
    unfold bindM at 1, gets. rewrite Hcount, Hnb.
    unfold bindM at 1. unfold bindM at 1, gets. rewrite Hflag.
    unfold bindM at 1. rewrite Hgen. reflexivity.
Qed.

Lemma jackknife_single_bin_raises_witness :
  jackknife_datum 0 2 two_scalars = (Raise ZeroDivisionError, two_scalars)
  /\ generate_jackknife_cache 2 two_scalars = (Raise ZeroDivisionError, two_scalars)
  /\ jackknife 1 (fun x => Ok (Algebra.VFloat x)) 2 false two_scalars
     = (Raise ZeroDivisionError, two_scalars)
  /\ jackknife 1 (fun x => Ok (Algebra.VFloat x)) 2 true two_scalars
     = (Raise ZeroDivisionError, two_scalars).
Proof.
  apply (jackknife_single_bin_raises two_scalars [1; 2]
           (fun x => Ok (Algebra.VFloat x)) 2 1).
  - exact stored_two.
  - lia.
  - reflexivity.
  - reflexivity.
Defined.

Local Close Scope R_scope.

(** ** Cache batches and edge cases *)

Lemma all_digits_pretty (z : Z) : 1 <= z -> all_digits (pretty z) = true.
Proof.
  intros Hz. destruct z as [|p|p]; [lia| |lia].
  change (pretty (Z.pos p)) with (pretty_N_go (N.pos p) "").
  now apply all_digits_pretty_go.
Qed.

Lemma digits_before_underscore (a a' b b' : string) :
  all_digits a = true -> all_digits a' = true ->
  a +:+ String "_" b = a' +:+ String "_" b' -> a = a'.
Proof.
  revert a'. induction a as [|c a IH]; intros [|c' a'] Ha Ha' E.
  - reflexivity.
  - change (String "_" b = String c' (a' +:+ String "_" b')) in E.
    injection E as <- _. discriminate Ha'.
  - change (String c (a +:+ String "_" b) = String "_" b') in E.
    injection E as -> _. discriminate Ha.
  - rewrite !append_cons in E. injection E as <- E.
    simpl in Ha, Ha'. destruct (digit_of c); [|discriminate].
    f_equal. now apply IH.
Qed.

Lemma bootstrap_name_binsize (ty : pytype) (binsize binsize' i j : Z) :
  1 <= binsize -> 1 <= binsize' ->
  bootstrap_name ty binsize i = bootstrap_name ty binsize' j -> binsize = binsize'.
Proof.
  unfold bootstrap_name. intros Hb Hb' E.
  do 2 apply (inj (String.append _)) in E.
  apply digits_before_underscore in E; try now apply all_digits_pretty.
  exact (inj pretty _ _ E).
Qed.

Lemma jackknife_name_binsize (ty : pytype) (binsize binsize' i j : Z) :
  1 <= binsize -> 1 <= binsize' ->
  jackknife_name ty binsize i = jackknife_name ty binsize' j -> binsize = binsize'.
Proof.
  unfold jackknife_name. intros Hb Hb' E.
  do 2 apply (inj (String.append _)) in E.
  apply digits_before_underscore in E; try now apply all_digits_pretty.
  exact (inj pretty _ _ E).
Qed.

Lemma bootstrap_name_not_jackknife (ty : pytype) (binsize binsize' i j : Z) :
  bootstrap_name ty binsize i <> jackknife_name ty binsize' j.
Proof.
  unfold bootstrap_name, jackknife_name. intros E.
  apply (inj (String.append _)) in E.
  rewrite !append_cons in E. discriminate E.
Qed.

Lemma traverse_ok {A B : Type} (f : A -> result B) (l : list A) :
  (forall i, In i l -> exists r, f i = Ok r) -> exists rs, traverse f l = Ok rs.
Proof.
  induction l as [|a l IH]; intros Hall; [exists []; reflexivity|].
  destruct (Hall a) as [r Hr]; [left; reflexivity|].
  destruct IH as [rs Hrs]; [intros i Hi; apply Hall; right; exact Hi|].
  exists (r :: rs). simpl. rewrite Hr. simpl. rewrite Hrs. reflexivity.
Qed.

Lemma measure_all_none {T : Type} (func : T -> result Algebra.value) (rs : list T) :
  (forall x, func x = Ok Algebra.VNone) ->
  forall out, measure_all func out rs = Ok out.
Proof.
  intros Hnone. unfold measure_all. induction rs as [|r rs IH]; intros out;
    [reflexivity|].
  simpl. rewrite Hnone. simpl. apply IH.
Qed.

Section Batches.

Context {T : Type} `{Datum T}.

Hypothesis Hdiv : total_division (T := T).

(** With a total division and at least two bins every jackknife datum
    exists. *)
Lemma jackknife_data_ok (data : list T) (binsize : Z) :
  1 <= binsize -> 2 <= num_bins_of (len data) binsize ->
  exists rs, jackknife_data data binsize = Ok rs.
Proof.
  intros Hbs Hnb. pose proof (AlgebraFacts.len_nonneg data) as Hn.
  pose proof (num_bins_le_count (len data) binsize Hn Hbs) as Hle.
  destruct (bins_total_ok Hdiv data binsize Hbs ltac:(lia)) as [total Htotal].
  apply traverse_ok. intros i Hi. apply in_xrange in Hi.
  unfold jackknife_of. rewrite Htotal. cbn [mbind result_bind].
  destruct (bin_of_ok Hdiv data binsize i Hbs) as [b ->].
  { split; [lia | apply bin_index_in_range; lia]. }
  cbn [mbind result_bind]. apply Hdiv. lia.
Qed.

End Batches.

(** X19.  Once [bootstrap] has generated its cache, the cached call is
    repeatable: a further call with the cache returns the same outcome
    and leaves the state as it is, whatever number of bootstraps it is
    given (the argument is not looked at when the records are there). *)
Theorem cached_bootstrap_is_repeatable {T : Type} `{Datum T}
    (func : T -> result Algebra.value) (s : @state T) (data : list T)
    (num_bootstraps binsize : Z) (k : nat) :
  total_division (T := T) ->
  stored s data -> 1 <= binsize -> 0 < len data ->
  bootstraps_cached (self s) = false ->
  num_bins_of (len data) binsize <= num_bootstraps ->
  exists outcome s1,
    bootstrap (S k) func num_bootstraps binsize true s = (outcome, s1)
    /\ bootstraps_cached (self s1) = true
    /\ forall num_bootstraps',
         bootstrap (S k) func num_bootstraps' binsize true s1 = (outcome, s1).
Proof.
  intros Hdiv Hst Hbs Hpos Hflag Hnb.
  destruct (bootstrap_cached func Hdiv s data num_bootstraps binsize k
              Hst Hbs Hpos Hflag Hnb) as (s1 & rs & Hgen & Hrs & Hrun).
  destruct (generate_bootstrap_cache_fills Hdiv s data num_bootstraps binsize
              Hst Hbs Hpos) as (s1' & Hgen' & Hframe & Hflag' & _).
  rewrite Hgen in Hgen'. injection Hgen' as <-.
  exists (mean_and_std (S k) (measure_all func [] rs)), s1.
  split; [exact Hrun|]. split; [exact Hflag'|]. intros num_bootstraps'.
  apply (bootstrap_cache_hit func s1 data num_bootstraps' binsize k rs);
    [exact (frame_stored s s1 data Hframe Hst) | exact Hbs | exact Hflag'|].
  destruct Hframe as (Hty & _). now rewrite Hty.
Qed.

(** X20.  When no measurement is collected the reducers have nothing
    to average: [bootstrap] and [jackknife] without the cache raise
    [IndexError] when the measurement function only returns [None], and
    so does [bootstrap] with any function when asked for no bootstrap
    at all. *)
Theorem no_measurement_collected {T : Type} `{Datum T}
    (func : T -> result Algebra.value) (s : @state T) (data : list T)
    (num_bootstraps binsize : Z) (limit : nat) :
  total_division (T := T) ->
  stored s data -> 1 <= binsize -> 2 <= num_bins_of (len data) binsize ->
  (forall x, func x = Ok Algebra.VNone) ->
  (bootstrap limit func num_bootstraps binsize false s).1 = Raise IndexError
  /\ jackknife limit func binsize false s = (Raise IndexError, s)
  /\ (forall func' : T -> result Algebra.value,
         bootstrap limit func' 0 binsize false s = (Raise IndexError, s)).
Proof.
  intros Hdiv Hst Hbs Hnb Hnone. pose proof (AlgebraFacts.len_nonneg data) as Hn.
  pose proof (num_bins_le_count (len data) binsize Hn Hbs) as Hle.
  split; [|split].
  - destruct (bootstrap_uncached func Hdiv s data num_bootstraps binsize limit
                Hst Hbs ltac:(lia)) as (rs & _ & _ & ->).
    now rewrite measure_all_none.
  - destruct (jackknife_data_ok Hdiv data binsize Hbs Hnb) as [rs Hrs].
    rewrite (jackknife_uncached_run func s data binsize limit rs Hst Hbs
               ltac:(lia) Hrs).
    now rewrite measure_all_none.
  - intros func'. unfold bootstrap. destruct (Z.ltb_spec binsize 1); [lia|].
    reflexivity.
Qed.

(** X21.  The cache batches do not disturb each other: generating the
    bootstrap batch of a bin size leaves every jackknife record and
    every bootstrap record of another bin size as it was, and
    generating the jackknife batch leaves every bootstrap record and
    every jackknife record of another bin size as it was. *)
Theorem cache_batches_coexist {T : Type} `{Datum T}
    (s : @state T) (data : list T) (num_bootstraps binsize : Z) :
  total_division (T := T) ->
  stored s data -> 1 <= binsize -> 2 <= num_bins_of (len data) binsize ->
  (exists s1,
      generate_bootstrap_cache num_bootstraps binsize s = (Ok tt, s1)
      /\ (forall binsize' j,
             cache (self s1) !! jackknife_name (datatype (self s)) binsize' j
             = cache (self s) !! jackknife_name (datatype (self s)) binsize' j)
      /\ (forall binsize' j,
             1 <= binsize' -> binsize' <> binsize ->
             cache (self s1) !! bootstrap_name (datatype (self s)) binsize' j
             = cache (self s) !! bootstrap_name (datatype (self s)) binsize' j))
  /\ (exists s2,
         generate_jackknife_cache binsize s = (Ok tt, s2)
         /\ (forall binsize' j,
                cache (self s2) !! bootstrap_name (datatype (self s)) binsize' j
                = cache (self s) !! bootstrap_name (datatype (self s)) binsize' j)
         /\ (forall binsize' j,
                1 <= binsize' -> binsize' <> binsize ->
                cache (self s2) !! jackknife_name (datatype (self s)) binsize' j
                = cache (self s) !! jackknife_name (datatype (self s)) binsize' j)).
Proof.
  intros Hdiv Hst Hbs Hnb. pose proof (AlgebraFacts.len_nonneg data) as Hn.
  pose proof (num_bins_le_count (len data) binsize Hn Hbs) as Hle.
  split.
  - destruct (generate_bootstrap_cache_fills Hdiv s data num_bootstraps binsize
                Hst Hbs ltac:(lia)) as (s1 & Hgen & _ & _ & _ & Hother).
    exists s1. split; [exact Hgen|]. split.
    + intros binsize' j. apply Hother. intros i _.
      apply bootstrap_name_not_jackknife.
    + intros binsize' j Hb' Hne. apply Hother. intros i _ E.
      apply bootstrap_name_binsize in E; [congruence | exact Hbs | exact Hb'].
  - destruct (jackknife_data_ok Hdiv data binsize Hbs Hnb) as [rs Hrs].
    destruct (generate_jackknife_cache_run s data binsize rs Hst Hbs ltac:(lia) Hrs)
      as (c' & Hgen & _ & Hother).
    eexists. split; [exact Hgen|]. split.
    + intros binsize' j. simpl. apply Hother. intros i _ E. symmetry in E.
      exact (bootstrap_name_not_jackknife _ _ _ _ _ E).
    + intros binsize' j Hb' Hne. simpl. apply Hother. intros i _ E.
      apply jackknife_name_binsize in E; [congruence | exact Hbs | exact Hb'].
Qed.


Lemma cached_bootstrap_is_repeatable_witness :
  exists outcome s1,
    bootstrap 1 (fun x => Ok (Algebra.VFloat x)) 5 1 true four_scalars = (outcome, s1)
    /\ bootstraps_cached (self s1) = true
    /\ forall num_bootstraps',
         bootstrap 1 (fun x => Ok (Algebra.VFloat x)) num_bootstraps' 1 true s1
         = (outcome, s1).
Proof.
  apply (cached_bootstrap_is_repeatable (fun x => Ok (Algebra.VFloat x))
           four_scalars [1%R; 2%R; 3%R; 4%R] 5 1 0).
  - exact float_total_division.
  - exact stored_appended_scalars.
  - lia.
  - reflexivity.
  - reflexivity.
  - vm_compute. discriminate.
Defined.

Lemma no_measurement_collected_witness :
  (bootstrap 1 (fun _ : R => Ok Algebra.VNone) 3 1 false four_scalars).1
  = Raise IndexError
  /\ jackknife 1 (fun _ : R => Ok Algebra.VNone) 1 false four_scalars
     = (Raise IndexError, four_scalars)
  /\ (forall func' : R -> result Algebra.value,
         bootstrap 1 func' 0 1 false four_scalars = (Raise IndexError, four_scalars)).
Proof.
  apply (no_measurement_collected (fun _ : R => Ok Algebra.VNone) four_scalars
           [1%R; 2%R; 3%R; 4%R] 3 1 1).
  - exact float_total_division.
  - exact stored_appended_scalars.
  - lia.
  - vm_compute. discriminate.
  - reflexivity.
Defined.

Lemma cache_batches_coexist_witness :
  (exists s1,
      generate_bootstrap_cache 3 1 four_scalars = (Ok tt, s1)
      /\ (forall binsize' j,
             cache (self s1) !! jackknife_name (datatype (self four_scalars)) binsize' j
             = cache (self four_scalars)
                 !! jackknife_name (datatype (self four_scalars)) binsize' j)
      /\ (forall binsize' j,
             1 <= binsize' -> binsize' <> 1 ->
             cache (self s1) !! bootstrap_name (datatype (self four_scalars)) binsize' j
             = cache (self four_scalars)
                 !! bootstrap_name (datatype (self four_scalars)) binsize' j))
  /\ (exists s2,
         generate_jackknife_cache 1 four_scalars = (Ok tt, s2)
         /\ (forall binsize' j,
                cache (self s2) !! bootstrap_name (datatype (self four_scalars)) binsize' j
                = cache (self four_scalars)
                    !! bootstrap_name (datatype (self four_scalars)) binsize' j)
         /\ (forall binsize' j,
                1 <= binsize' -> binsize' <> 1 ->
                cache (self s2) !! jackknife_name (datatype (self four_scalars)) binsize' j
                = cache (self four_scalars)
                    !! jackknife_name (datatype (self four_scalars)) binsize' j)).
Proof.
  apply (cache_batches_coexist four_scalars [1%R; 2%R; 3%R; 4%R] 3 1).
  - exact float_total_division.
  - exact stored_appended_scalars.
  - lia.
  - vm_compute. discriminate.
Defined.


End ResampleMore.
